(** * godot-mcp: operation execution and process supervision

    A shallow embedding of the TypeScript sources of the Godot MCP
    server (src/server.ts, src/handlers/*.ts, src/modules/*.ts,
    src/utils/path-validator.ts) together with the properties stated
    about them.

    Conventions of the embedding.
    - A JavaScript string is a [string]: the sequence of the bytes of
      its UTF-8 encoding.  The only characters the code inspects are
      ASCII (the dot and the line feed), and UTF-8 never produces an
      ASCII byte inside a multi-byte sequence, so [includes] and
      [split] agree with their JavaScript counterparts.
    - An optional property of an argument object ([args.scene]) is an
      [option]; JavaScript truthiness of such a property is [truthy].
    - An asynchronous function is a computation in the monad [M]: it
      threads the state of the server, and ends either in a value (the
      promise is fulfilled) or in a thrown value (the promise is
      rejected).  [await] is the bind of [M].
    - What the outside world answers (file system, child processes) is
      a parameter of the development, see [Section Server]. *)

From Stdlib Require Import ZArith Ascii String List Lia Bool.
From stdpp Require Import base option list gmap strings.
Import ListNotations.

Local Open Scope string_scope.
Local Open Scope list_scope.

(** ** JavaScript string primitives used by the sources *)

Module Js.

(** [s.includes(needle)]: [needle] occurs in [s] at some position. *)
Fixpoint includes (needle s : string) : bool :=
  if String.prefix needle s then true
  else match s with
       | EmptyString => false
       | String _ rest => includes needle rest
       end.

(** Truthiness of a string: every string but the empty one. *)
Definition nonempty (s : string) : bool :=
  match s with
  | EmptyString => false
  | String _ _ => true
  end.

(** Truthiness of an optional string property: [undefined] and the
    empty string are falsy. *)
Definition truthy (o : option string) : bool :=
  match o with
  | None => false
  | Some s => nonempty s
  end.

(** [a || b] on strings. *)
Definition or_else (a : option string) (b : string) : string :=
  match a with
  | Some s => if nonempty s then s else b
  | None => b
  end.

Definition LF : ascii := ascii_of_nat 10.

(** The double-quote character, as a string. *)
Definition quote : string := String (ascii_of_nat 34) EmptyString.

(** [s.split(sep)] for a one-character separator: the pieces between
    the occurrences of [sep], empty pieces included. *)
Fixpoint split (sep : ascii) (s : string) : list string :=
  match s with
  | EmptyString => [EmptyString]
  | String c rest =>
      if Ascii.eqb c sep then EmptyString :: split sep rest
      else match split sep rest with
           | piece :: pieces => String c piece :: pieces
           | [] => [String c EmptyString]
           end
  end.

(** Number of occurrences of a character. *)
Fixpoint count (sep : ascii) (s : string) : nat :=
  match s with
  | EmptyString => 0
  | String c rest => (if Ascii.eqb c sep then 1 else 0) + count sep rest
  end.

(** [pieces.join(sep)]. *)
Fixpoint join (sep : ascii) (pieces : list string) : string :=
  match pieces with
  | [] => EmptyString
  | [p] => p
  | p :: rest => p +:+ String sep (join sep rest)
  end.

End Js.

(** ** src/utils/path-validator.ts *)

Module PathValidator.

(** [validatePath(path)]:
    [if (!path || path.includes('..')) return false; return true]. *)
Definition validatePath (path : string) : bool :=
  if negb (Js.nonempty path) || Js.includes ".." path then false else true.

End PathValidator.

(** ** src/types/index.ts: the data model *)

(** A content block [{ type: "text", text }]; the type tag is the
    constant ["text"]. *)
Record TextContent := { text : string }.

(** [ToolResponse]: content blocks and the optional [isError] flag. *)
Record ToolResponse := {
  content : list TextContent;
  isError : option bool
}.

(** [OperationResult]. *)
Record OperationResult := {
  stdout : string;
  stderr : string;
  exitCode : Z
}.

(** [GodotProcess]: the handle of the child process and the two
    [string[]] arrays, which are shared with the stream listeners and
    therefore are references into the heap of arrays. *)
Record GodotProcess := {
  process : nat;
  output : nat;
  errors : nat
}.

(** A response is flagged as an error when [isError] is [true]. *)
Definition flagged (r : ToolResponse) : bool :=
  match isError r with
  | Some true => true
  | _ => false
  end.

(** A value thrown by a function or carried by a rejected promise:
    an instance of [Error] with its message, or a response object
    (the handlers that start a process reject with the response they
    built). *)
Inductive Thrown :=
  | ErrorObject (message : string)
  | ResponseObject (r : ToolResponse).

(** How a call ends: normally, or by throwing. *)
Inductive Completion (A : Type) :=
  | Fulfilled (a : A)
  | Raised (t : Thrown).
Arguments Fulfilled {A} a.
Arguments Raised {A} t.

(** [error instanceof Error ? error.message : 'Unknown error']. *)
Definition messageOfError (error : Thrown) : string :=
  match error with
  | ErrorObject m => m
  | ResponseObject _ => "Unknown error"
  end.

(** [error?.message || 'Unknown error']: a response object has no
    [message] property, and an empty message is falsy. *)
Definition messageOrUnknown (error : Thrown) : string :=
  match error with
  | ErrorObject m => if Js.nonempty m then m else "Unknown error"
  | ResponseObject _ => "Unknown error"
  end.

(** Modelled from the spec: [ErrorHandler.createErrorResponse]
    (src/utils/error-handler.ts is not among the sources).  Section 4.5
    of the specification: a response with the error flag set, carrying
    the message and the suggested remediations.  The message is the
    first block, each suggestion a block after it. *)
Definition createErrorResponse (message : string) (possibleSolutions : list string)
  : ToolResponse :=
  {| content := {| text := message |}
                :: List.map (fun s => {| text := s |}) possibleSolutions;
     isError := Some true |}.

(** What a child process does, as far as the promise that waits for it
    can tell: [spawn] throws synchronously, or the ['error'] event comes
    first, or the process is started (['spawn'] event), writes chunks to
    its two streams and closes with a code ([null] when it was ended by
    a signal).  A child that never closes leaves the promise pending;
    that case is outside the model. *)
Inductive ChildOutcome :=
  | SpawnThrows (message : string)
  | ChildError (message : string)
  | ChildRuns (stdoutChunks stderrChunks : list string) (code : option Z).

(** Effects on the operating system, in the order they happen. *)
Inductive Event :=
  | Spawn (handle : nat) (command : string) (args : list string)
  | Exec (commandLine : string)
  | Kill (handle : nat).

(** [code || 0]. *)
Definition codeOrZero (code : option Z) : Z :=
  match code with
  | Some c => if Z.eqb c 0 then 0%Z else c
  | None => 0%Z
  end.

(** [exitCode !== 0 || stderr]. *)
Definition failed (r : OperationResult) : bool :=
  negb (Z.eqb (exitCode r) 0) || Js.nonempty (stderr r).

(** [isGodot44OrLater]: match [/^(\d+)\.(\d+)/], [parseInt] both groups. *)
Module Version.

Definition digit (c : ascii) : option N :=
  let n := N_of_ascii c in
  if (48 <=? n)%N && (n <=? 57)%N then Some (n - 48)%N else None.

(** The longest run of digits at the start of [s], read in base 10
    onto the accumulator, and what follows it. *)
Fixpoint digits (acc : N) (seen : bool) (s : string) : option (N * string) :=
  match s with
  | EmptyString => if seen then Some (acc, s) else None
  | String c rest =>
      match digit c with
      | Some d => digits (10 * acc + d)%N true rest
      | None => if seen then Some (acc, s) else None
      end
  end.

Definition isGodot44OrLater (version : string) : bool :=
  match digits 0 false version with
  | Some (major, String "." rest) =>
      match digits 0 false rest with
      | Some (minor, _) =>
          (4 <? major)%N || ((major =? 4)%N && (4 <=? minor)%N)
      | None => false
      end
  | _ => false
  end.

End Version.

(** ** The state of the server and the monad of asynchronous calls *)

(** [OperationExecutorImpl]: only [godotPath] changes after
    construction ([setGodotPath]). *)
Record OperationExecutorImpl := {
  operationsScriptPath : string;
  godotPath : option string;
  godotDebugMode : bool;
  debugMode : bool
}.

(** The mutable state the handlers share: the slot of the project
    handler, the executor, the heap of [string[]] arrays the stream
    listeners push to, the next free process handle, and the effects
    performed so far. *)
Record ServerState := {
  activeProcess : option GodotProcess;
  operationExecutor : OperationExecutorImpl;
  arrays : list (list string);
  nextHandle : nat;
  effects : list Event
}.

Definition setActiveProcess (a : option GodotProcess) (s : ServerState) : ServerState :=
  {| activeProcess := a;
     operationExecutor := operationExecutor s;
     arrays := arrays s;
     nextHandle := nextHandle s;
     effects := effects s |}.

Definition setArrays (h : list (list string)) (s : ServerState) : ServerState :=
  {| activeProcess := activeProcess s;
     operationExecutor := operationExecutor s;
     arrays := h;
     nextHandle := nextHandle s;
     effects := effects s |}.

Definition addEffect (e : Event) (s : ServerState) : ServerState :=
  {| activeProcess := activeProcess s;
     operationExecutor := operationExecutor s;
     arrays := arrays s;
     nextHandle := nextHandle s;
     effects := effects s ++ [e] |}.

Definition bumpHandle (s : ServerState) : ServerState :=
  {| activeProcess := activeProcess s;
     operationExecutor := operationExecutor s;
     arrays := arrays s;
     nextHandle := S (nextHandle s);
     effects := effects s |}.

(** [setGodotPath(path)]. *)
Definition setGodotPath (path : string) (s : ServerState) : ServerState :=
  {| activeProcess := activeProcess s;
     operationExecutor :=
       {| operationsScriptPath := operationsScriptPath (operationExecutor s);
          godotPath := Some path;
          godotDebugMode := godotDebugMode (operationExecutor s);
          debugMode := debugMode (operationExecutor s) |};
     arrays := arrays s;
     nextHandle := nextHandle s;
     effects := effects s |}.

(** The contents of an array of the heap. *)
Definition readArray (r : nat) (s : ServerState) : list string :=
  default [] (arrays s !! r).

(** [array.push(...lines)]. *)
Definition pushLines (r : nat) (lines : list string) (s : ServerState) : ServerState :=
  setArrays (alter (fun l => l ++ lines) r (arrays s)) s.

Definition M (A : Type) : Type := ServerState -> Completion A * ServerState.

Definition ret {A} (a : A) : M A := fun s => (Fulfilled a, s).

Definition throw {A} (t : Thrown) : M A := fun s => (Raised t, s).

Definition bind {A B} (m : M A) (k : A -> M B) : M B :=
  fun s =>
    match m s with
    | (Fulfilled a, s') => k a s'
    | (Raised t, s') => (Raised t, s')
    end.

(** [try { body } catch (error) { handler }]. *)
Definition try_catch {A} (body : M A) (handler : Thrown -> M A) : M A :=
  fun s =>
    match body s with
    | (Fulfilled a, s') => (Fulfilled a, s')
    | (Raised t, s') => handler t s'
    end.

Definition get : M ServerState := fun s => (Fulfilled s, s).

Definition modify (f : ServerState -> ServerState) : M unit :=
  fun s => (Fulfilled tt, f s).

Declare Scope js_scope.
Delimit Scope js_scope with js.
Notation "x <- m ;; k" := (bind m (fun x => k))
  (at level 100, m at next level, right associativity) : js_scope.
Notation "m ;; k" := (bind m (fun _ => k))
  (at level 100, right associativity) : js_scope.
Local Open Scope js_scope.

(** A call of [child_process.spawn] that returns a handle. *)
Definition spawn (command : string) (args : list string) : M nat :=
  s <- get ;;
  modify (fun s => bumpHandle (addEffect (Spawn (nextHandle s) command args) s)) ;;
  ret (nextHandle s).

(** [process.kill()]. *)
Definition kill (handle : nat) : M unit := modify (addEffect (Kill handle)).

(** [const a: string[] = []]. *)
Definition newArray : M nat :=
  s <- get ;;
  modify (fun s => setArrays (arrays s ++ [[]]) s) ;;
  ret (List.length (arrays s)).

(** A required string property: present and not empty. *)
Definition required (o : option string) : option string :=
  match o with
  | Some s => if Js.nonempty s then Some s else None
  | None => None
  end.

(** ** The server: executor, handlers and dispatch *)

Section Server.

(** JavaScript numbers occurring inside free-form parameter values are
    not interpreted by the server; their type is left open. *)
Variable number : Type.

(** Parameter bags and JSON values ([OperationParams], [any]). *)
#[local] Set Warnings "-register-all".
Inductive Json :=
  | JNull
  | JBool (b : bool)
  | JNum (n : number)
  | JStr (s : string)
  | JArr (items : list Json)
  | JObj (fields : list (string * Json)).

(** The argument object of a tool call, with the properties the tool
    schemas declare; an absent property is [None]. *)
Record ToolArgs := {
  projectPath : option string;
  scene : option string;
  directory : option string;
  recursive : option bool;
  scenePath : option string;
  rootNodeType : option string;
  parentNodePath : option string;
  nodeType : option string;
  nodeName : option string;
  properties : option (list (string * Json));
  nodePath : option string;
  texturePath : option string;
  outputPath : option string;
  meshItemNames : option (list string);
  newPath : option string;
  filePath : option string
}.

(** The world outside the server. *)

(** [fs.existsSync]. *)
Variable existsSync : string -> bool.
(** [path.join] of two segments. *)
Variable path_join : string -> string -> string.
(** [pathDetector.getGodotPath()] (src/modules/path-detection.ts is
    not among the sources). *)
Variable detectedGodotPath : option string.
(** [promisify(exec)(commandLine)]: the standard output, or the message
    of the error the promise is rejected with. *)
Variable execOutcome : string -> string + string.
(** What the child started by [spawn(command, args)] does. *)
Variable childProcess : string -> list string -> ChildOutcome.
(** [String.prototype.trim]. *)
Variable String_trim : string -> string.
(** [JSON.stringify(value)] and [JSON.stringify(value, null, 2)]. *)
Variable JSON_stringify : Json -> string.
Variable JSON_stringify_indented : Json -> string.
(** [parameterMapper.convertCamelToSnakeCase]
    (src/modules/parameter-mapper.ts is not among the sources). *)
Variable convertCamelToSnakeCase : Json -> Json.
(** The message of [new McpError(ErrorCode.MethodNotFound, text)], built
    by the SDK. *)
Variable McpError_message : string -> string.
(** The message of the [TypeError] raised by reading a property of
    [undefined]. *)
Variable TypeError_message : string -> string.
(** The results of the scans of the file system made by the info
    handler, which catch their own errors: [findGodotProjects],
    [getProjectStructureAsync], and the project name read from
    [project.godot] or else the base name of the directory. *)
Variable findGodotProjects : string -> bool -> Json.
Variable getProjectStructure : string -> Json.
Variable projectNameOf : string -> string.

(** Reading [args.property] when [args] may be [undefined]. *)
Definition withArgs {A} (arguments : option ToolArgs) (property : string)
  (k : ToolArgs -> M A) : M A :=
  match arguments with
  | Some args => k args
  | None => throw (ErrorObject (TypeError_message property))
  end.

(** [execAsync(commandLine)]. *)
Definition execAsync (commandLine : string) : M string :=
  modify (addEffect (Exec commandLine)) ;;
  match execOutcome commandLine with
  | inl out => ret out
  | inr message => throw (ErrorObject message)
  end.

(** *** src/modules/operation-executor.ts *)

(** [executeOperation(operation, params, projectPath)].  The debug
    logging writes to the console only and is left out. *)
Definition executeOperation (operation : string) (params : Json) (projectPath : string)
  : M OperationResult :=
  this <- get ;;
  let snakeCaseParams := convertCamelToSnakeCase params in
  match required (godotPath (operationExecutor this)) with
  | None => throw (ErrorObject "Could not find a valid Godot executable path")
  | Some godot =>
      let paramsJson := JSON_stringify snakeCaseParams in
      let debugArgs :=
        if godotDebugMode (operationExecutor this) then ["--debug-godot"] else [] in
      let args :=
        [ "--headless"; "--path"; projectPath;
          "--script"; operationsScriptPath (operationExecutor this);
          operation; paramsJson ] ++ debugArgs in
      match childProcess godot args with
      | SpawnThrows message => throw (ErrorObject message)
      | ChildError message =>
          _ <- spawn godot args ;;
          throw (ErrorObject message)
      | ChildRuns stdoutChunks stderrChunks code =>
          _ <- spawn godot args ;;
          ret {| stdout := String.concat "" stdoutChunks;
                 stderr := String.concat "" stderrChunks;
                 exitCode := codeOrZero code |}
      end
  end.

(** *** src/handlers/base-handler.ts *)

Definition validateProjectPath (path : string) : M unit :=
  if PathValidator.validatePath path then ret tt
  else throw (ErrorObject "Invalid project path - contains potentially unsafe characters").

Definition validateProjectDirectory (projectPath : string) : M unit :=
  let projectFile := path_join projectPath "project.godot" in
  if existsSync projectFile then ret tt
  else throw (ErrorObject ("Not a valid Godot project: " +:+ projectPath)).

Definition validateFileExists (filePath : string) : M unit :=
  if existsSync filePath then ret tt
  else throw (ErrorObject ("File does not exist: " +:+ filePath)).

Definition noGodotResponse : ToolResponse :=
  createErrorResponse "Could not find a valid Godot executable path"
    [ "Ensure Godot is installed correctly";
      "Set GODOT_PATH environment variable to specify the correct path" ].

Definition installHints : list string :=
  [ "Ensure Godot is installed correctly";
    "Check if the GODOT_PATH environment variable is set correctly";
    "Verify the project path is accessible" ].

Definition textResponse (t : string) : ToolResponse :=
  {| content := [ {| text := t |} ]; isError := None |}.

(** *** src/handlers/editor-handler.ts *)

(** [handleLaunchEditor].  The promise is returned without [await], so
    its rejection is not seen by the [catch] of the handler. *)
Definition handleLaunchEditor (arguments : option ToolArgs) : M ToolResponse :=
  withArgs arguments "projectPath" (fun args =>
  match required (projectPath args) with
  | None =>
      ret (createErrorResponse "Project path is required"
             ["Provide a valid path to a Godot project directory"])
  | Some projectPath =>
      validateProjectPath projectPath ;;
      validateProjectDirectory projectPath ;;
      match required detectedGodotPath with
      | None => ret noGodotResponse
      | Some godot =>
          let cmdArgs := ["-e"; "--path"; projectPath] in
          match childProcess godot cmdArgs with
          | SpawnThrows message => throw (ErrorObject message)
          | ChildError message =>
              _ <- spawn godot cmdArgs ;;
              throw (ResponseObject
                       (createErrorResponse
                          ("Failed to launch Godot editor: " +:+ message)
                          installHints))
          | ChildRuns _ _ _ =>
              _ <- spawn godot cmdArgs ;;
              ret (textResponse
                     ("Godot editor launched successfully for project at "
                      +:+ projectPath +:+ "."))
          end
      end
  end).

(** The command line [`"${godotPath}" --version`]. *)
Definition versionCommand (godot : string) : string :=
  Js.quote +:+ godot +:+ Js.quote +:+ " --version".

(** [handleGetGodotVersion]. *)
Definition handleGetGodotVersion : M ToolResponse :=
  match required detectedGodotPath with
  | None => ret noGodotResponse
  | Some godot =>
      try_catch
        (out <- execAsync (versionCommand godot) ;;
         ret (textResponse (String_trim out)))
        (fun error =>
           ret (createErrorResponse
                  ("Failed to get Godot version: " +:+ messageOfError error)
                  [ "Ensure Godot is installed correctly";
                    "Check if the GODOT_PATH environment variable is set correctly" ]))
  end.

(** *** src/handlers/project-handler.ts *)

(** The listener of ['data'] on the standard output of a supervised
    process: [output.push(...data.toString().split('\n'))]. *)
Definition onStdoutData (p : GodotProcess) (data : string) (s : ServerState) : ServerState :=
  pushLines (output p) (Js.split Js.LF data) s.

(** The listener of ['data'] on its standard error. *)
Definition onStderrData (p : GodotProcess) (data : string) (s : ServerState) : ServerState :=
  pushLines (errors p) (Js.split Js.LF data) s.

(** [this.activeProcess && this.activeProcess.process === process]. *)
Definition isActive (p : GodotProcess) (s : ServerState) : bool :=
  match activeProcess s with
  | Some a => Nat.eqb (process a) (process p)
  | None => false
  end.

(** The listener of ['exit']. *)
Definition onExit (p : GodotProcess) (s : ServerState) : ServerState :=
  if isActive p s then setActiveProcess None s else s.

(** The listener of ['spawn']: registers the process and resolves. *)
Definition onSpawn (p : GodotProcess) : M ToolResponse :=
  modify (setActiveProcess (Some p)) ;;
  ret (textResponse
         "Godot project started in debug mode. Use get_debug_output to see output.").

(** The listener of ['error']: rejects with a response object. *)
Definition onError (p : GodotProcess) (message : string) : M ToolResponse :=
  modify (fun s => if isActive p s then setActiveProcess None s else s) ;;
  throw (ResponseObject
           (createErrorResponse ("Failed to run Godot project: " +:+ message)
              installHints)).

(** [if (this.activeProcess) this.activeProcess.process.kill()]. *)
Definition killExisting : M unit :=
  this <- get ;;
  match activeProcess this with
  | Some a => kill (process a)
  | None => ret tt
  end.

(** The command line of a supervised run: the scene is appended when
    it is given and passes the validator. *)
Definition runCmdArgs (projectPath : string) (scene : option string) : list string :=
  ["-d"; "--path"; projectPath]
  ++ match required scene with
     | Some sc => if PathValidator.validatePath sc then [sc] else []
     | None => []
     end.

(** The body of the promise up to the registration of the listeners:
    the process and its two arrays. *)
Definition startSupervised (godot : string) (cmdArgs : list string) : M GodotProcess :=
  h <- spawn godot cmdArgs ;;
  o <- newArray ;;
  e <- newArray ;;
  ret {| process := h; output := o; errors := e |}.

(** What [handleRunProject] has done when it returns its promise: it
    is settled already, or it waits for the first of ['spawn'] and
    ['error'] of the process it started ([child] is what that process
    is going to do). *)
Inductive RunState :=
  | RunSettled (r : ToolResponse)
  | RunWaiting (p : GodotProcess) (child : ChildOutcome).

(** [handleRunProject], the synchronous part. *)
Definition handleRunProject_start (arguments : option ToolArgs) : M RunState :=
  withArgs arguments "projectPath" (fun args =>
  match required (projectPath args) with
  | None =>
      ret (RunSettled
             (createErrorResponse "Project path is required"
                ["Provide a valid path to a Godot project directory"]))
  | Some projectPath =>
      validateProjectPath projectPath ;;
      validateProjectDirectory projectPath ;;
      match required detectedGodotPath with
      | None => ret (RunSettled noGodotResponse)
      | Some godot =>
          killExisting ;;
          let cmdArgs := runCmdArgs projectPath (scene args) in
          match childProcess godot cmdArgs with
          | SpawnThrows message => throw (ErrorObject message)
          | child =>
              p <- startSupervised godot cmdArgs ;;
              ret (RunWaiting p child)
          end
      end
  end).

(** [handleRunProject], awaited: the promise is settled by the first
    event of the child. *)
Definition handleRunProject (arguments : option ToolArgs) : M ToolResponse :=
  st <- handleRunProject_start arguments ;;
  match st with
  | RunSettled r => ret r
  | RunWaiting p (ChildError message) => onError p message
  | RunWaiting p _ => onSpawn p
  end.

(** [handleGetDebugOutput]. *)
Definition handleGetDebugOutput : M ToolResponse :=
  this <- get ;;
  match activeProcess this with
  | None =>
      ret (createErrorResponse "No active Godot process."
             [ "Use run_project to start a Godot project first";
               "Check if the Godot process crashed unexpectedly" ])
  | Some a =>
      ret (textResponse
             (JSON_stringify_indented
                (JObj [ ("output", JArr (List.map JStr (readArray (output a) this)));
                        ("errors", JArr (List.map JStr (readArray (errors a) this))) ])))
  end.

(** [handleStopProject]. *)
Definition handleStopProject : M ToolResponse :=
  this <- get ;;
  match activeProcess this with
  | None =>
      ret (createErrorResponse "No active Godot process to stop."
             [ "Use run_project to start a Godot project first";
               "The process may have already terminated" ])
  | Some a =>
      kill (process a) ;;
      let output := readArray (output a) this in
      let errors := readArray (errors a) this in
      modify (setActiveProcess None) ;;
      ret (textResponse
             (JSON_stringify_indented
                (JObj [ ("message", JStr "Godot project stopped");
                        ("finalOutput", JArr (List.map JStr output));
                        ("finalErrors", JArr (List.map JStr errors)) ])))
  end.

(** *** src/handlers/scene-handler.ts *)

(** The part the discrete handlers share after [executeOperation]
    has returned: [if (exitCode !== 0 || stderr)] the error response
    with [stderr || 'Unknown error'], and the success response
    otherwise. *)
Definition finish (failure : string) (hints : list string)
  (success : OperationResult -> string) (r : OperationResult) : ToolResponse :=
  if failed r
  then createErrorResponse
         (failure +:+ (if Js.nonempty (stderr r) then stderr r else "Unknown error"))
         hints
  else textResponse (success r).

(** Their [catch] block. *)
Definition caught (failure : string) (error : Thrown) : M ToolResponse :=
  ret (createErrorResponse (failure +:+ messageOrUnknown error) installHints).

(** [`${head}\n\nOutput: ${stdout}`]. *)
Definition withOutput (head : string) (r : OperationResult) : string :=
  head +:+ String Js.LF (String Js.LF "Output: ") +:+ stdout r.

(** [handleCreateScene]. *)
Definition handleCreateScene (arguments : option ToolArgs) : M ToolResponse :=
  withArgs arguments "projectPath" (fun args =>
  match required (projectPath args), required (scenePath args) with
  | Some projectPath, Some scenePath =>
      validateProjectPath projectPath ;;
      validateProjectPath scenePath ;;
      validateProjectDirectory projectPath ;;
      try_catch
        (let params :=
           JObj [ ("scenePath", JStr scenePath);
                  ("rootNodeType", JStr (Js.or_else (rootNodeType args) "Node2D")) ] in
         r <- executeOperation "create_scene" params projectPath ;;
         ret (finish "Failed to create scene: "
                [ "Check if the root node type is valid";
                  "Ensure you have write permissions to the scene path";
                  "Verify the scene path is valid" ]
                (withOutput ("Scene created successfully at: " +:+ scenePath))
                r))
        (caught "Failed to create scene: ")
  | _, _ =>
      ret (createErrorResponse "Project path and scene path are required"
             ["Provide valid paths for both the project and the scene"])
  end).

(** [handleAddNode]. *)
Definition handleAddNode (arguments : option ToolArgs) : M ToolResponse :=
  withArgs arguments "projectPath" (fun args =>
  match required (projectPath args), required (scenePath args),
        required (nodeType args), required (nodeName args) with
  | Some projectPath, Some scenePath, Some nodeType, Some nodeName =>
      validateProjectPath projectPath ;;
      validateProjectPath scenePath ;;
      validateProjectDirectory projectPath ;;
      validateFileExists (path_join projectPath scenePath) ;;
      try_catch
        (let params :=
           JObj ([ ("scenePath", JStr scenePath);
                   ("nodeType", JStr nodeType);
                   ("nodeName", JStr nodeName) ]
                 ++ match required (parentNodePath args) with
                    | Some parent => [("parentNodePath", JStr parent)]
                    | None => []
                    end
                 ++ match properties args with
                    | Some props => [("properties", JObj props)]
                    | None => []
                    end) in
         r <- executeOperation "add_node" params projectPath ;;
         ret (finish "Failed to add node: "
                [ "Check if the node type is valid";
                  "Ensure the parent node path exists";
                  "Verify the scene file is valid" ]
                (withOutput ("Node '" +:+ nodeName +:+ "' of type '" +:+ nodeType
                             +:+ "' added successfully to '" +:+ scenePath +:+ "'."))
                r))
        (caught "Failed to add node: ")
  | _, _, _, _ =>
      ret (createErrorResponse "Missing required parameters"
             ["Provide projectPath, scenePath, nodeType, and nodeName"])
  end).

(** [args.newPath && !this.pathValidator.validatePath(args.newPath)]. *)
Definition unsafeOptional (o : option string) : bool :=
  match required o with
  | Some p => negb (PathValidator.validatePath p)
  | None => false
  end.

(** [handleSaveScene]. *)
Definition handleSaveScene (arguments : option ToolArgs) : M ToolResponse :=
  withArgs arguments "projectPath" (fun args =>
  match required (projectPath args), required (scenePath args) with
  | Some projectPath, Some scenePath =>
      validateProjectPath projectPath ;;
      validateProjectPath scenePath ;;
      if unsafeOptional (newPath args)
      then ret (createErrorResponse "Invalid new path"
                  [ "Provide a valid new path without " +:+ Js.quote +:+ ".."
                    +:+ Js.quote +:+ " or other potentially unsafe characters" ])
      else
        validateProjectDirectory projectPath ;;
        validateFileExists (path_join projectPath scenePath) ;;
        try_catch
          (let params :=
             JObj ([ ("scenePath", JStr scenePath) ]
                   ++ match required (newPath args) with
                      | Some np => [("newPath", JStr np)]
                      | None => []
                      end) in
           r <- executeOperation "save_scene" params projectPath ;;
           let savePath := Js.or_else (newPath args) scenePath in
           ret (finish "Failed to save scene: "
                  [ "Check if the scene file is valid";
                    "Ensure you have write permissions to the output path";
                    "Verify the scene can be properly packed" ]
                  (withOutput ("Scene saved successfully to: " +:+ savePath))
                  r))
          (caught "Failed to save scene: ")
  | _, _ =>
      ret (createErrorResponse "Missing required parameters"
             ["Provide projectPath and scenePath"])
  end).

(** *** src/handlers/resource-handler.ts *)

(** [handleLoadSprite]. *)
Definition handleLoadSprite (arguments : option ToolArgs) : M ToolResponse :=
  withArgs arguments "projectPath" (fun args =>
  match required (projectPath args), required (scenePath args),
        required (nodePath args), required (texturePath args) with
  | Some projectPath, Some scenePath, Some nodePath, Some texturePath =>
      validateProjectPath projectPath ;;
      validateProjectPath scenePath ;;
      validateProjectPath nodePath ;;
      validateProjectPath texturePath ;;
      validateProjectDirectory projectPath ;;
      validateFileExists (path_join projectPath scenePath) ;;
      validateFileExists (path_join projectPath texturePath) ;;
      try_catch
        (let params :=
           JObj [ ("scenePath", JStr scenePath);
                  ("nodePath", JStr nodePath);
                  ("texturePath", JStr texturePath) ] in
         r <- executeOperation "load_sprite" params projectPath ;;
         ret (finish "Failed to load sprite: "
                [ "Check if the node path is correct";
                  "Ensure the node is a Sprite2D, Sprite3D, or TextureRect";
                  "Verify the texture file is a valid image format" ]
                (withOutput ("Sprite loaded successfully with texture: " +:+ texturePath))
                r))
        (caught "Failed to load sprite: ")
  | _, _, _, _ =>
      ret (createErrorResponse "Missing required parameters"
             ["Provide projectPath, scenePath, nodePath, and texturePath"])
  end).

(** [handleExportMeshLibrary]. *)
Definition handleExportMeshLibrary (arguments : option ToolArgs) : M ToolResponse :=
  withArgs arguments "projectPath" (fun args =>
  match required (projectPath args), required (scenePath args),
        required (outputPath args) with
  | Some projectPath, Some scenePath, Some outputPath =>
      validateProjectPath projectPath ;;
      validateProjectPath scenePath ;;
      validateProjectPath outputPath ;;
      validateProjectDirectory projectPath ;;
      validateFileExists (path_join projectPath scenePath) ;;
      try_catch
        (let params :=
           JObj ([ ("scenePath", JStr scenePath);
                   ("outputPath", JStr outputPath) ]
                 ++ match meshItemNames args with
                    | Some names => [("meshItemNames", JArr (List.map JStr names))]
                    | None => []
                    end) in
         r <- executeOperation "export_mesh_library" params projectPath ;;
         ret (finish "Failed to export mesh library: "
                [ "Check if the scene contains valid 3D meshes";
                  "Ensure the output path is valid";
                  "Verify the scene file is valid" ]
                (withOutput ("MeshLibrary exported successfully to: " +:+ outputPath))
                r))
        (caught "Failed to export mesh library: ")
  | _, _, _ =>
      ret (createErrorResponse "Missing required parameters"
             ["Provide projectPath, scenePath, and outputPath"])
  end).

(** *** src/handlers/uid-handler.ts *)

Definition oldGodotResponse (version : string) : ToolResponse :=
  createErrorResponse
    ("UIDs are only supported in Godot 4.4 or later. Current version: " +:+ version)
    [ "Upgrade to Godot 4.4 or later to use UIDs";
      "Use resource paths instead of UIDs for this version of Godot" ].

(** [handleGetUid]. *)
Definition handleGetUid (arguments : option ToolArgs) : M ToolResponse :=
  withArgs arguments "projectPath" (fun args =>
  match required (projectPath args), required (filePath args) with
  | Some projectPath, Some filePath =>
      validateProjectPath projectPath ;;
      validateProjectPath filePath ;;
      validateProjectDirectory projectPath ;;
      validateFileExists (path_join projectPath filePath) ;;
      try_catch
        (match required detectedGodotPath with
         | None => ret noGodotResponse
         | Some godot =>
             versionOutput <- execAsync (versionCommand godot) ;;
             let version := String_trim versionOutput in
             if negb (Version.isGodot44OrLater version)
             then ret (oldGodotResponse version)
             else
               let params := JObj [ ("filePath", JStr filePath) ] in
               r <- executeOperation "get_uid" params projectPath ;;
               ret (finish "Failed to get UID: "
                      [ "Check if the file is a valid Godot resource";
                        "Ensure the file path is correct" ]
                      (fun r => "UID for " +:+ filePath +:+ ": "
                                +:+ String_trim (stdout r))
                      r)
         end)
        (caught "Failed to get UID: ")
  | _, _ =>
      ret (createErrorResponse "Missing required parameters"
             ["Provide projectPath and filePath"])
  end).

(** [handleUpdateProjectUids]. *)
Definition handleUpdateProjectUids (arguments : option ToolArgs) : M ToolResponse :=
  withArgs arguments "projectPath" (fun args =>
  match required (projectPath args) with
  | Some projectPath =>
      validateProjectPath projectPath ;;
      validateProjectDirectory projectPath ;;
      try_catch
        (match required detectedGodotPath with
         | None => ret noGodotResponse
         | Some godot =>
             versionOutput <- execAsync (versionCommand godot) ;;
             let version := String_trim versionOutput in
             if negb (Version.isGodot44OrLater version)
             then ret (oldGodotResponse version)
             else
               let params := JObj [ ("projectPath", JStr projectPath) ] in
               r <- executeOperation "resave_resources" params projectPath ;;
               ret (finish "Failed to update project UIDs: "
                      [ "Check if the project is valid";
                        "Ensure you have write permissions to the project directory" ]
                      (withOutput "Project UIDs updated successfully.")
                      r)
         end)
        (caught "Failed to update project UIDs: ")
  | None =>
      ret (createErrorResponse "Project path is required"
             ["Provide a valid path to a Godot project directory"])
  end).

(** *** src/handlers/info-handler.ts *)

(** [handleListProjects]. *)
Definition handleListProjects (arguments : option ToolArgs) : M ToolResponse :=
  withArgs arguments "directory" (fun args =>
  match required (directory args) with
  | Some directory =>
      validateProjectPath directory ;;
      try_catch
        (if negb (existsSync directory)
         then ret (createErrorResponse
                     ("Directory does not exist: " +:+ directory)
                     ["Provide a valid directory path that exists on the system"])
         else
           let recursive :=
             match recursive args with Some true => true | _ => false end in
           let projects := findGodotProjects directory recursive in
           ret (textResponse (JSON_stringify_indented projects)))
        (fun error =>
           ret (createErrorResponse
                  ("Failed to list projects: " +:+ messageOrUnknown error)
                  [ "Ensure the directory exists and is accessible";
                    "Check if you have permission to read the directory" ]))
  | None =>
      ret (createErrorResponse "Directory is required"
             ["Provide a valid directory path to search for Godot projects"])
  end).

(** [handleGetProjectInfo]. *)
Definition handleGetProjectInfo (arguments : option ToolArgs) : M ToolResponse :=
  withArgs arguments "projectPath" (fun args =>
  match required (projectPath args) with
  | Some projectPath =>
      validateProjectPath projectPath ;;
      validateProjectDirectory projectPath ;;
      match required detectedGodotPath with
      | None => ret noGodotResponse
      | Some godot =>
          try_catch
            (out <- execAsync (versionCommand godot) ;;
             let projectStructure := getProjectStructure projectPath in
             let projectName := projectNameOf projectPath in
             ret (textResponse
                    (JSON_stringify_indented
                       (JObj [ ("name", JStr projectName);
                               ("path", JStr projectPath);
                               ("godotVersion", JStr (String_trim out));
                               ("structure", projectStructure) ]))))
            (caught "Failed to get project info: ")
      end
  | None =>
      ret (createErrorResponse "Project path is required"
             ["Provide a valid path to a Godot project directory"])
  end).

(** *** src/server.ts: the handler of tool-call requests *)

(** The [switch] on the name of the tool. *)
Definition route (name : string) (arguments : option ToolArgs) : M ToolResponse :=
  if String.eqb name "launch_editor" then handleLaunchEditor arguments
  else if String.eqb name "get_godot_version" then handleGetGodotVersion
  else if String.eqb name "run_project" then handleRunProject arguments
  else if String.eqb name "get_debug_output" then handleGetDebugOutput
  else if String.eqb name "stop_project" then handleStopProject
  else if String.eqb name "list_projects" then handleListProjects arguments
  else if String.eqb name "get_project_info" then handleGetProjectInfo arguments
  else if String.eqb name "create_scene" then handleCreateScene arguments
  else if String.eqb name "add_node" then handleAddNode arguments
  else if String.eqb name "save_scene" then handleSaveScene arguments
  else if String.eqb name "load_sprite" then handleLoadSprite arguments
  else if String.eqb name "export_mesh_library" then handleExportMeshLibrary arguments
  else if String.eqb name "get_uid" then handleGetUid arguments
  else if String.eqb name "update_project_uids" then handleUpdateProjectUids arguments
  else throw (ErrorObject (McpError_message ("Unknown tool: " +:+ name))).

(** The [catch] block of the request handler. *)
Definition toolFailed (error : Thrown) : M ToolResponse :=
  let errorMessage := messageOfError error in
  ret (createErrorResponse ("Tool execution failed: " +:+ errorMessage)
         ["Check the tool parameters and try again"]).

(** The handler registered for [CallToolRequestSchema]. *)
Definition callTool (name : string) (arguments : option ToolArgs) : M ToolResponse :=
  try_catch (route name arguments) toolFailed.


(** *** Runs of data events *)

(** The two streams of a supervised process. *)
Inductive Stream := Stdout | Stderr.

(** One ['data'] event. *)
Definition onData (p : GodotProcess) (d : Stream * string) (s : ServerState) : ServerState :=
  match fst d with
  | Stdout => onStdoutData p (snd d) s
  | Stderr => onStderrData p (snd d) s
  end.

(** A run of ['data'] events, oldest first. *)
Definition deliver (p : GodotProcess) (ds : list (Stream * string)) (s : ServerState)
  : ServerState :=
  fold_left (fun s d => onData p d s) ds s.

(** The lines a run of events contributes to one stream. *)
Definition linesOf (which : Stream) (ds : list (Stream * string)) : list string :=
  flat_map
    (fun d =>
       match which, fst d with
       | Stdout, Stdout | Stderr, Stderr => Js.split Js.LF (snd d)
       | _, _ => []
       end) ds.

(** *** Invariant of the supervised slot *)

(** The handle and the arrays of a process have been allocated, and the
    two arrays are distinct. *)
Definition wfProcess (p : GodotProcess) (s : ServerState) : Prop :=
  process p < nextHandle s
  /\ output p < List.length (arrays s)
  /\ errors p < List.length (arrays s)
  /\ output p <> errors p.

Definition wfState (s : ServerState) : Prop :=
  forall p, activeProcess s = Some p -> wfProcess p s.

(** The processes the slot holds. *)
Definition held (s : ServerState) : list GodotProcess :=
  match activeProcess s with
  | Some p => [p]
  | None => []
  end.

(** A response has at least one content block. *)
Definition wellFormed (r : ToolResponse) : Prop := 1 <= List.length (content r).

(** The discrete operations, by the name of their tool. *)
Definition discrete (name : string) : bool :=
  existsb (String.eqb name)
    [ "create_scene"; "add_node"; "save_scene"; "load_sprite";
      "export_mesh_library"; "get_uid"; "update_project_uids" ].

(** The last effect of the call that led from [s] to [s'] is the spawn
    of a child that closes with code 0 (or none) and an empty standard
    error. *)
Definition cleanRun (s s' : ServerState) : Prop :=
  exists before h godot argv outs errs code,
    effects s' = effects s ++ before ++ [Spawn h godot argv]
    /\ childProcess godot argv = ChildRuns outs errs code
    /\ codeOrZero code = 0%Z
    /\ String.concat "" errs = "".

(** The calls of [spawn] among some effects. *)
Definition spawns (es : list Event) : list Event :=
  List.filter (fun e => match e with Spawn _ _ _ => true | _ => false end) es.

(** The argument vector the specification prescribes for a discrete
    operation: the headless flag, the working-directory flag and its
    value, the script flag and the operations script, the name of the
    operation, the serialized normalized parameters as one argument,
    and the debug flag when verbose diagnostics are enabled. *)
Definition expectedArgs (executor : OperationExecutorImpl)
  (operation : string) (params : Json) (projectPath : string) : list string :=
  [ "--headless";
    "--path"; projectPath;
    "--script"; operationsScriptPath executor;
    operation;
    JSON_stringify (convertCamelToSnakeCase params) ]
  ++ (if godotDebugMode executor then ["--debug-godot"] else []).

(** The response that reports an unresolved executable for the
    operation whose failures are introduced by [failure]. *)
Definition configurationError (failure : string) : ToolResponse :=
  createErrorResponse
    (failure +:+ "Could not find a valid Godot executable path")
    installHints.

(** With the executable unresolved, a discrete handler ends in an
    error response or throws, and starts no child. *)
Definition failsWithoutChild (m : M ToolResponse) : Prop :=
  forall s c s',
    required (godotPath (operationExecutor s)) = None ->
    m s = (c, s') ->
    (forall resp, c = Fulfilled resp -> flagged resp = true)
    /\ spawns (effects s') = spawns (effects s).

(** When every child that runs writes to its standard error, a
    discrete handler never answers with a success. *)
Definition failsOnStderr (m : M ToolResponse) : Prop :=
  (forall command argv outs errs code,
     childProcess command argv = ChildRuns outs errs code ->
     String.concat "" errs <> "") ->
  forall s resp s', m s = (Fulfilled resp, s') -> flagged resp = true.

(** A discrete handler answers with a success only after a clean run. *)
Definition succeedsOnlyOnCleanRun (m : M ToolResponse) : Prop :=
  forall s resp s',
    m s = (Fulfilled resp, s') -> flagged resp = false -> cleanRun s s'.

(** [keepsInvariant m]: the call [m] preserves [wfState], however it
    ends. *)
Definition keepsInvariant {A} (m : M A) : Prop :=
  forall s c s', wfState s -> m s = (c, s') -> wfState s'.

(** [returns P m]: whenever [m] is fulfilled, its value satisfies [P]. *)
Definition returns {A} (P : A -> Prop) (m : M A) : Prop :=
  forall s a s', m s = (Fulfilled a, s') -> P a.

(** ** Proof tools *)

Lemma returns_ret {A} (P : A -> Prop) a : P a -> returns P (ret a).
Proof. intros H s a' s' E. injection E as <- _. exact H. Qed.

Lemma returns_throw {A} (P : A -> Prop) t : returns P (throw t).
Proof. intros s a s' E. discriminate E. Qed.

Lemma returns_bind {A B} (P : B -> Prop) (m : M A) (k : A -> M B) :
  (forall a, returns P (k a)) -> returns P (bind m k).
Proof.
  intros H s b s' E. unfold bind in E.
  destruct (m s) as [[a|t] s1]; [eapply H; eassumption | discriminate E].
Qed.

Lemma returns_try_catch {A} (P : A -> Prop) (body : M A) (handler : Thrown -> M A) :
  returns P body -> (forall t, returns P (handler t)) -> returns P (try_catch body handler).
Proof.
  intros Hb Hh s a s' E. unfold try_catch in E.
  destruct (body s) as [[a0|t] s1] eqn:Eb.
  - injection E as <- <-. eapply Hb; eassumption.
  - eapply Hh; eassumption.
Qed.

(** One step of the syntax-directed proof of a [returns] goal. *)
Ltac returns_step :=
  lazymatch goal with
  | |- returns _ (ret _) => apply returns_ret
  | |- returns _ (throw _) => apply returns_throw
  | |- returns _ (bind _ _) => apply returns_bind; intros
  | |- returns _ (try_catch _ _) => apply returns_try_catch; [|intros]
  | |- returns _ (withArgs _ _ _) => unfold withArgs
  | |- returns _ (caught _ _) => unfold caught
  | |- returns _ (match ?x with _ => _ end) => destruct x
  end.

(** One step of the symbolic execution of a call [m s = (c, s')] that
    stands among the hypotheses: case analysis on what the next test
    of the code inspects. *)
Ltac run_step :=
  match goal with
  | H : (Raised _, _) = (Fulfilled _, _) |- _ => discriminate H
  | H : Raised _ = Fulfilled _ |- _ => discriminate H
  | H : (_, _) = (_, _) |- _ => injection H; clear H; intros; subst
  | H : Fulfilled _ = Fulfilled _ |- _ => injection H; clear H; intros; subst
  | H : context [match ?x with _ => _ end] |- _ =>
      lazymatch x with
      | context [match _ with _ => _ end] => fail
      | _ => destruct x eqn:?
      end
  end.

(** Unfolding of the monad and of the helpers of the handlers. *)
Ltac unfold_calls :=
  unfold withArgs, validateProjectPath, validateProjectDirectory,
    validateFileExists, try_catch, caught, execAsync, executeOperation,
    spawn, kill, newArray, bind, get, modify, ret, throw in *.

(** *** The string primitives *)

Lemma append_cons c (a b : string) : String c a +:+ b = String c (a +:+ b).
Proof. reflexivity. Qed.

Lemma append_nil_l (b : string) : "" +:+ b = b.
Proof. reflexivity. Qed.

Lemma prefix_app (p s : string) :
  String.prefix p s = true <-> exists post, s = p +:+ post.
Proof.
  revert s. induction p as [|c p IH]; intros s.
  - destruct s; simpl; split; eauto.
  - destruct s as [|d s]; simpl.
    + split; [discriminate | intros [post H]; discriminate].
    + destruct (ascii_dec c d) as [->|Hne].
      * rewrite IH. split; intros [post H]; exists post;
          rewrite append_cons in *; congruence.
      * split; [discriminate | intros [post H]; rewrite append_cons in H; congruence].
Qed.

Lemma includes_unfold (needle s : string) :
  Js.includes needle s =
  if String.prefix needle s then true
  else match s with
       | EmptyString => false
       | String _ rest => Js.includes needle rest
       end.
Proof. destruct s; reflexivity. Qed.

Lemma includes_spec (needle s : string) :
  Js.includes needle s = true <->
  exists pre post, s = pre +:+ needle +:+ post.
Proof.
  induction s as [|c s IH]; rewrite includes_unfold.
  - destruct (String.prefix needle "") eqn:E.
    + split; [|reflexivity]. intros _.
      apply prefix_app in E as [post E]. exists "", post. exact E.
    + split; [discriminate|]. intros (pre & post & H).
      destruct pre; [|discriminate]. rewrite append_nil_l in H.
      assert (String.prefix needle "" = true) by (apply prefix_app; eauto).
      congruence.
  - destruct (String.prefix needle (String c s)) eqn:E.
    + split; [|reflexivity]. intros _.
      apply prefix_app in E as [post E]. exists "", post. exact E.
    + rewrite IH. split.
      * intros (pre & post & ->). exists (String c pre), post. reflexivity.
      * intros (pre & post & H). destruct pre as [|d pre].
        -- rewrite append_nil_l in H.
           assert (String.prefix needle (String c s) = true)
             by (apply prefix_app; eauto).
           congruence.
        -- rewrite append_cons in H. injection H as _ H. eauto.
Qed.

Lemma split_nonnil sep s : Js.split sep s <> [].
Proof.
  destruct s as [|c s]; simpl; [discriminate|].
  destruct (Ascii.eqb c sep); [discriminate|].
  destruct (Js.split sep s); discriminate.
Qed.

Lemma split_length sep s :
  List.length (Js.split sep s) = S (Js.count sep s).
Proof.
  induction s as [|c s IH]; simpl; [reflexivity|].
  destruct (Ascii.eqb c sep); simpl.
  - now rewrite IH.
  - destruct (Js.split sep s) eqn:E; simpl in *; lia.
Qed.

Lemma join_cons sep p q qs :
  Js.join sep (p :: q :: qs) = p +:+ String sep (Js.join sep (q :: qs)).
Proof. reflexivity. Qed.

Lemma join_split sep s : Js.join sep (Js.split sep s) = s.
Proof.
  induction s as [|c s IH]; [reflexivity|].
  pose proof (split_nonnil sep s) as Hn.
  cbn [Js.split].
  destruct (Js.split sep s) as [|p ps]; [congruence|].
  destruct (Ascii.eqb c sep) eqn:Ec.
  - apply Ascii.eqb_eq in Ec as ->.
    rewrite join_cons, IH. reflexivity.
  - destruct ps as [|q ps].
    + cbn [Js.join] in *. now rewrite IH.
    + rewrite join_cons in *. rewrite append_cons. now rewrite IH.
Qed.

Lemma split_no_sep sep s :
  Forall (fun piece => Js.count sep piece = 0) (Js.split sep s).
Proof.
  induction s as [|c s IH]; simpl.
  - constructor; [reflexivity | constructor].
  - destruct (Ascii.eqb c sep) eqn:Ec.
    + constructor; [reflexivity | exact IH].
    + destruct (Js.split sep s) as [|p ps]; simpl.
      * constructor; [simpl; now rewrite Ec | constructor].
      * inversion IH; subst. constructor; [simpl; rewrite Ec; assumption | assumption].
Qed.



Lemma count_app sep (a b : string) :
  Js.count sep (a +:+ b) = Js.count sep a + Js.count sep b.
Proof.
  induction a as [|c a IH]; [reflexivity|].
  rewrite append_cons. simpl. rewrite IH. lia.
Qed.

Lemma split_one sep (a : string) : Js.count sep a = 0 -> Js.split sep a = [a].
Proof.
  intros H. pose proof (split_length sep a) as L. rewrite H in L.
  pose proof (join_split sep a) as J.
  destruct (Js.split sep a) as [|x [|y l]]; simpl in L; try lia.
  simpl in J. now subst.
Qed.

Lemma split_ends_with_sep sep (body : string) :
  last (Js.split sep (body +:+ String sep "")) = Some "".
Proof.
  induction body as [|c body IH].
  - rewrite append_nil_l. simpl. now rewrite Ascii.eqb_refl.
  - rewrite append_cons. cbn [Js.split].
    pose proof (split_length sep (body +:+ String sep "")) as L.
    rewrite count_app in L. simpl in L. rewrite Ascii.eqb_refl in L.
    destruct (Js.split sep (body +:+ String sep "")) as [|p [|q ps]];
      simpl in L; try lia.
    destruct (Ascii.eqb c sep); exact IH.
Qed.

(** *** The heap of arrays *)

Lemma readArray_push r lines s :
  r < List.length (arrays s) ->
  readArray r (pushLines r lines s) = readArray r s ++ lines.
Proof.
  intros H. unfold readArray, pushLines; simpl.
  rewrite list_lookup_alter_eq.
  destruct (lookup_lt_is_Some_2 (arrays s) r H) as [l ->]. reflexivity.
Qed.

Lemma readArray_push_other r r' lines s :
  r <> r' -> readArray r' (pushLines r lines s) = readArray r' s.
Proof.
  intros H. unfold readArray, pushLines; simpl.
  now rewrite list_lookup_alter_ne.
Qed.

Lemma wfProcess_push p r lines s : wfProcess p s -> wfProcess p (pushLines r lines s).
Proof.
  unfold wfProcess, pushLines; simpl. now rewrite length_alter.
Qed.

Lemma wfProcess_onData p q d s : wfProcess p s -> wfProcess p (onData q d s).
Proof.
  unfold onData, onStdoutData, onStderrData.
  destruct (fst d); apply wfProcess_push.
Qed.

Lemma activeProcess_deliver p ds s :
  activeProcess (deliver p ds s) = activeProcess s
  /\ effects (deliver p ds s) = effects s
  /\ nextHandle (deliver p ds s) = nextHandle s.
Proof.
  revert s. induction ds as [|d ds IH]; intros s; [easy|].
  simpl. destruct (IH (onData p d s)) as (-> & -> & ->).
  unfold onData, onStdoutData, onStderrData. destruct (fst d); easy.
Qed.

Lemma wfProcess_deliver p q ds s : wfProcess p s -> wfProcess p (deliver q ds s).
Proof.
  revert s. induction ds as [|d ds IH]; intros s H; [exact H|].
  simpl. apply IH, wfProcess_onData, H.
Qed.

(** What the arrays of a process hold after a run of data events. *)
Lemma readArray_deliver p ds s :
  wfProcess p s ->
  readArray (output p) (deliver p ds s) = readArray (output p) s ++ linesOf Stdout ds
  /\ readArray (errors p) (deliver p ds s) = readArray (errors p) s ++ linesOf Stderr ds.
Proof.
  revert s. induction ds as [|[which data] ds IH]; intros s H.
  - simpl. now rewrite !app_nil_r.
  - pose proof H as (_ & Ho & He & Hne).
    cbn [deliver fold_left]. fold (deliver p ds (onData p (which, data) s)).
    destruct (IH _ (wfProcess_onData p p (which, data) s H)) as [-> ->].
    unfold linesOf; cbn [flat_map fst snd]. fold (linesOf Stdout ds). fold (linesOf Stderr ds).
    unfold onData, onStdoutData, onStderrData; cbn [fst snd].
    destruct which.
    + rewrite readArray_push by exact Ho.
      rewrite readArray_push_other by exact Hne.
      now rewrite <- app_assoc.
    + rewrite readArray_push by exact He.
      rewrite readArray_push_other by (intros E; apply Hne; symmetry; exact E).
      now rewrite <- app_assoc.
Qed.

(** ** The path validator *)

(** C7.  [validatePath] returns [false] for every string that contains
    two consecutive dots and for the empty string, and [true] for every
    other string. *)
Theorem validatePath_rejects_exactly_dotdot_and_empty (path : string) :
  ((exists pre post, path = pre +:+ ".." +:+ post) ->
   PathValidator.validatePath path = false)
  /\ (path = "" -> PathValidator.validatePath path = false)
  /\ (path <> "" -> ~ (exists pre post, path = pre +:+ ".." +:+ post) ->
      PathValidator.validatePath path = true).
Proof.
  unfold PathValidator.validatePath. repeat split.
  - intros H. apply includes_spec in H. rewrite H.
    now rewrite orb_true_r.
  - intros ->. reflexivity.
  - intros Hne Hno. destruct path as [|c path]; [congruence|].
    cbn [Js.nonempty negb orb].
    destruct (Js.includes ".." (String c path)) eqn:E; [|reflexivity].
    exfalso. apply Hno, includes_spec, E.
Qed.

(** ** The supervised process *)

(** C10.  A chunk of data arriving on the standard output (the standard
    error) of the registered process is split at the line feeds and all
    the pieces are appended to its output (error) lines, the other array
    being left alone; a chunk has one piece more than it has line feeds,
    so a chunk that ends in a line feed appends a last empty line, and a
    line that arrives in two chunks takes two entries; the query of the
    debug output shows the arrays as they are. *)
Theorem data_chunks_are_split_into_lines
  (s : ServerState) (p : GodotProcess) (chunk : string) :
  activeProcess s = Some p ->
  wfState s ->
  readArray (output p) (onStdoutData p chunk s)
    = readArray (output p) s ++ Js.split Js.LF chunk
  /\ readArray (errors p) (onStdoutData p chunk s) = readArray (errors p) s
  /\ readArray (errors p) (onStderrData p chunk s)
     = readArray (errors p) s ++ Js.split Js.LF chunk
  /\ readArray (output p) (onStderrData p chunk s) = readArray (output p) s
  /\ List.length (Js.split Js.LF chunk) = Js.count Js.LF chunk + 1
  /\ (forall body, chunk = body +:+ String Js.LF "" ->
      last (Js.split Js.LF chunk) = Some "")
  /\ (forall a b, Js.count Js.LF a = 0 -> Js.count Js.LF b = 0 ->
      Js.split Js.LF (a +:+ b) = [a +:+ b]
      /\ readArray (output p) (onStdoutData p b (onStdoutData p a s))
         = readArray (output p) s ++ [a; b])
  /\ (forall a b,
      List.length (Js.split Js.LF a ++ Js.split Js.LF b)
      = S (List.length (Js.split Js.LF (a +:+ b))))
  /\ handleGetDebugOutput (onStdoutData p chunk s)
     = (Fulfilled
          (textResponse
             (JSON_stringify_indented
                (JObj [ ("output",
                         JArr (List.map JStr
                                 (readArray (output p) s ++ Js.split Js.LF chunk)));
                        ("errors", JArr (List.map JStr (readArray (errors p) s))) ]))),
        onStdoutData p chunk s).
Proof.
  intros Ha Hwf. pose proof (Hwf p Ha) as Hp.
  pose proof Hp as (Hh & Ho & He & Hne).
  assert (Hne' : errors p <> output p) by (intros E; apply Hne; symmetry; exact E).
  assert (H1 : readArray (output p) (onStdoutData p chunk s)
               = readArray (output p) s ++ Js.split Js.LF chunk)
    by (apply readArray_push, Ho).
  assert (H2 : readArray (errors p) (onStdoutData p chunk s) = readArray (errors p) s)
    by (apply readArray_push_other, Hne).
  repeat split.
  - exact H1.
  - exact H2.
  - apply readArray_push, He.
  - apply readArray_push_other, Hne'.
  - rewrite split_length. lia.
  - intros body ->. apply split_ends_with_sep.
  - apply split_one. rewrite count_app. lia.
  - unfold onStdoutData. rewrite readArray_push.
    + rewrite readArray_push by exact Ho.
      rewrite !split_one by assumption. now rewrite <- app_assoc.
    + unfold pushLines; simpl. now rewrite length_alter.
  - intros a b. rewrite length_app, !split_length, count_app. lia.
  - unfold handleGetDebugOutput, bind, get, ret.
    assert (Hact : activeProcess (onStdoutData p chunk s) = Some p) by exact Ha.
    rewrite Hact, H1, H2. reflexivity.
Qed.

(** C6.  Stopping the registered process, after any run of data events,
    signals the process, answers with exactly the lines its two streams
    have delivered so far (after those the arrays held before), and
    leaves the slot empty: the next query of the debug output finds no
    process. *)
Theorem stop_returns_accumulated_lines_and_clears_slot
  (s : ServerState) (p : GodotProcess) (ds : list (Stream * string)) :
  activeProcess s = Some p ->
  wfState s ->
  exists s2,
    handleStopProject (deliver p ds s)
    = (Fulfilled
         (textResponse
            (JSON_stringify_indented
               (JObj [ ("message", JStr "Godot project stopped");
                       ("finalOutput",
                        JArr (List.map JStr
                                (readArray (output p) s ++ linesOf Stdout ds)));
                       ("finalErrors",
                        JArr (List.map JStr
                                (readArray (errors p) s ++ linesOf Stderr ds))) ]))),
       s2)
    /\ activeProcess s2 = None
    /\ held s2 = []
    /\ effects s2 = effects s ++ [Kill (process p)]
    /\ handleGetDebugOutput s2
       = (Fulfilled
            (createErrorResponse "No active Godot process."
               [ "Use run_project to start a Godot project first";
                 "Check if the Godot process crashed unexpectedly" ]),
          s2).
Proof.
  intros Ha Hwf. pose proof (Hwf p Ha) as Hp.
  destruct (activeProcess_deliver p ds s) as (Hact & Heff & _).
  destruct (readArray_deliver p ds s Hp) as [Ho He].
  eexists. split; [|split; [|split; [|split]]].
  - unfold handleStopProject, kill, bind, get, modify, ret.
    rewrite Hact, Ha. cbn beta iota.
    rewrite Ho, He. reflexivity.
  - reflexivity.
  - reflexivity.
  - simpl. now rewrite Heff.
  - reflexivity.
Qed.

(** C5.  A run requested while the slot holds a process: the old
    process is signalled first, then the new one is spawned, and the
    slot still holds the old one alone; when the new process reports
    that it has started, it replaces the old one in the slot, which
    then holds the new process alone, with empty arrays; the exit of
    the old process, when it comes, leaves the new one registered. *)
Theorem run_while_active_replaces_the_process
  (s : ServerState) (args : ToolArgs) (old : GodotProcess)
  (project godot : string) (outs errs : list string) (code : option Z) :
  activeProcess s = Some old ->
  wfState s ->
  required (projectPath args) = Some project ->
  PathValidator.validatePath project = true ->
  existsSync (path_join project "project.godot") = true ->
  required detectedGodotPath = Some godot ->
  childProcess godot (runCmdArgs project (scene args)) = ChildRuns outs errs code ->
  exists new s1 s2,
    handleRunProject_start (Some args) s
    = (Fulfilled (RunWaiting new (ChildRuns outs errs code)), s1)
    /\ effects s1
       = effects s ++ [ Kill (process old);
                        Spawn (process new) godot (runCmdArgs project (scene args)) ]
    /\ held s1 = [old]
    /\ process new <> process old
    /\ onSpawn new s1
       = (Fulfilled
            (textResponse
               "Godot project started in debug mode. Use get_debug_output to see output."),
          s2)
    /\ handleRunProject (Some args) s
       = (Fulfilled
            (textResponse
               "Godot project started in debug mode. Use get_debug_output to see output."),
          s2)
    /\ held s2 = [new]
    /\ effects s2 = effects s1
    /\ wfState s2
    /\ readArray (output new) s2 = []
    /\ readArray (errors new) s2 = []
    /\ onExit old s2 = s2.
Proof.
  intros Ha Hwf Hreq Hval Hdir Hgodot Hchild.
  pose proof (Hwf old Ha) as (Hh & Ho & He & Hne).
  assert (Hstart :
    handleRunProject_start (Some args) s
    = (Fulfilled
         (RunWaiting
            {| process := nextHandle s;
               output := List.length (arrays s);
               errors := S (List.length (arrays s)) |}
            (ChildRuns outs errs code)),
       setArrays ((arrays s ++ [[]]) ++ [[]])
         (bumpHandle
            (addEffect (Spawn (nextHandle s) godot (runCmdArgs project (scene args)))
               (addEffect (Kill (process old)) s))))).
  { unfold handleRunProject_start, killExisting, startSupervised.
    unfold_calls. rewrite Hreq, Hval, Hdir, Hgodot, Ha. cbn beta iota.
    rewrite Hchild. simpl. rewrite length_app. simpl.
    replace (List.length (arrays s) + 1) with (S (List.length (arrays s))) by lia.
    reflexivity. }
  eexists _, _, _. split; [exact Hstart|].
  split; [simpl; now rewrite <- app_assoc|].
  split; [unfold held; simpl; now rewrite Ha|].
  split; [simpl; lia|].
  split; [reflexivity|].
  split; [unfold handleRunProject, bind; rewrite Hstart; reflexivity|].
  split; [reflexivity|].
  split; [reflexivity|].
  split.
  { intros q Hq. simpl in Hq. injection Hq as <-.
    unfold wfProcess; simpl. rewrite !length_app; simpl. lia. }
  split.
  { unfold readArray; simpl.
    rewrite lookup_app_l by (rewrite length_app; simpl; lia).
    now rewrite list_lookup_middle. }
  split.
  { unfold readArray; simpl.
    rewrite list_lookup_middle by (rewrite length_app; simpl; lia).
    reflexivity. }
  unfold onExit, isActive; simpl.
  destruct (Nat.eqb_spec (nextHandle s) (process old)); [lia | reflexivity].
Qed.

(** ** The operation executor *)

(** What [executeOperation] does once the path of the executable is
    known. *)
Lemma executeOperation_resolved operation params projectPath s godot :
  required (godotPath (operationExecutor s)) = Some godot ->
  executeOperation operation params projectPath s
  = match childProcess godot
            (expectedArgs (operationExecutor s) operation params projectPath) with
    | SpawnThrows message => (Raised (ErrorObject message), s)
    | ChildError message =>
        (Raised (ErrorObject message),
         bumpHandle
           (addEffect
              (Spawn (nextHandle s) godot
                 (expectedArgs (operationExecutor s) operation params projectPath))
              s))
    | ChildRuns outs errs code =>
        (Fulfilled {| stdout := String.concat "" outs;
                      stderr := String.concat "" errs;
                      exitCode := codeOrZero code |},
         bumpHandle
           (addEffect
              (Spawn (nextHandle s) godot
                 (expectedArgs (operationExecutor s) operation params projectPath))
              s))
    end.
Proof.
  intros H. unfold executeOperation, expectedArgs. unfold_calls. rewrite H.
  destruct (childProcess godot _); reflexivity.
Qed.

Lemma executeOperation_unresolved operation params projectPath s :
  required (godotPath (operationExecutor s)) = None ->
  executeOperation operation params projectPath s
  = (Raised (ErrorObject "Could not find a valid Godot executable path"), s).
Proof.
  intros H. unfold executeOperation. unfold_calls. now rewrite H.
Qed.

(** C4.  With the path of the executable resolved, the only child
    [executeOperation] starts is the executable with the prescribed
    argument vector: seven arguments, the last of them the serialized
    normalized parameters, and an eighth, the debug flag, when verbose
    diagnostics are enabled. *)
Theorem executeOperation_argument_vector
  (operation : string) (params : Json) (projectPath : string)
  (s : ServerState) (godot : string) :
  required (godotPath (operationExecutor s)) = Some godot ->
  let argv :=
    [ "--headless"; "--path"; projectPath;
      "--script"; operationsScriptPath (operationExecutor s);
      operation; JSON_stringify (convertCamelToSnakeCase params) ]
    ++ (if godotDebugMode (operationExecutor s) then ["--debug-godot"] else []) in
  effects (snd (executeOperation operation params projectPath s))
  = effects s
    ++ match childProcess godot argv with
       | SpawnThrows _ => []
       | _ => [Spawn (nextHandle s) godot argv]
       end
  /\ argv = expectedArgs (operationExecutor s) operation params projectPath
  /\ List.length argv = (if godotDebugMode (operationExecutor s) then 8 else 7)
  /\ argv !! 5 = Some operation
  /\ argv !! 6 = Some (JSON_stringify (convertCamelToSnakeCase params)).
Proof.
  intros H argv.
  assert (E : argv = expectedArgs (operationExecutor s) operation params projectPath)
    by reflexivity.
  split; [|split; [exact E|split; [|split; reflexivity]]].
  - rewrite (executeOperation_resolved _ _ _ _ _ H), <- E.
    destruct (childProcess godot argv); simpl; [now rewrite app_nil_r | reflexivity..].
  - subst argv. simpl. destruct (godotDebugMode (operationExecutor s)); reflexivity.
Qed.

(** C9.  When the child of a discrete operation closes, the result
    carries the concatenated chunks of its two streams and, as exit
    code, the code it closed with, or 0 when there is none. *)
Theorem close_code_becomes_exit_code
  (operation : string) (params : Json) (projectPath : string)
  (s : ServerState) (godot : string) (outs errs : list string) (code : option Z) :
  required (godotPath (operationExecutor s)) = Some godot ->
  childProcess godot (expectedArgs (operationExecutor s) operation params projectPath)
  = ChildRuns outs errs code ->
  exists res s',
    executeOperation operation params projectPath s = (Fulfilled res, s')
    /\ exitCode res = match code with
                      | None => 0%Z
                      | Some c => c
                      end
    /\ stdout res = String.concat "" outs
    /\ stderr res = String.concat "" errs.
Proof.
  intros H Hc. rewrite (executeOperation_resolved _ _ _ _ _ H), Hc.
  eexists _, _. split; [reflexivity|]. simpl. split; [|split; reflexivity].
  destruct code as [c|]; [|reflexivity]. simpl.
  destruct (Z.eqb_spec c 0); congruence.
Qed.

(** ** The discrete handlers *)

Lemma executor_addEffect e s : operationExecutor (addEffect e s) = operationExecutor s.
Proof. reflexivity. Qed.

Lemma discrete_cases name :
  discrete name = true ->
  name = "create_scene" \/ name = "add_node" \/ name = "save_scene"
  \/ name = "load_sprite" \/ name = "export_mesh_library"
  \/ name = "get_uid" \/ name = "update_project_uids".
Proof.
  unfold discrete. cbn [existsb]. rewrite !orb_true_iff, !String.eqb_eq.
  intuition congruence.
Qed.

(** Symbolic execution of a handler call among the hypotheses. *)
Ltac run :=
  unfold_calls;
  repeat first [ run_step | rewrite executor_addEffect in * ].

Lemma flagged_finish f h succ r : flagged (finish f h succ r) = failed r.
Proof. unfold finish. destruct (failed r); reflexivity. Qed.

Lemma failed_false r : failed r = false <-> exitCode r = 0%Z /\ stderr r = "".
Proof.
  unfold failed. rewrite orb_false_iff, negb_false_iff, Z.eqb_eq.
  destruct (stderr r); simpl; intuition congruence.
Qed.

Lemma spawns_exec es c : spawns (es ++ [Exec c]) = spawns es.
Proof. unfold spawns. rewrite List.filter_app. simpl. apply app_nil_r. Qed.

Ltac fails_without_child :=
  intros s c s' Hnone Hrun; run; try congruence;
  (split;
   [ intros resp Hresp;
     first [ discriminate Hresp | injection Hresp as <-; reflexivity ]
   | first [ reflexivity | apply spawns_exec ] ]).

Lemma handleCreateScene_unresolved arguments :
  failsWithoutChild (handleCreateScene arguments).
Proof. unfold handleCreateScene. fails_without_child. Qed.

Lemma handleAddNode_unresolved arguments :
  failsWithoutChild (handleAddNode arguments).
Proof. unfold handleAddNode. fails_without_child. Qed.

Lemma handleSaveScene_unresolved arguments :
  failsWithoutChild (handleSaveScene arguments).
Proof. unfold handleSaveScene. fails_without_child. Qed.

Lemma handleLoadSprite_unresolved arguments :
  failsWithoutChild (handleLoadSprite arguments).
Proof. unfold handleLoadSprite. fails_without_child. Qed.

Lemma handleExportMeshLibrary_unresolved arguments :
  failsWithoutChild (handleExportMeshLibrary arguments).
Proof. unfold handleExportMeshLibrary. fails_without_child. Qed.

Lemma handleGetUid_unresolved arguments :
  failsWithoutChild (handleGetUid arguments).
Proof. unfold handleGetUid. fails_without_child. Qed.

Lemma handleUpdateProjectUids_unresolved arguments :
  failsWithoutChild (handleUpdateProjectUids arguments).
Proof. unfold handleUpdateProjectUids. fails_without_child. Qed.

(** The request handler turns whatever the routed handler throws into
    an error response, in the state the handler left. *)
Lemma callTool_unfold name arguments s :
  callTool name arguments s
  = match route name arguments s with
    | (Fulfilled r, s') => (Fulfilled r, s')
    | (Raised t, s') =>
        (Fulfilled
           (createErrorResponse ("Tool execution failed: " +:+ messageOfError t)
              ["Check the tool parameters and try again"]),
         s')
    end.
Proof.
  unfold callTool, try_catch, toolFailed, ret.
  destruct (route name arguments s) as [[r|t] s']; reflexivity.
Qed.

Lemma route_discrete name arguments :
  discrete name = true ->
  route name arguments = handleCreateScene arguments
  \/ route name arguments = handleAddNode arguments
  \/ route name arguments = handleSaveScene arguments
  \/ route name arguments = handleLoadSprite arguments
  \/ route name arguments = handleExportMeshLibrary arguments
  \/ route name arguments = handleGetUid arguments
  \/ route name arguments = handleUpdateProjectUids arguments.
Proof.
  intros H. apply discrete_cases in H.
  destruct H as [->|[->|[->|[->|[->|[->| ->]]]]]]; unfold route; simpl; tauto.
Qed.

Lemma discrete_unresolved name arguments :
  discrete name = true -> failsWithoutChild (route name arguments).
Proof.
  intros H.
  destruct (route_discrete name arguments H) as [->|[->|[->|[->|[->|[->| ->]]]]]].
  - apply handleCreateScene_unresolved.
  - apply handleAddNode_unresolved.
  - apply handleSaveScene_unresolved.
  - apply handleLoadSprite_unresolved.
  - apply handleExportMeshLibrary_unresolved.
  - apply handleGetUid_unresolved.
  - apply handleUpdateProjectUids_unresolved.
Qed.

(** Evaluation of a call in the goal once the outcome of every test
    on its way is among the hypotheses. *)
Ltac evaluate :=
  rewrite ?callTool_unfold; unfold route; cbn [String.eqb Ascii.eqb Bool.eqb];
  unfold handleCreateScene, handleAddNode, handleSaveScene, handleLoadSprite,
    handleExportMeshLibrary, handleGetUid, handleUpdateProjectUids;
  unfold_calls;
  repeat first
    [ match goal with
      | H : _ = _ |- _ => rewrite H
      end
    | rewrite executor_addEffect
    | progress cbn beta iota delta [negb] ].

(** C3.  With the path of the executable unresolved, [executeOperation]
    throws the configuration error at once and leaves the state as it
    was, so that no child is started; every discrete tool then answers
    with an error response and spawns no child (the version probe of
    the two UID tools, made with [exec] before the executor is called,
    is the only process they start); and a call that gets as far as the
    executor answers with the configuration error of its operation. *)
Theorem unresolved_executable_is_a_configuration_error (s : ServerState) :
  godotPath (operationExecutor s) = None ->
  (forall operation params projectPath,
     executeOperation operation params projectPath s
     = (Raised (ErrorObject "Could not find a valid Godot executable path"), s))
  /\ (forall name arguments,
        discrete name = true ->
        exists resp s',
          callTool name arguments s = (Fulfilled resp, s')
          /\ flagged resp = true
          /\ spawns (effects s') = spawns (effects s))
  /\ (forall args project scene,
        required (projectPath args) = Some project ->
        required (scenePath args) = Some scene ->
        PathValidator.validatePath project = true ->
        PathValidator.validatePath scene = true ->
        existsSync (path_join project "project.godot") = true ->
        callTool "create_scene" (Some args) s
        = (Fulfilled (configurationError "Failed to create scene: "), s))
  /\ (forall args project scene type name,
        required (projectPath args) = Some project ->
        required (scenePath args) = Some scene ->
        required (nodeType args) = Some type ->
        required (nodeName args) = Some name ->
        PathValidator.validatePath project = true ->
        PathValidator.validatePath scene = true ->
        existsSync (path_join project "project.godot") = true ->
        existsSync (path_join project scene) = true ->
        callTool "add_node" (Some args) s
        = (Fulfilled (configurationError "Failed to add node: "), s))
  /\ (forall args project scene,
        required (projectPath args) = Some project ->
        required (scenePath args) = Some scene ->
        PathValidator.validatePath project = true ->
        PathValidator.validatePath scene = true ->
        unsafeOptional (newPath args) = false ->
        existsSync (path_join project "project.godot") = true ->
        existsSync (path_join project scene) = true ->
        callTool "save_scene" (Some args) s
        = (Fulfilled (configurationError "Failed to save scene: "), s))
  /\ (forall args project scene node texture,
        required (projectPath args) = Some project ->
        required (scenePath args) = Some scene ->
        required (nodePath args) = Some node ->
        required (texturePath args) = Some texture ->
        PathValidator.validatePath project = true ->
        PathValidator.validatePath scene = true ->
        PathValidator.validatePath node = true ->
        PathValidator.validatePath texture = true ->
        existsSync (path_join project "project.godot") = true ->
        existsSync (path_join project scene) = true ->
        existsSync (path_join project texture) = true ->
        callTool "load_sprite" (Some args) s
        = (Fulfilled (configurationError "Failed to load sprite: "), s))
  /\ (forall args project scene out,
        required (projectPath args) = Some project ->
        required (scenePath args) = Some scene ->
        required (outputPath args) = Some out ->
        PathValidator.validatePath project = true ->
        PathValidator.validatePath scene = true ->
        PathValidator.validatePath out = true ->
        existsSync (path_join project "project.godot") = true ->
        existsSync (path_join project scene) = true ->
        callTool "export_mesh_library" (Some args) s
        = (Fulfilled (configurationError "Failed to export mesh library: "), s))
  /\ (forall args project file godot version,
        required (projectPath args) = Some project ->
        required (filePath args) = Some file ->
        PathValidator.validatePath project = true ->
        PathValidator.validatePath file = true ->
        existsSync (path_join project "project.godot") = true ->
        existsSync (path_join project file) = true ->
        required detectedGodotPath = Some godot ->
        execOutcome (versionCommand godot) = inl version ->
        Version.isGodot44OrLater (String_trim version) = true ->
        callTool "get_uid" (Some args) s
        = (Fulfilled (configurationError "Failed to get UID: "),
           addEffect (Exec (versionCommand godot)) s))
  /\ (forall args project godot version,
        required (projectPath args) = Some project ->
        PathValidator.validatePath project = true ->
        existsSync (path_join project "project.godot") = true ->
        required detectedGodotPath = Some godot ->
        execOutcome (versionCommand godot) = inl version ->
        Version.isGodot44OrLater (String_trim version) = true ->
        callTool "update_project_uids" (Some args) s
        = (Fulfilled (configurationError "Failed to update project UIDs: "),
           addEffect (Exec (versionCommand godot)) s)).
Proof.
  intros Hnull.
  assert (Hnone : required (godotPath (operationExecutor s)) = None)
    by (rewrite Hnull; reflexivity).
  split; [intros; now apply executeOperation_unresolved|].
  split.
  { intros name arguments Hd. rewrite callTool_unfold.
    destruct (route name arguments s) as [c s'] eqn:E.
    destruct (discrete_unresolved name arguments Hd s c s' Hnone E) as [Hf Hs].
    destruct c as [r|t]; eexists _, _; (split; [reflexivity|]); split; auto. }
  repeat split; intros; evaluate; reflexivity.
Qed.

Lemma failed_stderr out err code : err <> "" ->
  failed {| stdout := out; stderr := err; exitCode := code |} = true.
Proof.
  intros H. unfold failed; simpl. destruct err; [congruence|].
  apply orb_true_r.
Qed.

Ltac fails_on_stderr :=
  intros Hstub s resp s' Hrun; run;
  first [ reflexivity
        | rewrite flagged_finish; apply failed_stderr; eapply Hstub; eassumption ].

Ltac clean_run :=
  intros s resp s' Hrun Hflag; run;
  try (exfalso; cbv in Hflag; discriminate Hflag);
  rewrite flagged_finish in Hflag; apply failed_false in Hflag as [Hcode Herr];
  simpl in Hcode, Herr; unfold cleanRun; simpl;
  first
    [ (eexists [], _, _, _, _, _, _); split; [reflexivity | eauto]
    | (eexists [_], _, _, _, _, _, _); split;
      [rewrite <- app_assoc; reflexivity | eauto] ].

Lemma handleCreateScene_stderr arguments : failsOnStderr (handleCreateScene arguments).
Proof. unfold handleCreateScene. fails_on_stderr. Qed.

Lemma handleAddNode_stderr arguments : failsOnStderr (handleAddNode arguments).
Proof. unfold handleAddNode. fails_on_stderr. Qed.

Lemma handleSaveScene_stderr arguments : failsOnStderr (handleSaveScene arguments).
Proof. unfold handleSaveScene. fails_on_stderr. Qed.

Lemma handleLoadSprite_stderr arguments : failsOnStderr (handleLoadSprite arguments).
Proof. unfold handleLoadSprite. fails_on_stderr. Qed.

Lemma handleExportMeshLibrary_stderr arguments :
  failsOnStderr (handleExportMeshLibrary arguments).
Proof. unfold handleExportMeshLibrary. fails_on_stderr. Qed.

Lemma handleGetUid_stderr arguments : failsOnStderr (handleGetUid arguments).
Proof. unfold handleGetUid. fails_on_stderr. Qed.

Lemma handleUpdateProjectUids_stderr arguments :
  failsOnStderr (handleUpdateProjectUids arguments).
Proof. unfold handleUpdateProjectUids. fails_on_stderr. Qed.

Lemma handleCreateScene_clean arguments :
  succeedsOnlyOnCleanRun (handleCreateScene arguments).
Proof. unfold handleCreateScene. clean_run. Qed.

Lemma handleAddNode_clean arguments : succeedsOnlyOnCleanRun (handleAddNode arguments).
Proof. unfold handleAddNode. clean_run. Qed.

Lemma handleSaveScene_clean arguments : succeedsOnlyOnCleanRun (handleSaveScene arguments).
Proof. unfold handleSaveScene. clean_run. Qed.

Lemma handleLoadSprite_clean arguments :
  succeedsOnlyOnCleanRun (handleLoadSprite arguments).
Proof. unfold handleLoadSprite. clean_run. Qed.

Lemma handleExportMeshLibrary_clean arguments :
  succeedsOnlyOnCleanRun (handleExportMeshLibrary arguments).
Proof. unfold handleExportMeshLibrary. clean_run. Qed.

Lemma handleGetUid_clean arguments : succeedsOnlyOnCleanRun (handleGetUid arguments).
Proof. unfold handleGetUid. clean_run. Qed.

Lemma handleUpdateProjectUids_clean arguments :
  succeedsOnlyOnCleanRun (handleUpdateProjectUids arguments).
Proof. unfold handleUpdateProjectUids. clean_run. Qed.

Lemma discrete_stderr name arguments :
  discrete name = true -> failsOnStderr (route name arguments).
Proof.
  intros H.
  destruct (route_discrete name arguments H) as [->|[->|[->|[->|[->|[->| ->]]]]]].
  - apply handleCreateScene_stderr.
  - apply handleAddNode_stderr.
  - apply handleSaveScene_stderr.
  - apply handleLoadSprite_stderr.
  - apply handleExportMeshLibrary_stderr.
  - apply handleGetUid_stderr.
  - apply handleUpdateProjectUids_stderr.
Qed.

Lemma discrete_clean name arguments :
  discrete name = true -> succeedsOnlyOnCleanRun (route name arguments).
Proof.
  intros H.
  destruct (route_discrete name arguments H) as [->|[->|[->|[->|[->|[->| ->]]]]]].
  - apply handleCreateScene_clean.
  - apply handleAddNode_clean.
  - apply handleSaveScene_clean.
  - apply handleLoadSprite_clean.
  - apply handleExportMeshLibrary_clean.
  - apply handleGetUid_clean.
  - apply handleUpdateProjectUids_clean.
Qed.

(** C2.  After the executor has returned, a discrete handler answers
    with an error response exactly when the exit code is not 0 or the
    standard error is not empty; so, when the executable writes to its
    standard error, every discrete tool answers with an error response
    whatever the exit code, and a discrete tool answers with a success
    only when the child it ran closed with code 0 and an empty standard
    error. *)
Theorem stderr_or_nonzero_exit_is_a_failure :
  (forall failure hints success res,
     flagged (finish failure hints success res)
     = negb (Z.eqb (exitCode res) 0) || Js.nonempty (stderr res))
  /\ (forall failure hints success res,
        stderr res <> "" -> flagged (finish failure hints success res) = true)
  /\ (forall failure hints success res,
        flagged (finish failure hints success res) = false <->
        exitCode res = 0%Z /\ stderr res = "")
  /\ ((forall command argv outs errs code,
         childProcess command argv = ChildRuns outs errs code ->
         String.concat "" errs <> "") ->
      forall name arguments s,
        discrete name = true ->
        exists resp s',
          callTool name arguments s = (Fulfilled resp, s') /\ flagged resp = true)
  /\ (forall name arguments s resp s',
        discrete name = true ->
        callTool name arguments s = (Fulfilled resp, s') ->
        flagged resp = false ->
        cleanRun s s').
Proof.
  split; [intros; apply flagged_finish|].
  split.
  { intros f h succ res H. rewrite flagged_finish. unfold failed.
    destruct (stderr res); [congruence | apply orb_true_r]. }
  split; [intros; rewrite flagged_finish; apply failed_false|].
  split.
  - intros Hstub name arguments s Hd. rewrite callTool_unfold.
    destruct (route name arguments s) as [[r|t] s'] eqn:E; eexists _, _;
      (split; [reflexivity|]); [|reflexivity].
    eapply discrete_stderr; eassumption.
  - intros name arguments s resp s' Hd Hcall Hflag.
    rewrite callTool_unfold in Hcall.
    destruct (route name arguments s) as [[r|t] s1] eqn:E;
      injection Hcall as <- <-; [|discriminate Hflag].
    eapply discrete_clean; eassumption.
Qed.

(** ** The dispatch boundary *)

Lemma returns_bind_with {A B} (Q : A -> Prop) (P : B -> Prop) (m : M A) (k : A -> M B) :
  returns Q m -> (forall a, Q a -> returns P (k a)) -> returns P (bind m k).
Proof.
  intros Hm Hk s b s' E. unfold bind in E.
  destruct (m s) as [[a|t] s1] eqn:Em; [|discriminate E].
  eapply Hk; [eapply Hm|]; eassumption.
Qed.

Lemma wellFormed_error m sols : wellFormed (createErrorResponse m sols).
Proof. unfold wellFormed; simpl; lia. Qed.

Lemma wellFormed_text t : wellFormed (textResponse t).
Proof. unfold wellFormed; simpl; lia. Qed.

Lemma wellFormed_finish f h succ r : wellFormed (finish f h succ r).
Proof.
  unfold finish. destruct (failed r); [apply wellFormed_error | apply wellFormed_text].
Qed.

Create HintDb responses.

#[local] Hint Resolve wellFormed_error wellFormed_text wellFormed_finish : responses.

(** Every value a handler is fulfilled with is a well-formed response. *)
Ltac well_formed := repeat returns_step; auto with responses.

Lemma handleLaunchEditor_wellFormed arguments :
  returns wellFormed (handleLaunchEditor arguments).
Proof. unfold handleLaunchEditor, noGodotResponse. well_formed. Qed.

Lemma handleGetGodotVersion_wellFormed : returns wellFormed handleGetGodotVersion.
Proof. unfold handleGetGodotVersion, noGodotResponse. well_formed. Qed.

Lemma handleRunProject_start_wellFormed arguments :
  returns (fun st => match st with
                     | RunSettled r => wellFormed r
                     | RunWaiting _ _ => True
                     end)
    (handleRunProject_start arguments).
Proof. unfold handleRunProject_start, noGodotResponse. well_formed. Qed.

Lemma handleRunProject_wellFormed arguments :
  returns wellFormed (handleRunProject arguments).
Proof.
  unfold handleRunProject.
  eapply returns_bind_with; [apply handleRunProject_start_wellFormed|].
  intros [r|p child] H; [now apply returns_ret|].
  unfold onSpawn, onError. well_formed.
Qed.

Lemma handleGetDebugOutput_wellFormed : returns wellFormed handleGetDebugOutput.
Proof. unfold handleGetDebugOutput. well_formed. Qed.

Lemma handleStopProject_wellFormed : returns wellFormed handleStopProject.
Proof. unfold handleStopProject. well_formed. Qed.

Lemma handleListProjects_wellFormed arguments :
  returns wellFormed (handleListProjects arguments).
Proof. unfold handleListProjects. well_formed. Qed.

Lemma handleGetProjectInfo_wellFormed arguments :
  returns wellFormed (handleGetProjectInfo arguments).
Proof. unfold handleGetProjectInfo, noGodotResponse. well_formed. Qed.

Lemma handleCreateScene_wellFormed arguments :
  returns wellFormed (handleCreateScene arguments).
Proof. unfold handleCreateScene. well_formed. Qed.

Lemma handleAddNode_wellFormed arguments :
  returns wellFormed (handleAddNode arguments).
Proof. unfold handleAddNode. well_formed. Qed.

Lemma handleSaveScene_wellFormed arguments :
  returns wellFormed (handleSaveScene arguments).
Proof. unfold handleSaveScene. well_formed. Qed.

Lemma handleLoadSprite_wellFormed arguments :
  returns wellFormed (handleLoadSprite arguments).
Proof. unfold handleLoadSprite. well_formed. Qed.

Lemma handleExportMeshLibrary_wellFormed arguments :
  returns wellFormed (handleExportMeshLibrary arguments).
Proof. unfold handleExportMeshLibrary. well_formed. Qed.

Lemma handleGetUid_wellFormed arguments :
  returns wellFormed (handleGetUid arguments).
Proof. unfold handleGetUid, noGodotResponse, oldGodotResponse. well_formed. Qed.

Lemma handleUpdateProjectUids_wellFormed arguments :
  returns wellFormed (handleUpdateProjectUids arguments).
Proof. unfold handleUpdateProjectUids, noGodotResponse, oldGodotResponse. well_formed. Qed.

#[local] Hint Resolve handleLaunchEditor_wellFormed handleGetGodotVersion_wellFormed
  handleRunProject_wellFormed handleGetDebugOutput_wellFormed
  handleStopProject_wellFormed handleListProjects_wellFormed
  handleGetProjectInfo_wellFormed handleCreateScene_wellFormed
  handleAddNode_wellFormed handleSaveScene_wellFormed handleLoadSprite_wellFormed
  handleExportMeshLibrary_wellFormed handleGetUid_wellFormed
  handleUpdateProjectUids_wellFormed : responses.

Lemma route_wellFormed name arguments : returns wellFormed (route name arguments).
Proof.
  unfold route.
  repeat lazymatch goal with
         | |- returns _ (if ?b then _ else _) => destruct b
         end; auto with responses.
  apply returns_throw.
Qed.

(** C1.  Whatever the tool, its arguments and the state, the request
    handler is fulfilled with a well-formed response: the response of
    the routed handler when that one is fulfilled, and otherwise (the
    handler, one of its validation checks or the executor has thrown,
    a promise was rejected, or the tool is unknown) the error response
    built from what was thrown.  Nothing is thrown past it. *)
Theorem callTool_always_answers
  (name : string) (arguments : option ToolArgs) (s : ServerState) :
  exists resp s',
    callTool name arguments s = (Fulfilled resp, s')
    /\ wellFormed resp
    /\ match route name arguments s with
       | (Fulfilled r, s1) => resp = r /\ s' = s1
       | (Raised t, s1) =>
           resp = createErrorResponse
                    ("Tool execution failed: " +:+ messageOfError t)
                    ["Check the tool parameters and try again"]
           /\ flagged resp = true
           /\ s' = s1
       end.
Proof.
  rewrite callTool_unfold.
  destruct (route name arguments s) as [[r|t] s1] eqn:E; eexists _, _;
    (split; [reflexivity|]).
  - split; [|split; reflexivity].
    eapply route_wellFormed; eassumption.
  - split; [apply wellFormed_error|]. repeat split.
Qed.

(** ** Path parameters *)

(** C8, what the code does.  An unsafe scene given to the supervised
    run is dropped without a word: the project is started without it
    and the call answers with a success.  The sibling check of the
    optional new path of [save_scene] answers with a validation error
    instead. *)
Theorem unsafe_scene_is_silently_dropped
  (s : ServerState) (args : ToolArgs) (project godot unsafe : string)
  (outs errs : list string) (code : option Z) :
  required (projectPath args) = Some project ->
  PathValidator.validatePath project = true ->
  existsSync (path_join project "project.godot") = true ->
  required detectedGodotPath = Some godot ->
  required (scene args) = Some unsafe ->
  PathValidator.validatePath unsafe = false ->
  childProcess godot ["-d"; "--path"; project] = ChildRuns outs errs code ->
  activeProcess s = None ->
  (exists s',
     callTool "run_project" (Some args) s
     = (Fulfilled
          (textResponse
             "Godot project started in debug mode. Use get_debug_output to see output."),
        s')
     /\ effects s' = effects s ++ [Spawn (nextHandle s) godot ["-d"; "--path"; project]])
  /\ (forall scene',
        required (scenePath args) = Some scene' ->
        PathValidator.validatePath scene' = true ->
        required (newPath args) = Some unsafe ->
        exists hints,
          callTool "save_scene" (Some args) s
          = (Fulfilled (createErrorResponse "Invalid new path" hints), s)).
Proof.
  intros Hreq Hval Hdir Hgodot Hscene Hunsafe Hchild Hidle.
  split.
  - eexists. rewrite callTool_unfold. unfold route; cbn [String.eqb Ascii.eqb Bool.eqb].
    unfold handleRunProject, handleRunProject_start, killExisting, startSupervised,
      onSpawn, runCmdArgs.
    unfold_calls. rewrite Hreq, Hval, Hdir, Hgodot, Hidle, Hscene, Hunsafe.
    cbn beta iota. cbn [app]. rewrite Hchild. cbn beta iota.
    split; reflexivity.
  - intros scene' Hs Hv Hn. eexists. rewrite callTool_unfold.
    unfold route; cbn [String.eqb Ascii.eqb Bool.eqb].
    unfold handleSaveScene, unsafeOptional. unfold_calls.
    rewrite Hreq, Hs, Hval, Hv, Hn, Hunsafe. reflexivity.
Qed.

(** *** The invariant holds in every state the server reaches *)

Ltac keeps_invariant :=
  intros s c s' Hwf Hrun; run;
  repeat match goal with
         | H : activeProcess ?s = _ |- context [activeProcess ?s] => rewrite H
         | |- context [if ?b then _ else _] => destruct b eqn:?
         end;
  intros q Hq; simpl in Hq;
  first [ discriminate Hq
        | injection Hq as <-; unfold wfProcess; simpl;
          rewrite ?length_app; simpl; lia
        | specialize (Hwf q Hq); unfold wfProcess in *; simpl;
          rewrite ?length_app; simpl; lia ].

Lemma handleLaunchEditor_invariant arguments : keepsInvariant (handleLaunchEditor arguments).
Proof. unfold handleLaunchEditor. keeps_invariant. Qed.

Lemma handleGetGodotVersion_invariant : keepsInvariant handleGetGodotVersion.
Proof. unfold handleGetGodotVersion. keeps_invariant. Qed.

Lemma handleRunProject_invariant arguments : keepsInvariant (handleRunProject arguments).
Proof.
  unfold handleRunProject, handleRunProject_start, killExisting, startSupervised,
    onSpawn, onError, isActive.
  keeps_invariant.
Qed.

Lemma handleGetDebugOutput_invariant : keepsInvariant handleGetDebugOutput.
Proof. unfold handleGetDebugOutput. keeps_invariant. Qed.

Lemma handleStopProject_invariant : keepsInvariant handleStopProject.
Proof. unfold handleStopProject. keeps_invariant. Qed.

Lemma handleListProjects_invariant arguments : keepsInvariant (handleListProjects arguments).
Proof. unfold handleListProjects. keeps_invariant. Qed.

Lemma handleGetProjectInfo_invariant arguments :
  keepsInvariant (handleGetProjectInfo arguments).
Proof. unfold handleGetProjectInfo. keeps_invariant. Qed.

Lemma handleCreateScene_invariant arguments : keepsInvariant (handleCreateScene arguments).
Proof. unfold handleCreateScene. keeps_invariant. Qed.

Lemma handleAddNode_invariant arguments : keepsInvariant (handleAddNode arguments).
Proof. unfold handleAddNode. keeps_invariant. Qed.

Lemma handleSaveScene_invariant arguments : keepsInvariant (handleSaveScene arguments).
Proof. unfold handleSaveScene. keeps_invariant. Qed.

Lemma handleLoadSprite_invariant arguments : keepsInvariant (handleLoadSprite arguments).
Proof. unfold handleLoadSprite. keeps_invariant. Qed.

Lemma handleExportMeshLibrary_invariant arguments :
  keepsInvariant (handleExportMeshLibrary arguments).
Proof. unfold handleExportMeshLibrary. keeps_invariant. Qed.

Lemma handleGetUid_invariant arguments : keepsInvariant (handleGetUid arguments).
Proof. unfold handleGetUid. keeps_invariant. Qed.

Lemma handleUpdateProjectUids_invariant arguments :
  keepsInvariant (handleUpdateProjectUids arguments).
Proof. unfold handleUpdateProjectUids. keeps_invariant. Qed.

#[local] Hint Resolve handleLaunchEditor_invariant handleGetGodotVersion_invariant
  handleRunProject_invariant handleGetDebugOutput_invariant
  handleStopProject_invariant handleListProjects_invariant
  handleGetProjectInfo_invariant handleCreateScene_invariant
  handleAddNode_invariant handleSaveScene_invariant handleLoadSprite_invariant
  handleExportMeshLibrary_invariant handleGetUid_invariant
  handleUpdateProjectUids_invariant : responses.

Lemma route_invariant name arguments : keepsInvariant (route name arguments).
Proof.
  unfold route.
  repeat lazymatch goal with
         | |- keepsInvariant (if ?b then _ else _) => destruct b
         end; auto with responses.
  intros s c s' Hwf Hrun. unfold throw in Hrun. now injection Hrun as _ <-.
Qed.

(** The invariant holds when the server is constructed and is kept by
    every tool call and by every event of a process. *)
Lemma wfState_callTool name arguments s :
  wfState s -> wfState (snd (callTool name arguments s)).
Proof.
  intros Hwf. rewrite callTool_unfold.
  destruct (route name arguments s) as [c s'] eqn:E.
  pose proof (route_invariant name arguments s c s' Hwf E) as H.
  destruct c; exact H.
Qed.

Lemma wfState_onData p d s : wfState s -> wfState (onData p d s).
Proof.
  intros Hwf q Hq. apply wfProcess_onData, Hwf.
  unfold onData, onStdoutData, onStderrData in Hq. destruct (fst d); exact Hq.
Qed.

Lemma wfState_onExit p s : wfState s -> wfState (onExit p s).
Proof.
  intros Hwf q Hq. unfold onExit in *.
  destruct (isActive p s); [discriminate Hq | apply Hwf, Hq].
Qed.

Lemma wfState_idle s : activeProcess s = None -> wfState s.
Proof. intros H q Hq. congruence. Qed.

(** ** Further properties of the handlers *)

(** *** What a tool call may do to the operating system *)

(** A spawn is guarded when its arguments are a mode flag, [--path]
    and a project path that passed the validator and holds a
    [project.godot], and its command is the executable the detector
    or the executor knows. *)
Definition guarded (executor : OperationExecutorImpl) (e : Event) : Prop :=
  match e with
  | Spawn _ command argv =>
      exists flag project rest,
        argv = flag :: "--path" :: project :: rest
        /\ PathValidator.validatePath project = true
        /\ existsSync (path_join project "project.godot") = true
        /\ (required detectedGodotPath = Some command
            \/ required (godotPath executor) = Some command)
  | _ => True
  end.

(** [footprint m]: the call [m] leaves the executor as it was, and
    what it adds to the effects are guarded spawns, version probes and
    signals. *)
Definition footprint {A} (m : M A) : Prop :=
  forall s c s',
    m s = (c, s') ->
    operationExecutor s' = operationExecutor s
    /\ exists new,
         effects s' = effects s ++ new
         /\ Forall (guarded (operationExecutor s)) new.

Ltac unfold_handlers :=
  unfold handleLaunchEditor, handleGetGodotVersion, handleRunProject,
    handleRunProject_start, killExisting, startSupervised, onSpawn, onError,
    isActive, runCmdArgs, handleGetDebugOutput, handleStopProject,
    handleListProjects, handleGetProjectInfo, handleCreateScene, handleAddNode,
    handleSaveScene, handleLoadSprite, handleExportMeshLibrary, handleGetUid,
    handleUpdateProjectUids in *.

Lemma guarded_spawn executor h command flag project rest :
  PathValidator.validatePath project = true ->
  existsSync (path_join project "project.godot") = true ->
  required detectedGodotPath = Some command
  \/ required (godotPath executor) = Some command ->
  guarded executor (Spawn h command (flag :: "--path" :: project :: rest)).
Proof. intros Hv He Hc. simpl. eauto 8. Qed.

Ltac footprint_leaf :=
  split;
  [ repeat match goal with
           | |- context [if ?b then _ else _] => destruct b
           end; reflexivity
  | repeat match goal with
           | |- context [if ?b then _ else _] => destruct b
           end;
    simpl;
    first
      [ exists []; split; [symmetry; apply app_nil_r | constructor]
      | eexists [_]; split; [reflexivity|];
        repeat constructor; try (apply guarded_spawn; [assumption | assumption | tauto])
      | eexists [_; _]; split; [rewrite <- app_assoc; reflexivity|];
        repeat constructor; try (apply guarded_spawn; [assumption | assumption | tauto]) ] ].

Ltac has_footprint :=
  intros s c s' Hrun; unfold_handlers; run; footprint_leaf.

Lemma handleLaunchEditor_footprint arguments : footprint (handleLaunchEditor arguments).
Proof. has_footprint. Qed.

Lemma handleGetGodotVersion_footprint : footprint handleGetGodotVersion.
Proof. has_footprint. Qed.

Lemma handleRunProject_footprint arguments : footprint (handleRunProject arguments).
Proof. has_footprint. Qed.

Lemma handleGetDebugOutput_footprint : footprint handleGetDebugOutput.
Proof. has_footprint. Qed.

Lemma handleStopProject_footprint : footprint handleStopProject.
Proof. has_footprint. Qed.

Lemma handleListProjects_footprint arguments : footprint (handleListProjects arguments).
Proof. has_footprint. Qed.

Lemma handleGetProjectInfo_footprint arguments : footprint (handleGetProjectInfo arguments).
Proof. has_footprint. Qed.

Lemma handleCreateScene_footprint arguments : footprint (handleCreateScene arguments).
Proof. has_footprint. Qed.

Lemma handleAddNode_footprint arguments : footprint (handleAddNode arguments).
Proof. has_footprint. Qed.

Lemma handleSaveScene_footprint arguments : footprint (handleSaveScene arguments).
Proof. has_footprint. Qed.

Lemma handleLoadSprite_footprint arguments : footprint (handleLoadSprite arguments).
Proof. has_footprint. Qed.

Lemma handleExportMeshLibrary_footprint arguments :
  footprint (handleExportMeshLibrary arguments).
Proof. has_footprint. Qed.

Lemma handleGetUid_footprint arguments : footprint (handleGetUid arguments).
Proof. has_footprint. Qed.

Lemma handleUpdateProjectUids_footprint arguments :
  footprint (handleUpdateProjectUids arguments).
Proof. has_footprint. Qed.

Create HintDb footprints.

#[local] Hint Resolve handleLaunchEditor_footprint handleGetGodotVersion_footprint
  handleRunProject_footprint handleGetDebugOutput_footprint
  handleStopProject_footprint handleListProjects_footprint
  handleGetProjectInfo_footprint handleCreateScene_footprint
  handleAddNode_footprint handleSaveScene_footprint handleLoadSprite_footprint
  handleExportMeshLibrary_footprint handleGetUid_footprint
  handleUpdateProjectUids_footprint : footprints.

Lemma route_footprint name arguments : footprint (route name arguments).
Proof.
  unfold route.
  repeat lazymatch goal with
         | |- footprint (if ?b then _ else _) => destruct b
         end; auto with footprints.
  intros s c s' Hrun. unfold throw in Hrun. injection Hrun as _ <-.
  split; [reflexivity|]. exists []. split; [symmetry; apply app_nil_r | constructor].
Qed.


(** *** Validation comes before every effect *)

(** The path parameters each handler validates before it does anything
    else: with [validateProjectPath], or, for the new path of
    [save_scene], with its own test.  The scene of [run_project] is not
    among them. *)
Definition validatedPaths (name : string) (args : ToolArgs) : list (option string) :=
  if String.eqb name "launch_editor" then [projectPath args]
  else if String.eqb name "run_project" then [projectPath args]
  else if String.eqb name "get_project_info" then [projectPath args]
  else if String.eqb name "update_project_uids" then [projectPath args]
  else if String.eqb name "list_projects" then [directory args]
  else if String.eqb name "create_scene" then [projectPath args; scenePath args]
  else if String.eqb name "add_node" then [projectPath args; scenePath args]
  else if String.eqb name "save_scene"
  then [projectPath args; scenePath args; newPath args]
  else if String.eqb name "load_sprite"
  then [projectPath args; scenePath args; nodePath args; texturePath args]
  else if String.eqb name "export_mesh_library"
  then [projectPath args; scenePath args; outputPath args]
  else if String.eqb name "get_uid" then [projectPath args; filePath args]
  else [].

(** [refuses paths m]: when one of [paths] is given and unsafe, the
    call [m] changes nothing and does not end in a success. *)
Definition refuses (paths : list (option string)) (m : M ToolResponse) : Prop :=
  forall s c s',
    existsb unsafeOptional paths = true ->
    m s = (c, s') ->
    s' = s
    /\ match c with
       | Fulfilled r => flagged r = true
       | Raised _ => True
       end.

Ltac refuses_unsafe :=
  intros s c s' Hunsafe Hrun; unfold_handlers; run;
  first
    [ split; [reflexivity | first [reflexivity | exact I]]
    | exfalso; revert Hunsafe; cbn [existsb];
      repeat match goal with
             | E : _ = _ |- _ => rewrite E
             end;
      unfold unsafeOptional;
      repeat match goal with
             | E : _ = _ |- _ => rewrite E
             end;
      simpl; discriminate ].

Lemma handleLaunchEditor_refuses args :
  refuses [projectPath args] (handleLaunchEditor (Some args)).
Proof. refuses_unsafe. Qed.

Lemma handleRunProject_refuses args :
  refuses [projectPath args] (handleRunProject (Some args)).
Proof. refuses_unsafe. Qed.

Lemma handleGetProjectInfo_refuses args :
  refuses [projectPath args] (handleGetProjectInfo (Some args)).
Proof. refuses_unsafe. Qed.

Lemma handleUpdateProjectUids_refuses args :
  refuses [projectPath args] (handleUpdateProjectUids (Some args)).
Proof. refuses_unsafe. Qed.

Lemma handleListProjects_refuses args :
  refuses [directory args] (handleListProjects (Some args)).
Proof. refuses_unsafe. Qed.

Lemma handleCreateScene_refuses args :
  refuses [projectPath args; scenePath args] (handleCreateScene (Some args)).
Proof. refuses_unsafe. Qed.

Lemma handleAddNode_refuses args :
  refuses [projectPath args; scenePath args] (handleAddNode (Some args)).
Proof. refuses_unsafe. Qed.

Lemma handleSaveScene_refuses args :
  refuses [projectPath args; scenePath args; newPath args]
    (handleSaveScene (Some args)).
Proof. refuses_unsafe. Qed.

Lemma handleLoadSprite_refuses args :
  refuses [projectPath args; scenePath args; nodePath args; texturePath args]
    (handleLoadSprite (Some args)).
Proof. refuses_unsafe. Qed.

Lemma handleExportMeshLibrary_refuses args :
  refuses [projectPath args; scenePath args; outputPath args]
    (handleExportMeshLibrary (Some args)).
Proof. refuses_unsafe. Qed.

Lemma handleGetUid_refuses args :
  refuses [projectPath args; filePath args] (handleGetUid (Some args)).
Proof. refuses_unsafe. Qed.

Lemma route_refuses name args :
  refuses (validatedPaths name args) (route name (Some args)).
Proof.
  unfold validatedPaths, route.
  destruct (String.eqb name "launch_editor"); [apply handleLaunchEditor_refuses|].
  destruct (String.eqb name "get_godot_version") eqn:E1.
  { apply String.eqb_eq in E1 as ->. simpl. intros s c s' H. discriminate H. }
  destruct (String.eqb name "run_project"); [apply handleRunProject_refuses|].
  destruct (String.eqb name "get_debug_output") eqn:E2.
  { apply String.eqb_eq in E2 as ->. simpl. intros s c s' H. discriminate H. }
  destruct (String.eqb name "stop_project") eqn:E3.
  { apply String.eqb_eq in E3 as ->. simpl. intros s c s' H. discriminate H. }
  destruct (String.eqb name "get_project_info") eqn:E4.
  { apply String.eqb_eq in E4 as ->. simpl. apply handleGetProjectInfo_refuses. }
  destruct (String.eqb name "update_project_uids") eqn:E5.
  { apply String.eqb_eq in E5 as ->. simpl. apply handleUpdateProjectUids_refuses. }
  destruct (String.eqb name "list_projects"); [apply handleListProjects_refuses|].
  destruct (String.eqb name "create_scene"); [apply handleCreateScene_refuses|].
  destruct (String.eqb name "add_node"); [apply handleAddNode_refuses|].
  destruct (String.eqb name "save_scene"); [apply handleSaveScene_refuses|].
  destruct (String.eqb name "load_sprite"); [apply handleLoadSprite_refuses|].
  destruct (String.eqb name "export_mesh_library");
    [apply handleExportMeshLibrary_refuses|].
  destruct (String.eqb name "get_uid"); [apply handleGetUid_refuses|].
  intros s c s' H. discriminate H.
Qed.

(** X2.  When one of the path parameters a handler validates is given
    and unsafe, the tool call answers with an error response and
    leaves the whole state as it was: nothing is spawned, probed or
    signalled. *)
Theorem unsafe_path_is_refused_before_any_effect
  (name : string) (args : ToolArgs) (s : ServerState) :
  existsb unsafeOptional (validatedPaths name args) = true ->
  exists resp,
    callTool name (Some args) s = (Fulfilled resp, s) /\ flagged resp = true.
Proof.
  intros H. rewrite callTool_unfold.
  destruct (route name (Some args) s) as [c s'] eqn:E.
  destruct (route_refuses name args s c s' H E) as [-> Hc].
  destruct c as [r|t]; eexists; split; try reflexivity. exact Hc.
Qed.

(** *** The version gate of the UID tools *)

Ltac no_spawn_leaf :=
  split;
  [ first [ reflexivity | rewrite flagged_finish; congruence ]
  | simpl; unfold spawns; rewrite ?List.filter_app; simpl;
    rewrite ?app_nil_r; reflexivity ].

(** X3.  When the version probe fails, or reports a version that
    [isGodot44OrLater] does not accept, the two UID tools answer with
    an error response and spawn nothing: the probe is the only process
    they start. *)
Theorem old_godot_runs_no_uid_operation
  (name : string) (arguments : option ToolArgs) (s : ServerState) :
  name = "get_uid" \/ name = "update_project_uids" ->
  (forall godot out,
     required detectedGodotPath = Some godot ->
     execOutcome (versionCommand godot) = inl out ->
     Version.isGodot44OrLater (String_trim out) = false) ->
  exists resp s',
    callTool name arguments s = (Fulfilled resp, s')
    /\ flagged resp = true
    /\ spawns (effects s') = spawns (effects s).
Proof.
  intros Hname Hold. rewrite callTool_unfold.
  destruct (route name arguments s) as [c s'] eqn:Hrun.
  assert (H : match c with
              | Fulfilled r => flagged r = true
              | Raised _ => True
              end /\ spawns (effects s') = spawns (effects s)).
  { destruct Hname as [-> | ->]; unfold route in Hrun;
      cbn [String.eqb Ascii.eqb Bool.eqb] in Hrun; unfold_handlers; run;
      try match goal with
          | Hv : negb (Version.isGodot44OrLater (String_trim ?out)) = false,
            He : execOutcome (versionCommand ?g) = inl ?out |- _ =>
              rewrite (Hold g out) in Hv by first [assumption | reflexivity];
              discriminate Hv
          end;
      (split; [first [reflexivity | exact I]
              | simpl; unfold spawns; rewrite ?List.filter_app; simpl;
                rewrite ?app_nil_r; reflexivity ]). }
  destruct H as [Hc Hs].
  destruct c as [r|t]; eexists _, _; (split; [reflexivity|]); split; auto.
Qed.

(** *** What the client learns of a failed spawn *)

(** The words that introduce the failures of each discrete tool. *)
Definition failureOf (name : string) : string :=
  if String.eqb name "create_scene" then "Failed to create scene: "
  else if String.eqb name "add_node" then "Failed to add node: "
  else if String.eqb name "save_scene" then "Failed to save scene: "
  else if String.eqb name "load_sprite" then "Failed to load sprite: "
  else if String.eqb name "export_mesh_library" then "Failed to export mesh library: "
  else if String.eqb name "get_uid" then "Failed to get UID: "
  else if String.eqb name "update_project_uids" then "Failed to update project UIDs: "
  else "".

Lemma last_effect (es new before : list Event) (e : Event) :
  es ++ new = es ++ before ++ [e] -> last new = Some e.
Proof. intros H. apply app_inv_head in H. subst. apply last_snoc. Qed.

Lemma no_effect (es before : list Event) (e : Event) :
  es = es ++ before ++ [e] -> False.
Proof.
  intros H. apply (f_equal (@List.length Event)) in H.
  rewrite !length_app in H. simpl in H. lia.
Qed.

(** [reportsSpawnError failure m]: when the last effect of the call is
    a spawn whose child could not be started, the response carries the
    message of that error after [failure]. *)
Definition reportsSpawnError (failure : string) (m : M ToolResponse) : Prop :=
  forall s resp s' before h godot argv message,
    m s = (Fulfilled resp, s') ->
    effects s' = effects s ++ before ++ [Spawn h godot argv] ->
    childProcess godot argv = ChildError message ->
    resp = createErrorResponse
             (failure +:+ (if Js.nonempty message then message else "Unknown error"))
             installHints.

Ltac reports_spawn_error :=
  intros s resp s' before h godot argv message Hrun Heff Hchild;
  unfold_handlers; run; simpl in Heff; rewrite <- ?app_assoc in Heff;
  first [ exfalso; exact (no_effect _ _ _ Heff) | idtac ];
  apply last_effect in Heff; simpl in Heff;
  first [ discriminate Heff
        | injection Heff; clear Heff; intros; subst; cbn [app] in *;
          first [ congruence
                | match goal with
                  | H1 : childProcess ?g ?a = ChildError ?m1,
                    H2 : childProcess ?g ?a = ChildError ?m2 |- _ =>
                      rewrite H1 in H2; injection H2 as ->
                  end; reflexivity ] ].

Lemma handleCreateScene_spawn_error arguments :
  reportsSpawnError "Failed to create scene: " (handleCreateScene arguments).
Proof. reports_spawn_error. Qed.

Lemma handleAddNode_spawn_error arguments :
  reportsSpawnError "Failed to add node: " (handleAddNode arguments).
Proof. reports_spawn_error. Qed.

Lemma handleSaveScene_spawn_error arguments :
  reportsSpawnError "Failed to save scene: " (handleSaveScene arguments).
Proof. reports_spawn_error. Qed.

Lemma handleLoadSprite_spawn_error arguments :
  reportsSpawnError "Failed to load sprite: " (handleLoadSprite arguments).
Proof. reports_spawn_error. Qed.

Lemma handleExportMeshLibrary_spawn_error arguments :
  reportsSpawnError "Failed to export mesh library: "
    (handleExportMeshLibrary arguments).
Proof. reports_spawn_error. Qed.

Lemma handleGetUid_spawn_error arguments :
  reportsSpawnError "Failed to get UID: " (handleGetUid arguments).
Proof. reports_spawn_error. Qed.

Lemma handleUpdateProjectUids_spawn_error arguments :
  reportsSpawnError "Failed to update project UIDs: "
    (handleUpdateProjectUids arguments).
Proof. reports_spawn_error. Qed.

(** X4.  When the child of a discrete operation cannot be started, the
    tool answers with an error response that carries the message of
    the operating system after the words of its operation (and
    [Unknown error] when that message is empty). *)
Theorem spawn_error_of_a_discrete_tool_is_reported
  (name : string) (arguments : option ToolArgs) (s s' : ServerState)
  (resp : ToolResponse) (before : list Event) (h : nat) (godot : string)
  (argv : list string) (message : string) :
  discrete name = true ->
  callTool name arguments s = (Fulfilled resp, s') ->
  effects s' = effects s ++ before ++ [Spawn h godot argv] ->
  childProcess godot argv = ChildError message ->
  resp = createErrorResponse
           (failureOf name
            +:+ (if Js.nonempty message then message else "Unknown error"))
           installHints
  /\ flagged resp = true.
Proof.
  intros Hd Hcall Heff Hchild.
  assert (Hresp : resp = createErrorResponse
                           (failureOf name
                            +:+ (if Js.nonempty message then message
                                 else "Unknown error"))
                           installHints).
  { rewrite callTool_unfold in Hcall.
    destruct (route name arguments s) as [[r|t] s1] eqn:E;
      injection Hcall as <- <-.
    - apply discrete_cases in Hd.
      destruct Hd as [->|[->|[->|[->|[->|[->| ->]]]]]];
        unfold route in E; cbn [String.eqb Ascii.eqb Bool.eqb] in E;
        unfold failureOf; cbn [String.eqb Ascii.eqb Bool.eqb].
      + eapply handleCreateScene_spawn_error; eassumption.
      + eapply handleAddNode_spawn_error; eassumption.
      + eapply handleSaveScene_spawn_error; eassumption.
      + eapply handleLoadSprite_spawn_error; eassumption.
      + eapply handleExportMeshLibrary_spawn_error; eassumption.
      + eapply handleGetUid_spawn_error; eassumption.
      + eapply handleUpdateProjectUids_spawn_error; eassumption.
    - exfalso. apply discrete_cases in Hd.
      destruct Hd as [->|[->|[->|[->|[->|[->| ->]]]]]];
        unfold route in E; cbn [String.eqb Ascii.eqb Bool.eqb] in E;
        unfold_handlers; run; simpl in Heff; rewrite <- ?app_assoc in Heff;
        first [ match goal with
                | H : Fulfilled _ = Raised _ |- _ => discriminate H
                end
              | exact (no_effect _ _ _ Heff)
              | apply last_effect in Heff; discriminate Heff ]. }
  split; [exact Hresp | now rewrite Hresp].
Qed.

(** X5.  When the process of [run_project] or of [launch_editor]
    reports an error instead of starting, the handler rejects its
    promise with the response it has built, which is no [Error]: the
    request handler then answers [Tool execution failed: Unknown
    error], and neither the message of the operating system nor the
    hints of the handler reach the client. *)
Theorem spawn_error_of_a_start_tool_is_lost
  (args : ToolArgs) (s : ServerState) (project godot message : string) :
  required (projectPath args) = Some project ->
  PathValidator.validatePath project = true ->
  existsSync (path_join project "project.godot") = true ->
  required detectedGodotPath = Some godot ->
  (childProcess godot (runCmdArgs project (scene args)) = ChildError message ->
   fst (route "run_project" (Some args) s)
   = Raised (ResponseObject
               (createErrorResponse ("Failed to run Godot project: " +:+ message)
                  installHints))
   /\ fst (callTool "run_project" (Some args) s)
      = Fulfilled
          (createErrorResponse "Tool execution failed: Unknown error"
             ["Check the tool parameters and try again"]))
  /\ (childProcess godot ["-e"; "--path"; project] = ChildError message ->
      fst (route "launch_editor" (Some args) s)
      = Raised (ResponseObject
                  (createErrorResponse ("Failed to launch Godot editor: " +:+ message)
                     installHints))
      /\ fst (callTool "launch_editor" (Some args) s)
         = Fulfilled
             (createErrorResponse "Tool execution failed: Unknown error"
                ["Check the tool parameters and try again"])).
Proof.
  intros Hreq Hval Hdir Hgodot.
  split; intros Hchild.
  - assert (E : fst (route "run_project" (Some args) s)
                = Raised (ResponseObject
                            (createErrorResponse
                               ("Failed to run Godot project: " +:+ message)
                               installHints))).
    { unfold route; cbn [String.eqb Ascii.eqb Bool.eqb].
      unfold handleRunProject, handleRunProject_start, killExisting,
        startSupervised, onError.
      unfold_calls. rewrite Hreq, Hval, Hdir, Hgodot.
      destruct (activeProcess s); cbn beta iota; rewrite Hchild; reflexivity. }
    split; [exact E|]. rewrite callTool_unfold.
    destruct (route "run_project" (Some args) s) as [c s1].
    simpl in E. subst c. reflexivity.
  - assert (E : fst (route "launch_editor" (Some args) s)
                = Raised (ResponseObject
                            (createErrorResponse
                               ("Failed to launch Godot editor: " +:+ message)
                               installHints))).
    { unfold route; cbn [String.eqb Ascii.eqb Bool.eqb].
      unfold handleLaunchEditor. unfold_calls.
      rewrite Hreq, Hval, Hdir, Hgodot. cbn beta iota. rewrite Hchild. reflexivity. }
    split; [exact E|]. rewrite callTool_unfold.
    destruct (route "launch_editor" (Some args) s) as [c s1].
    simpl in E. subst c. reflexivity.
Qed.

(** *** Events around the registration of a process *)

(** Symbolic execution of the synchronous part of [handleRunProject]. *)
Ltac run_start :=
  unfold_handlers; run;
  try match goal with
      | H : RunSettled _ = RunWaiting _ _ |- _ => discriminate H
      end;
  try match goal with
      | H : RunWaiting _ _ = RunWaiting _ _ |- _ =>
          injection H; clear H; intros; subst
      end.

Lemma lookup_two_fresh (l : list (list string)) :
  ((l ++ [[]]) ++ [[]]) !! List.length l = Some []
  /\ ((l ++ [[]]) ++ [[]]) !! List.length (l ++ [[]]) = Some [].
Proof.
  split.
  - rewrite <- app_assoc. now apply list_lookup_middle.
  - now apply list_lookup_middle.
Qed.

(** What [handleRunProject] has allocated when it waits for its
    process. *)
Lemma handleRunProject_start_allocates arguments s p child s1 :
  handleRunProject_start arguments s = (Fulfilled (RunWaiting p child), s1) ->
  process p = nextHandle s
  /\ wfProcess p s1
  /\ readArray (output p) s1 = []
  /\ readArray (errors p) s1 = []
  /\ activeProcess s1 = activeProcess s
  /\ nextHandle s1 = S (nextHandle s).
Proof.
  intros Hrun. run_start.
  all: unfold wfProcess, readArray; simpl.
  all: repeat split; try assumption; try reflexivity.
  all: try (rewrite ?length_app; simpl; lia).
  all: first
         [ rewrite (proj1 (lookup_two_fresh _)); reflexivity
         | rewrite (proj2 (lookup_two_fresh _)); reflexivity ].
Qed.

(** X6.  Data that the process writes between its start and the
    ['spawn'] event that registers it is not lost: the listeners push
    to the arrays the registration then publishes, so the first query of
    the debug output shows every line delivered so far. *)
Theorem early_output_is_kept
  (arguments : option ToolArgs) (s s1 : ServerState) (p : GodotProcess)
  (child : ChildOutcome) (ds : list (Stream * string)) :
  handleRunProject_start arguments s = (Fulfilled (RunWaiting p child), s1) ->
  exists s3,
    onSpawn p (deliver p ds s1)
    = (Fulfilled
         (textResponse
            "Godot project started in debug mode. Use get_debug_output to see output."),
       s3)
    /\ held s3 = [p]
    /\ handleGetDebugOutput s3
       = (Fulfilled
            (textResponse
               (JSON_stringify_indented
                  (JObj [ ("output", JArr (List.map JStr (linesOf Stdout ds)));
                          ("errors", JArr (List.map JStr (linesOf Stderr ds))) ]))),
          s3).
Proof.
  intros Hrun.
  destruct (handleRunProject_start_allocates _ _ _ _ _ Hrun)
    as (_ & Hwf & Ho & He & _).
  destruct (readArray_deliver p ds s1 Hwf) as [Hout Herr].
  rewrite Ho in Hout. rewrite He in Herr. simpl in Hout, Herr.
  eexists. split; [reflexivity|]. split; [reflexivity|].
  unfold handleGetDebugOutput, bind, get, ret. simpl.
  change (readArray (output p) (setActiveProcess (Some p) (deliver p ds s1)))
    with (readArray (output p) (deliver p ds s1)).
  change (readArray (errors p) (setActiveProcess (Some p) (deliver p ds s1)))
    with (readArray (errors p) (deliver p ds s1)).
  now rewrite Hout, Herr.
Qed.

(** X7.  Two runs requested one after the other, before the process of
    the first has reported its start: the slot is empty both times, so
    nothing is signalled and both processes are spawned; the slot ends
    up with the second process, and stopping signals the second only.
    The first process is never signalled. *)
Theorem racing_runs_leak_the_first_process
  (s s1 s2 : ServerState) (first second : option ToolArgs)
  (p1 p2 : GodotProcess) (child1 child2 : ChildOutcome) :
  activeProcess s = None ->
  handleRunProject_start first s = (Fulfilled (RunWaiting p1 child1), s1) ->
  handleRunProject_start second s1 = (Fulfilled (RunWaiting p2 child2), s2) ->
  let s3 := snd (onSpawn p1 s2) in
  let s4 := snd (onSpawn p2 s3) in
  let s5 := snd (handleStopProject s4) in
  held s4 = [p2]
  /\ process p1 <> process p2
  /\ (exists godot1 argv1 godot2 argv2,
        effects s4
        = effects s ++ [ Spawn (process p1) godot1 argv1;
                         Spawn (process p2) godot2 argv2 ])
  /\ effects s5 = effects s4 ++ [Kill (process p2)]
  /\ held s5 = [].
Proof.
  intros Hidle H1 H2 s3 s4 s5.
  destruct (handleRunProject_start_allocates _ _ _ _ _ H1)
    as (Hp1 & _ & _ & _ & Ha1 & Hn1).
  destruct (handleRunProject_start_allocates _ _ _ _ _ H2)
    as (Hp2 & _ & _ & _ & Ha2 & _).
  rewrite Hidle in Ha1. rewrite Ha1 in Ha2.
  assert (E1 : exists godot1 argv1,
             effects s1 = effects s ++ [Spawn (process p1) godot1 argv1]).
  { clear H2. run_start; try congruence; simpl; eauto. }
  assert (E2 : exists godot2 argv2,
             effects s2 = effects s1 ++ [Spawn (process p2) godot2 argv2]).
  { clear H1 E1. run_start; try congruence; simpl; eauto. }
  destruct E1 as (godot1 & argv1 & E1). destruct E2 as (godot2 & argv2 & E2).
  split; [reflexivity|]. split; [lia|].
  split.
  { exists godot1, argv1, godot2, argv2. subst s4 s3. simpl.
    rewrite E2, E1, <- app_assoc. reflexivity. }
  split; reflexivity.
Qed.

(** X8.  The exit of the registered process empties the slot without a
    signal; from then on the debug output and the stop both answer that
    there is no process, so the lines captured from it can no longer be
    read.  The exit of any other process leaves the state as it was. *)
Theorem exit_of_the_registered_process_empties_the_slot
  (s : ServerState) (p : GodotProcess) :
  activeProcess s = Some p ->
  held (onExit p s) = []
  /\ effects (onExit p s) = effects s
  /\ arrays (onExit p s) = arrays s
  /\ handleGetDebugOutput (onExit p s)
     = (Fulfilled
          (createErrorResponse "No active Godot process."
             [ "Use run_project to start a Godot project first";
               "Check if the Godot process crashed unexpectedly" ]),
        onExit p s)
  /\ handleStopProject (onExit p s)
     = (Fulfilled
          (createErrorResponse "No active Godot process to stop."
             [ "Use run_project to start a Godot project first";
               "The process may have already terminated" ]),
        onExit p s)
  /\ (forall q, process q <> process p -> onExit q s = s).
Proof.
  intros Ha.
  assert (E : onExit p s = setActiveProcess None s).
  { unfold onExit, isActive. now rewrite Ha, Nat.eqb_refl. }
  rewrite E. repeat split.
  intros q Hq. unfold onExit, isActive. rewrite Ha.
  destruct (Nat.eqb_spec (process p) (process q)); [congruence | reflexivity].
Qed.

(** *** The states the server reaches *)

(** What happens to the server once it is connected: a tool call is
    handled to its end, a process delivers a chunk of data, a process
    exits. *)
Inductive Input :=
  | Call (name : string) (arguments : option ToolArgs)
  | Data (p : GodotProcess) (d : Stream * string)
  | Exit (p : GodotProcess).

Definition step (i : Input) (s : ServerState) : ServerState :=
  match i with
  | Call name arguments => snd (callTool name arguments s)
  | Data p d => onData p d s
  | Exit p => onExit p s
  end.

(** The state after a run of inputs, oldest first. *)
Definition reach (inputs : list Input) (s : ServerState) : ServerState :=
  fold_left (fun s i => step i s) inputs s.

(** *** src/server.ts: construction and start *)

(** [GodotServerConfig]. *)
Record GodotServerConfig := {
  config_godotPath : option string;
  config_debugMode : option bool;
  config_godotDebugMode : option bool;
  config_strictPathValidation : option bool
}.

(** [a ?? b]. *)
Definition orDefault {A} (a : option A) (b : A) : A :=
  match a with
  | Some x => x
  | None => b
  end.

(** [ProcessManagerImpl] (src/modules/process-manager.ts): its slot
    and its debug flag. *)
Record ProcessManagerImpl := {
  manager_activeProcess : option GodotProcess;
  manager_debugMode : bool
}.

(** The fields of [GodotServer] that change or are consulted after
    construction: the state the handlers share, the strictness of the
    path validation, and the process manager. *)
Record GodotServer := {
  handlers : ServerState;
  strictPathValidation : bool;
  processManager : ProcessManagerImpl
}.

(** The constructor.  [envDebug] is [process.env.DEBUG === 'true'] and
    [scriptPath] is [join(__dirname, 'scripts', 'godot_operations.gd')]. *)
Definition construct (config : option GodotServerConfig) (envDebug : bool)
  (scriptPath : string) : GodotServer :=
  let debug := orDefault (option_bind _ _ config_debugMode config) envDebug in
  let godotDebug := orDefault (option_bind _ _ config_godotDebugMode config) true in
  {| handlers :=
       {| activeProcess := None;
          operationExecutor :=
            {| operationsScriptPath := scriptPath;
               godotPath := None;
               godotDebugMode := godotDebug;
               debugMode := debug |};
          arrays := [];
          nextHandle := 0;
          effects := [] |};
     strictPathValidation :=
       orDefault (option_bind _ _ config_strictPathValidation config) false;
     processManager :=
       {| manager_activeProcess := None; manager_debugMode := debug |} |}.

(** How [run] ends: the process exits with a code, or the server is
    connected and serves. *)
Inductive Startup :=
  | Exited (code : Z)
  | Serving (server : GodotServer).

(** [run()].  [detects] tells whether [detectGodotPath()] resolves,
    [valid] is what [isValidGodotPath(godotPath)] resolves with (or
    nothing when it rejects), [connects] tells whether the transport
    connects. *)
Definition run (server : GodotServer) (detects : bool) (valid : option bool)
  (connects : bool) : Startup :=
  if negb detects then Exited 1
  else
    match required detectedGodotPath with
    | None => Exited 1
    | Some godot =>
        let server :=
          {| handlers := setGodotPath godot (handlers server);
             strictPathValidation := strictPathValidation server;
             processManager := processManager server |} in
        match valid with
        | None => Exited 1
        | Some isValid =>
            if negb isValid && strictPathValidation server then Exited 1
            else if connects then Serving server
            else Exited 1
        end
    end.

(** *** src/modules/process-manager.ts *)

(** [setActiveProcess(process)] of the process manager. *)
Definition ProcessManager_setActiveProcess (p : GodotProcess)
  (manager : ProcessManagerImpl) : ProcessManagerImpl :=
  {| manager_activeProcess := Some p;
     manager_debugMode := manager_debugMode manager |}.

(** [getActiveProcess()]. *)
Definition ProcessManager_getActiveProcess (manager : ProcessManagerImpl)
  : option GodotProcess :=
  manager_activeProcess manager.

(** [cleanup()] of the process manager: the signals it sends and the
    manager it leaves. *)
Definition ProcessManager_cleanup (manager : ProcessManagerImpl)
  : list Event * ProcessManagerImpl :=
  match manager_activeProcess manager with
  | Some p =>
      ([Kill (process p)],
       {| manager_activeProcess := None;
          manager_debugMode := manager_debugMode manager |})
  | None => ([], manager)
  end.

(** [cleanup()] of the server, run on [SIGINT]:
    [this.processManager.cleanup(); await this.server.close()]. *)
Definition GodotServer_cleanup (server : GodotServer) : GodotServer :=
  let (signals, manager) := ProcessManager_cleanup (processManager server) in
  {| handlers :=
       fold_left (fun s e => addEffect e s) signals (handlers server);
     strictPathValidation := strictPathValidation server;
     processManager := manager |}.

(** A run of inputs on the whole server: the handlers are constructed
    with the path detector, the executor and the error handler, not
    with the process manager, and work on the state they share. *)
Definition serve (inputs : list Input) (server : GodotServer) : GodotServer :=
  {| handlers := reach inputs (handlers server);
     strictPathValidation := strictPathValidation server;
     processManager := processManager server |}.

Lemma operationExecutor_step i s : operationExecutor (step i s) = operationExecutor s.
Proof.
  destruct i as [name arguments | p d | p]; simpl.
  - rewrite callTool_unfold.
    destruct (route name arguments s) as [c s'] eqn:E.
    destruct (route_footprint name arguments s c s' E) as [He _].
    destruct c; exact He.
  - unfold onData, onStdoutData, onStderrData. destruct (fst d); reflexivity.
  - unfold onExit. destruct (isActive p s); reflexivity.
Qed.

Lemma operationExecutor_reach inputs s :
  operationExecutor (reach inputs s) = operationExecutor s.
Proof.
  revert s. induction inputs as [|i inputs IH]; intros s; [reflexivity|].
  simpl. now rewrite IH, operationExecutor_step.
Qed.

Lemma wfState_step i s : wfState s -> wfState (step i s).
Proof.
  destruct i as [name arguments | p d | p]; simpl.
  - apply wfState_callTool.
  - apply wfState_onData.
  - apply wfState_onExit.
Qed.

Lemma wfState_reach inputs s : wfState s -> wfState (reach inputs s).
Proof.
  revert s. induction inputs as [|i inputs IH]; intros s H; [exact H|].
  simpl. apply IH, wfState_step, H.
Qed.

Lemma served_invariant (s0 : ServerState) (godot scriptPath : string) :
  godotPath (operationExecutor s0) = Some godot ->
  Js.nonempty godot = true ->
  operationsScriptPath (operationExecutor s0) = scriptPath ->
  activeProcess s0 = None ->
  forall inputs,
    godotPath (operationExecutor (reach inputs s0)) = Some godot
    /\ operationsScriptPath (operationExecutor (reach inputs s0)) = scriptPath
    /\ wfState (reach inputs s0)
    /\ forall operation params projectPath t,
         fst (executeOperation operation params projectPath (reach inputs s0))
         = Raised t ->
         exists message,
           t = ErrorObject message
           /\ (childProcess godot
                 (expectedArgs (operationExecutor (reach inputs s0))
                    operation params projectPath)
               = ChildError message
               \/ childProcess godot
                    (expectedArgs (operationExecutor (reach inputs s0))
                       operation params projectPath)
                  = SpawnThrows message).
Proof.
  intros Hg Hne Hs Hidle inputs.
  pose proof (operationExecutor_reach inputs s0) as He.
  split; [now rewrite He|]. split; [now rewrite He|].
  split; [apply wfState_reach, wfState_idle, Hidle|].
  intros operation params projectPath t Ht.
  assert (Hr : required (godotPath (operationExecutor (reach inputs s0)))
               = Some godot).
  { rewrite He, Hg. simpl. now rewrite Hne. }
  rewrite (executeOperation_resolved _ _ _ _ _ Hr) in Ht.
  destruct (childProcess godot _) eqn:Hc; simpl in Ht;
    [ | | discriminate Ht]; injection Ht as <-; eauto.
Qed.

(** X9.  When [run] ends with the server connected, the detection has
    succeeded, the executable is valid or the validation is not strict,
    and the executor has been given the detected path; from then on, in
    every state the server reaches by tool calls and process events,
    the executor still holds that path and its script, so that the only
    errors [executeOperation] raises are those of the spawn, and the
    registered process, when there is one, has its handle and two
    distinct arrays allocated. *)
Theorem served_states_keep_the_executable
  (config : option GodotServerConfig) (envDebug : bool) (scriptPath : string)
  (detects : bool) (valid : option bool) (connects : bool)
  (server : GodotServer) :
  run (construct config envDebug scriptPath) detects valid connects
  = Serving server ->
  exists godot isValid,
    required detectedGodotPath = Some godot
    /\ detects = true /\ connects = true /\ valid = Some isValid
    /\ (isValid = false ->
        option_bind _ _ config_strictPathValidation config <> Some true)
    /\ forall inputs,
         godotPath (operationExecutor (reach inputs (handlers server))) = Some godot
         /\ operationsScriptPath (operationExecutor (reach inputs (handlers server)))
            = scriptPath
         /\ wfState (reach inputs (handlers server))
         /\ forall operation params projectPath t,
              fst (executeOperation operation params projectPath
                     (reach inputs (handlers server)))
              = Raised t ->
              exists message,
                t = ErrorObject message
                /\ (childProcess godot
                      (expectedArgs
                         (operationExecutor (reach inputs (handlers server)))
                         operation params projectPath)
                    = ChildError message
                    \/ childProcess godot
                         (expectedArgs
                            (operationExecutor (reach inputs (handlers server)))
                            operation params projectPath)
                       = SpawnThrows message).
Proof.
  unfold run. intros H.
  destruct detects; [|discriminate H]. simpl in H.
  destruct (required detectedGodotPath) as [godot|] eqn:Hg; [|discriminate H].
  destruct valid as [isValid|]; [|discriminate H].
  destruct (negb isValid && _) eqn:Hs; [discriminate H|].
  destruct connects; [|discriminate H]. injection H as <-.
  exists godot, isValid.
  split; [reflexivity|]. split; [reflexivity|]. split; [reflexivity|].
  split; [reflexivity|]. split.
  { intros -> Hc. simpl in Hs.
    destruct config as [c|]; simpl in *; [|discriminate Hc].
    rewrite Hc in Hs. discriminate Hs. }
  assert (Hne : Js.nonempty godot = true).
  { unfold required in Hg. destruct detectedGodotPath as [d|]; [|discriminate Hg].
    destruct (Js.nonempty d) eqn:Hd; [|discriminate Hg]. now injection Hg as <-. }
  apply served_invariant; [reflexivity | exact Hne | reflexivity | reflexivity].
Qed.

(** X10.  [cleanup] of the process manager signals the process it
    holds, once, and forgets it: a second [cleanup] does nothing, and
    neither does a [cleanup] with an empty slot.  [setActiveProcess]
    overwrites the slot without a signal, so of two processes
    registered one after the other only the second is ever signalled. *)
Theorem process_manager_cleanup_signals_once
  (manager : ProcessManagerImpl) (p q : GodotProcess) :
  ProcessManager_cleanup (snd (ProcessManager_cleanup manager))
  = ([], snd (ProcessManager_cleanup manager))
  /\ ProcessManager_getActiveProcess (snd (ProcessManager_cleanup manager)) = None
  /\ (manager_activeProcess manager = None ->
      ProcessManager_cleanup manager = ([], manager))
  /\ fst (ProcessManager_cleanup
            (ProcessManager_setActiveProcess q
               (ProcessManager_setActiveProcess p manager)))
     = [Kill (process q)]
  /\ ProcessManager_getActiveProcess
       (snd (ProcessManager_cleanup
               (ProcessManager_setActiveProcess q
                  (ProcessManager_setActiveProcess p manager))))
     = None.
Proof.
  unfold ProcessManager_cleanup, ProcessManager_getActiveProcess,
    ProcessManager_setActiveProcess.
  split.
  { destruct (manager_activeProcess manager) eqn:E; simpl; [reflexivity|].
    now rewrite E. }
  split.
  { destruct (manager_activeProcess manager) eqn:E; simpl; [reflexivity | exact E]. }
  split; [intros ->; reflexivity|].
  split; reflexivity.
Qed.

(** X11.  The cleanup the server runs on [SIGINT] does not reach the
    process that [run_project] supervises: the slot of the process
    manager is empty at construction and no tool call or process event
    fills it, so, whatever has happened since the start, the cleanup
    signals nothing and leaves the state of the handlers, with its
    registered process, as it was. *)
Theorem server_cleanup_leaves_the_supervised_process
  (config : option GodotServerConfig) (envDebug : bool) (scriptPath : string)
  (detects : bool) (valid : option bool) (connects : bool)
  (server : GodotServer) (inputs : list Input) :
  run (construct config envDebug scriptPath) detects valid connects
  = Serving server ->
  GodotServer_cleanup (serve inputs server) = serve inputs server
  /\ effects (handlers (GodotServer_cleanup (serve inputs server)))
     = effects (reach inputs (handlers server))
  /\ activeProcess (handlers (GodotServer_cleanup (serve inputs server)))
     = activeProcess (reach inputs (handlers server)).
Proof.
  unfold run. intros H.
  destruct detects; [|discriminate H]. simpl in H.
  destruct (required detectedGodotPath) as [godot|]; [|discriminate H].
  destruct valid as [isValid|]; [|discriminate H].
  destruct (negb isValid && _); [discriminate H|].
  destruct connects; [|discriminate H]. injection H as <-.
  split; [reflexivity|]. split; reflexivity.
Qed.

(** *** src/server.ts: the tools the server lists *)

(** An element of [tools] in the answer to [ListToolsRequestSchema]:
    the name of the tool and the [required] list of its input schema
    (descriptions and property types are left out). *)
Record Tool := {
  tool_name : string;
  tool_required : list string
}.

Definition listTools : list Tool :=
  [ {| tool_name := "launch_editor"; tool_required := ["projectPath"] |};
    {| tool_name := "run_project"; tool_required := ["projectPath"] |};
    {| tool_name := "get_debug_output"; tool_required := [] |};
    {| tool_name := "stop_project"; tool_required := [] |};
    {| tool_name := "get_godot_version"; tool_required := [] |};
    {| tool_name := "list_projects"; tool_required := ["directory"] |};
    {| tool_name := "get_project_info"; tool_required := ["projectPath"] |};
    {| tool_name := "create_scene"; tool_required := ["projectPath"; "scenePath"] |};
    {| tool_name := "add_node";
       tool_required := ["projectPath"; "scenePath"; "nodeType"; "nodeName"] |};
    {| tool_name := "load_sprite";
       tool_required := ["projectPath"; "scenePath"; "nodePath"; "texturePath"] |};
    {| tool_name := "export_mesh_library";
       tool_required := ["projectPath"; "scenePath"; "outputPath"] |};
    {| tool_name := "save_scene"; tool_required := ["projectPath"; "scenePath"] |};
    {| tool_name := "get_uid"; tool_required := ["projectPath"; "filePath"] |};
    {| tool_name := "update_project_uids"; tool_required := ["projectPath"] |} ].

(** [args[key]] for the properties the schemas declare as strings. *)
Definition stringProperty (key : string) (args : ToolArgs) : option string :=
  if String.eqb key "projectPath" then projectPath args
  else if String.eqb key "scene" then scene args
  else if String.eqb key "directory" then directory args
  else if String.eqb key "scenePath" then scenePath args
  else if String.eqb key "rootNodeType" then rootNodeType args
  else if String.eqb key "parentNodePath" then parentNodePath args
  else if String.eqb key "nodeType" then nodeType args
  else if String.eqb key "nodeName" then nodeName args
  else if String.eqb key "nodePath" then nodePath args
  else if String.eqb key "texturePath" then texturePath args
  else if String.eqb key "outputPath" then outputPath args
  else if String.eqb key "newPath" then newPath args
  else if String.eqb key "filePath" then filePath args
  else None.

(** A required property that is absent, or present and empty. *)
Definition missing (args : ToolArgs) (key : string) : bool :=
  negb (Js.truthy (stringProperty key args)).

Lemma required_truthy (o : option string) (v : string) :
  required o = Some v -> Js.truthy o = true.
Proof.
  unfold required, Js.truthy. destruct o as [x|]; [|discriminate].
  now destruct (Js.nonempty x).
Qed.

Ltac refuse_missing args H :=
  rewrite callTool_unfold; unfold route; cbn [String.eqb Ascii.eqb Bool.eqb];
  unfold_handlers; unfold_calls;
  repeat match goal with
         | |- context [required (?f args)] => destruct (required (f args)) eqn:?
         end;
  first
    [ exfalso;
      repeat match goal with
             | E : required _ = Some _ |- _ =>
                 apply required_truthy in E; rewrite E in H; clear E
             end;
      cbn in H; discriminate H
    | eexists; split; reflexivity ].

(** X19.  A name that is not among the tools the server lists is
    answered as an unknown tool, whatever the arguments, and leaves the
    state as it was. *)
Theorem unlisted_tool_is_unknown
  (name : string) (arguments : option ToolArgs) (s : ServerState) :
  existsb (String.eqb name) (List.map tool_name listTools) = false ->
  callTool name arguments s
  = (Fulfilled
       (createErrorResponse
          ("Tool execution failed: " +:+ McpError_message ("Unknown tool: " +:+ name))
          ["Check the tool parameters and try again"]),
     s).
Proof.
  intros H. cbn [existsb List.map listTools tool_name] in H.
  repeat match type of H with
         | (_ || _)%bool = false => apply orb_false_iff in H as [? H]
         end.
  rewrite callTool_unfold. unfold route.
  repeat match goal with
         | E : String.eqb name _ = false |- _ => rewrite E; clear E
         end.
  reflexivity.
Qed.

(** X20.  Every listed tool checks the properties its schema requires
    itself: called with an argument object in which one of them is
    absent or empty, it answers with an error response and leaves the
    state as it was. *)
Theorem listed_tool_checks_its_required_properties
  (tool : Tool) (args : ToolArgs) (s : ServerState) :
  In tool listTools ->
  existsb (missing args) (tool_required tool) = true ->
  exists resp,
    callTool (tool_name tool) (Some args) s = (Fulfilled resp, s)
    /\ flagged resp = true.
Proof.
  intros Hin Hmissing. unfold listTools in Hin. cbn [In] in Hin.
  repeat destruct Hin as [<- | Hin]; try contradiction;
    cbn [tool_required existsb] in Hmissing; try discriminate Hmissing;
    unfold missing, stringProperty in Hmissing;
    cbn [String.eqb Ascii.eqb Bool.eqb] in Hmissing;
    cbn [tool_name]; refuse_missing args Hmissing.
Qed.

(** X21.  Called without an argument object, a listed tool that
    requires nothing behaves as with any arguments, and one that
    requires a property fails on reading the first of them: the answer
    is the error response of the request handler with the message of
    the [TypeError], and the state is left as it was. *)
Theorem listed_tool_without_arguments (tool : Tool) (s : ServerState) :
  In tool listTools ->
  match tool_required tool with
  | [] =>
      forall args, route (tool_name tool) None s = route (tool_name tool) (Some args) s
  | key :: _ =>
      callTool (tool_name tool) None s
      = (Fulfilled
           (createErrorResponse
              ("Tool execution failed: " +:+ TypeError_message key)
              ["Check the tool parameters and try again"]),
         s)
  end.
Proof.
  intros Hin. unfold listTools in Hin. cbn [In] in Hin.
  repeat destruct Hin as [<- | Hin]; try contradiction;
    cbn [tool_name tool_required]; try (intros args); reflexivity.
Qed.

(** *** What the other tools leave alone *)

(** [keepsSlot m]: the call [m] leaves the slot of the supervised
    process and the arrays of captured lines as they were. *)
Definition keepsSlot {A} (m : M A) : Prop :=
  forall s c s',
    m s = (c, s') ->
    activeProcess s' = activeProcess s /\ arrays s' = arrays s.

Ltac keeps_slot :=
  intros s c s' Hrun; unfold_handlers; run;
  repeat match goal with
         | |- context [if ?b then _ else _] => destruct b
         end;
  split; first [reflexivity | congruence | simpl; congruence].

Lemma handleLaunchEditor_keepsSlot arguments : keepsSlot (handleLaunchEditor arguments).
Proof. keeps_slot. Qed.

Lemma handleGetGodotVersion_keepsSlot : keepsSlot handleGetGodotVersion.
Proof. keeps_slot. Qed.

Lemma handleGetDebugOutput_keepsSlot : keepsSlot handleGetDebugOutput.
Proof. keeps_slot. Qed.

Lemma handleListProjects_keepsSlot arguments : keepsSlot (handleListProjects arguments).
Proof. keeps_slot. Qed.

Lemma handleGetProjectInfo_keepsSlot arguments :
  keepsSlot (handleGetProjectInfo arguments).
Proof. keeps_slot. Qed.

Lemma handleCreateScene_keepsSlot arguments : keepsSlot (handleCreateScene arguments).
Proof. keeps_slot. Qed.

Lemma handleAddNode_keepsSlot arguments : keepsSlot (handleAddNode arguments).
Proof. keeps_slot. Qed.

Lemma handleSaveScene_keepsSlot arguments : keepsSlot (handleSaveScene arguments).
Proof. keeps_slot. Qed.

Lemma handleLoadSprite_keepsSlot arguments : keepsSlot (handleLoadSprite arguments).
Proof. keeps_slot. Qed.

Lemma handleExportMeshLibrary_keepsSlot arguments :
  keepsSlot (handleExportMeshLibrary arguments).
Proof. keeps_slot. Qed.

Lemma handleGetUid_keepsSlot arguments : keepsSlot (handleGetUid arguments).
Proof. keeps_slot. Qed.

Lemma handleUpdateProjectUids_keepsSlot arguments :
  keepsSlot (handleUpdateProjectUids arguments).
Proof. keeps_slot. Qed.

Create HintDb slots.

#[local] Hint Resolve handleLaunchEditor_keepsSlot handleGetGodotVersion_keepsSlot
  handleGetDebugOutput_keepsSlot handleListProjects_keepsSlot
  handleGetProjectInfo_keepsSlot handleCreateScene_keepsSlot
  handleAddNode_keepsSlot handleSaveScene_keepsSlot handleLoadSprite_keepsSlot
  handleExportMeshLibrary_keepsSlot handleGetUid_keepsSlot
  handleUpdateProjectUids_keepsSlot : slots.

Lemma route_keepsSlot name arguments :
  String.eqb name "run_project" = false ->
  String.eqb name "stop_project" = false ->
  keepsSlot (route name arguments).
Proof.
  intros Hrun Hstop. unfold route. rewrite Hrun, Hstop.
  repeat lazymatch goal with
         | |- keepsSlot (if ?b then _ else _) => destruct b
         end; auto with slots.
  intros s c s' H. unfold throw in H. injection H as _ <-. now split.
Qed.

(** X22.  Only [run_project] and [stop_project] touch the supervised
    process: a call of any other tool, and of any unknown name, leaves
    the slot and the arrays of captured lines as they were, so the
    debug output reads the same before and after it. *)
Theorem only_run_and_stop_touch_the_supervised_process
  (name : string) (arguments : option ToolArgs) (s : ServerState) :
  String.eqb name "run_project" = false ->
  String.eqb name "stop_project" = false ->
  activeProcess (snd (callTool name arguments s)) = activeProcess s
  /\ arrays (snd (callTool name arguments s)) = arrays s
  /\ fst (handleGetDebugOutput (snd (callTool name arguments s)))
     = fst (handleGetDebugOutput s).
Proof.
  intros Hrun Hstop.
  assert (H : activeProcess (snd (callTool name arguments s)) = activeProcess s
              /\ arrays (snd (callTool name arguments s)) = arrays s).
  { rewrite callTool_unfold.
    destruct (route name arguments s) as [c s'] eqn:E.
    destruct (route_keepsSlot name arguments Hrun Hstop s c s' E) as [Ha Hb].
    destruct c; now split. }
  destruct H as [Ha Hb]. split; [exact Ha|]. split; [exact Hb|].
  unfold handleGetDebugOutput, bind, get, ret, readArray. cbn [fst snd].
  rewrite Ha, Hb. now destruct (activeProcess s).
Qed.

End Server.

Arguments JNull {number}.
Arguments JBool {number} b.
Arguments JNum {number} n.
Arguments JStr {number} s.
Arguments JArr {number} items.
Arguments JObj {number} fields.

(** ** A concrete world

    One instance of the parameters of the development, on which the
    statements above are exercised: a project directory with one scene
    and one texture, an executable that is found, and children whose
    behaviour depends on the operation they are asked for. *)

Module Sample.

Definition path_join (a b : string) : string := a +:+ "/" +:+ b.

Definition existsSync (p : string) : bool :=
  existsb (String.eqb p)
    [ "/games/demo"; "/games/demo/project.godot";
      "/games/demo/main.tscn"; "/games/demo/icon.png" ].

Definition detectedGodotPath : option string := Some "/usr/bin/godot".

Definition execOutcome (commandLine : string) : string + string :=
  inl "4.4.1.stable.official".

(** The child of [create_scene] succeeds, the one of [save_scene] is
    ended by a signal, the one of [add_node] warns on its standard
    error and exits with 0, the one of [load_sprite] cannot be started;
    a supervised run starts. *)
Definition childProcess (command : string) (argv : list string) : ChildOutcome :=
  let operation := nth 5 argv "" in
  if String.eqb operation "create_scene"
  then ChildRuns ["Scene "; "created"] [] (Some 0%Z)
  else if String.eqb operation "save_scene" then ChildRuns ["saved"] [] None
  else if String.eqb operation "add_node"
  then ChildRuns [] ["WARNING: "; "deprecated node type"] (Some 0%Z)
  else if String.eqb operation "load_sprite" then ChildError "spawn ENOENT"
  else ChildRuns [] [] None.

(** An executable that always writes to its standard error and exits
    with 0. *)
Definition noisyChild (command : string) (argv : list string) : ChildOutcome :=
  ChildRuns ["done"] ["warning"] (Some 0%Z).

Definition String_trim (s : string) : string := s.

(** A printer that is enough for flat objects of strings and arrays of
    strings; it stands for [JSON.stringify]. *)
Definition showItem (j : Json Z) : string :=
  match j with
  | JStr s => Js.quote +:+ s +:+ Js.quote
  | _ => "null"
  end.

Definition showValue (j : Json Z) : string :=
  match j with
  | JStr s => Js.quote +:+ s +:+ Js.quote
  | JArr items => "[" +:+ String.concat "," (List.map showItem items) +:+ "]"
  | _ => "null"
  end.

Definition JSON_stringify (j : Json Z) : string :=
  match j with
  | JObj fields =>
      "{"
      +:+ String.concat ","
            (List.map
               (fun kv => Js.quote +:+ fst kv +:+ Js.quote +:+ ":" +:+ showValue (snd kv))
               fields)
      +:+ "}"
  | _ => showValue j
  end.

(** Stands for the parameter mapper; it leaves the bag as it is. *)
Definition convertCamelToSnakeCase (j : Json Z) : Json Z := j.

Definition McpError_message (m : string) : string := "MCP error -32601: " +:+ m.

Definition TypeError_message (property : string) : string :=
  "Cannot read properties of undefined (reading '" +:+ property +:+ "')".

Definition findGodotProjects (directory : string) (recursive : bool) : Json Z := JArr [].

Definition getProjectStructure (projectPath : string) : Json Z := JObj [].

Definition projectNameOf (projectPath : string) : string := "demo".

(** The request handler, the executor and the project handler of this
    world. *)
Definition call : string -> option (ToolArgs Z) -> M ToolResponse :=
  callTool Z existsSync path_join detectedGodotPath execOutcome childProcess
    String_trim JSON_stringify JSON_stringify convertCamelToSnakeCase
    McpError_message TypeError_message findGodotProjects getProjectStructure
    projectNameOf.

Definition noisyCall : string -> option (ToolArgs Z) -> M ToolResponse :=
  callTool Z existsSync path_join detectedGodotPath execOutcome noisyChild
    String_trim JSON_stringify JSON_stringify convertCamelToSnakeCase
    McpError_message TypeError_message findGodotProjects getProjectStructure
    projectNameOf.

Definition execute : string -> Json Z -> string -> M OperationResult :=
  executeOperation Z childProcess JSON_stringify convertCamelToSnakeCase.

Definition stop : M ToolResponse := handleStopProject Z JSON_stringify.

Definition debugOutput : M ToolResponse := handleGetDebugOutput Z JSON_stringify.

(** The server as constructed, and after the executable was found. *)
Definition constructed : ServerState :=
  {| activeProcess := None;
     operationExecutor :=
       {| operationsScriptPath := "/opt/godot-mcp/scripts/godot_operations.gd";
          godotPath := None;
          godotDebugMode := true;
          debugMode := false |};
     arrays := [];
     nextHandle := 0;
     effects := [] |}.

Definition ready : ServerState := setGodotPath "/usr/bin/godot" constructed.

Definition noArgs : ToolArgs Z :=
  {| projectPath := None; scene := None; directory := None; recursive := None;
     scenePath := None; rootNodeType := None; parentNodePath := None;
     nodeType := None; nodeName := None; properties := None; nodePath := None;
     texturePath := None; outputPath := None; meshItemNames := None;
     newPath := None; filePath := None |}.

Definition projectArgs : ToolArgs Z :=
  {| projectPath := Some "/games/demo"; scene := None; directory := None;
     recursive := None; scenePath := None; rootNodeType := None;
     parentNodePath := None; nodeType := None; nodeName := None;
     properties := None; nodePath := None; texturePath := None;
     outputPath := None; meshItemNames := None; newPath := None;
     filePath := None |}.

Definition sceneArgs : ToolArgs Z :=
  {| projectPath := Some "/games/demo"; scene := None; directory := None;
     recursive := None; scenePath := Some "main.tscn"; rootNodeType := None;
     parentNodePath := None; nodeType := Some "Sprite2D"; nodeName := Some "Hero";
     properties := None; nodePath := None; texturePath := None;
     outputPath := None; meshItemNames := None; newPath := None;
     filePath := None |}.

(** A run of a scene outside the project, and a save to a path outside
    the project. *)
Definition unsafeArgs : ToolArgs Z :=
  {| projectPath := Some "/games/demo"; scene := Some "../other/level.tscn";
     directory := None; recursive := None; scenePath := Some "main.tscn";
     rootNodeType := None; parentNodePath := None; nodeType := None;
     nodeName := None; properties := None; nodePath := None; texturePath := None;
     outputPath := None; meshItemNames := None;
     newPath := Some "../other/level.tscn"; filePath := None |}.

(** The state after a first supervised run has started. *)
Definition running : ServerState := snd (call "run_project" (Some projectArgs) ready).

Definition first : GodotProcess := {| process := 0; output := 0; errors := 1 |}.

End Sample.

(** *** The model computes *)

Example start_of_a_run :
  Sample.call "run_project" (Some Sample.projectArgs) Sample.ready
  = (Fulfilled
       (textResponse
          "Godot project started in debug mode. Use get_debug_output to see output."),
     Sample.running)
  /\ activeProcess Sample.running = Some Sample.first
  /\ arrays Sample.running = [[]; []]
  /\ effects Sample.running = [Spawn 0 "/usr/bin/godot" ["-d"; "--path"; "/games/demo"]].
Proof. repeat split. Qed.

Example unknown_tool :
  Sample.call "open_portal" None Sample.ready
  = (Fulfilled
       (createErrorResponse
          "Tool execution failed: MCP error -32601: Unknown tool: open_portal"
          ["Check the tool parameters and try again"]),
     Sample.ready).
Proof. reflexivity. Qed.

Example missing_arguments :
  Sample.call "create_scene" None Sample.ready
  = (Fulfilled
       (createErrorResponse
          "Tool execution failed: Cannot read properties of undefined (reading 'projectPath')"
          ["Check the tool parameters and try again"]),
     Sample.ready).
Proof. reflexivity. Qed.

Example traversal_in_project_path :
  fst (Sample.call "create_scene"
         (Some {| projectPath := Some "/games/../etc"; scene := None;
                  directory := None; recursive := None;
                  scenePath := Some "main.tscn"; rootNodeType := None;
                  parentNodePath := None; nodeType := None; nodeName := None;
                  properties := None; nodePath := None; texturePath := None;
                  outputPath := None; meshItemNames := None; newPath := None;
                  filePath := None |})
         Sample.ready)
  = Fulfilled
      (createErrorResponse
         "Tool execution failed: Invalid project path - contains potentially unsafe characters"
         ["Check the tool parameters and try again"]).
Proof. reflexivity. Qed.

Example spawn_error_of_an_operation :
  fst (Sample.call "load_sprite"
         (Some {| projectPath := Some "/games/demo"; scene := None;
                  directory := None; recursive := None;
                  scenePath := Some "main.tscn"; rootNodeType := None;
                  parentNodePath := None; nodeType := None; nodeName := None;
                  properties := None; nodePath := Some "root/Hero";
                  texturePath := Some "icon.png";
                  outputPath := None; meshItemNames := None; newPath := None;
                  filePath := None |})
         Sample.ready)
  = Fulfilled
      (createErrorResponse "Failed to load sprite: spawn ENOENT" installHints).
Proof. reflexivity. Qed.

Example version_4_4 :
  Version.isGodot44OrLater "4.4.1.stable.official" = true
  /\ Version.isGodot44OrLater "4.3.stable" = false
  /\ Version.isGodot44OrLater "5.0" = true
  /\ Version.isGodot44OrLater "4.10" = true
  /\ Version.isGodot44OrLater "v4.4" = false
  /\ Version.isGodot44OrLater "4" = false.
Proof. repeat split. Qed.

Example split_examples :
  Js.split Js.LF "" = [""]
  /\ Js.split Js.LF ("ready" +:+ String Js.LF "") = ["ready"; ""]
  /\ Js.split Js.LF ("a" +:+ String Js.LF "b") = ["a"; "b"]
  /\ Js.split Js.LF (String Js.LF (String Js.LF "")) = [""; ""; ""].
Proof. repeat split. Qed.

Example validatePath_examples :
  PathValidator.validatePath "scenes/main.tscn" = true
  /\ PathValidator.validatePath "/abs/path" = true
  /\ PathValidator.validatePath "" = false
  /\ PathValidator.validatePath "../etc/passwd" = false
  /\ PathValidator.validatePath "a..b" = false
  /\ PathValidator.validatePath "." = true.
Proof. repeat split. Qed.

(** ** The statements at the concrete world *)

Lemma wfState_running : wfState Sample.running.
Proof.
  intros p H. vm_compute in H. injection H as <-.
  unfold wfProcess. vm_compute. repeat split; lia.
Defined.

(** C3 at the server as constructed: [create_scene] answers with the
    configuration error and nothing is spawned. *)
Lemma unresolved_executable_witness :
  godotPath (operationExecutor Sample.constructed) = None
  /\ Sample.call "create_scene" (Some Sample.sceneArgs) Sample.constructed
     = (Fulfilled (configurationError "Failed to create scene: "), Sample.constructed).
Proof.
  split; [reflexivity|].
  destruct (unresolved_executable_is_a_configuration_error Z
              Sample.existsSync Sample.path_join Sample.detectedGodotPath
              Sample.execOutcome Sample.childProcess Sample.String_trim
              Sample.JSON_stringify Sample.JSON_stringify
              Sample.convertCamelToSnakeCase Sample.McpError_message
              Sample.TypeError_message Sample.findGodotProjects
              Sample.getProjectStructure Sample.projectNameOf
              Sample.constructed eq_refl) as (_ & _ & H & _).
  apply (H Sample.sceneArgs "/games/demo" "main.tscn"); reflexivity.
Defined.

(** C4 at [create_scene]: the one child and its eight arguments. *)
Lemma argument_vector_witness :
  required (godotPath (operationExecutor Sample.ready)) = Some "/usr/bin/godot"
  /\ effects
       (snd (Sample.execute "create_scene"
               (JObj [("scenePath", JStr "main.tscn"); ("rootNodeType", JStr "Node2D")])
               "/games/demo" Sample.ready))
     = [ Spawn 0 "/usr/bin/godot"
           [ "--headless"; "--path"; "/games/demo";
             "--script"; "/opt/godot-mcp/scripts/godot_operations.gd";
             "create_scene";
             Sample.JSON_stringify
               (JObj [("scenePath", JStr "main.tscn"); ("rootNodeType", JStr "Node2D")]);
             "--debug-godot" ] ].
Proof.
  split; [reflexivity|].
  destruct (executeOperation_argument_vector Z Sample.childProcess
              Sample.JSON_stringify Sample.convertCamelToSnakeCase
              "create_scene"
              (JObj [("scenePath", JStr "main.tscn"); ("rootNodeType", JStr "Node2D")])
              "/games/demo" Sample.ready "/usr/bin/godot" eq_refl) as [H _].
  exact H.
Defined.

(** C9 at [save_scene], whose child is ended by a signal: exit code 0. *)
Lemma close_code_witness :
  required (godotPath (operationExecutor Sample.ready)) = Some "/usr/bin/godot"
  /\ Sample.childProcess "/usr/bin/godot"
       (expectedArgs Z Sample.JSON_stringify Sample.convertCamelToSnakeCase
          (operationExecutor Sample.ready) "save_scene"
          (JObj [("scenePath", JStr "main.tscn")]) "/games/demo")
     = ChildRuns ["saved"] [] None
  /\ exists res s',
       Sample.execute "save_scene" (JObj [("scenePath", JStr "main.tscn")])
         "/games/demo" Sample.ready
       = (Fulfilled res, s')
       /\ exitCode res = 0%Z
       /\ stdout res = "saved"
       /\ stderr res = "".
Proof.
  split; [reflexivity|]. split; [reflexivity|].
  exact (close_code_becomes_exit_code Z Sample.childProcess
           Sample.JSON_stringify Sample.convertCamelToSnakeCase
           "save_scene" (JObj [("scenePath", JStr "main.tscn")])
           "/games/demo" Sample.ready "/usr/bin/godot" ["saved"] [] None
           eq_refl eq_refl).
Defined.

(** C5 at a second run while the first process is registered. *)
Lemma run_while_active_witness :
  activeProcess Sample.running = Some Sample.first
  /\ wfState Sample.running
  /\ exists new s1 s2,
       handleRunProject_start Z Sample.existsSync Sample.path_join
         Sample.detectedGodotPath Sample.childProcess Sample.TypeError_message
         (Some Sample.projectArgs) Sample.running
       = (Fulfilled (RunWaiting new (ChildRuns [] [] None)), s1)
       /\ effects s1
          = effects Sample.running
            ++ [ Kill 0; Spawn (process new) "/usr/bin/godot"
                           ["-d"; "--path"; "/games/demo"] ]
       /\ held s1 = [Sample.first]
       /\ process new <> 0
       /\ held s2 = [new]
       /\ snd (Sample.call "run_project" (Some Sample.projectArgs) Sample.running) = s2.
Proof.
  split; [reflexivity|]. split; [exact wfState_running|].
  destruct (run_while_active_replaces_the_process Z Sample.existsSync
              Sample.path_join Sample.detectedGodotPath Sample.childProcess
              Sample.TypeError_message Sample.running Sample.projectArgs
              Sample.first "/games/demo" "/usr/bin/godot" [] [] None
              eq_refl wfState_running eq_refl eq_refl eq_refl eq_refl eq_refl)
    as (new & s1 & s2 & H1 & H2 & H3 & H4 & H5 & H6 & H7 & _).
  exists new, s1, s2. repeat split; try assumption.
  unfold Sample.call. rewrite callTool_unfold.
  change (route Z Sample.existsSync Sample.path_join Sample.detectedGodotPath
            Sample.execOutcome Sample.childProcess Sample.String_trim
            Sample.JSON_stringify Sample.JSON_stringify
            Sample.convertCamelToSnakeCase Sample.McpError_message
            Sample.TypeError_message Sample.findGodotProjects
            Sample.getProjectStructure Sample.projectNameOf "run_project"
            (Some Sample.projectArgs) Sample.running)
    with (handleRunProject Z Sample.existsSync Sample.path_join
            Sample.detectedGodotPath Sample.childProcess
            Sample.TypeError_message (Some Sample.projectArgs) Sample.running).
  rewrite H6. reflexivity.
Defined.

(** C6 at a run of three chunks, one line of which arrives in two
    pieces. *)
Lemma stop_witness :
  activeProcess Sample.running = Some Sample.first
  /\ wfState Sample.running
  /\ exists s2,
       Sample.stop
         (deliver Sample.first
            [ (Stdout, "hello" +:+ String Js.LF "wor");
              (Stderr, "oops" +:+ String Js.LF "");
              (Stdout, "ld" +:+ String Js.LF "") ]
            Sample.running)
       = (Fulfilled
            (textResponse
               (Sample.JSON_stringify
                  (JObj [ ("message", JStr "Godot project stopped");
                          ("finalOutput",
                           JArr [JStr "hello"; JStr "wor"; JStr "ld"; JStr ""]);
                          ("finalErrors", JArr [JStr "oops"; JStr ""]) ]))),
          s2)
       /\ activeProcess s2 = None
       /\ fst (Sample.debugOutput s2)
          = Fulfilled
              (createErrorResponse "No active Godot process."
                 [ "Use run_project to start a Godot project first";
                   "Check if the Godot process crashed unexpectedly" ]).
Proof.
  split; [reflexivity|]. split; [exact wfState_running|].
  destruct (stop_returns_accumulated_lines_and_clears_slot Z
              Sample.JSON_stringify Sample.running Sample.first
              [ (Stdout, "hello" +:+ String Js.LF "wor");
                (Stderr, "oops" +:+ String Js.LF "");
                (Stdout, "ld" +:+ String Js.LF "") ]
              eq_refl wfState_running) as (s2 & H1 & H2 & _ & _ & H5).
  exists s2. split; [exact H1|]. split; [exact H2|].
  unfold Sample.debugOutput. now rewrite H5.
Defined.

(** C10 at a chunk of one line and a half. *)
Lemma data_chunk_witness :
  activeProcess Sample.running = Some Sample.first
  /\ wfState Sample.running
  /\ readArray 0
       (onStdoutData Sample.first ("ready" +:+ String Js.LF "load") Sample.running)
     = ["ready"; "load"]
  /\ readArray 1
       (onStdoutData Sample.first ("ready" +:+ String Js.LF "load") Sample.running)
     = [].
Proof.
  split; [reflexivity|]. split; [exact wfState_running|].
  destruct (data_chunks_are_split_into_lines Z Sample.JSON_stringify
              Sample.running Sample.first ("ready" +:+ String Js.LF "load")
              eq_refl wfState_running) as (H1 & H2 & _).
  split; [exact H1 | exact H2].
Defined.

(** C8 at a scene outside the project: the run starts without it. *)
Lemma unsafe_scene_witness :
  required (scene Z Sample.unsafeArgs) = Some "../other/level.tscn"
  /\ PathValidator.validatePath "../other/level.tscn" = false
  /\ (exists s',
        Sample.call "run_project" (Some Sample.unsafeArgs) Sample.ready
        = (Fulfilled
             (textResponse
                "Godot project started in debug mode. Use get_debug_output to see output."),
           s')
        /\ effects s'
           = [Spawn 0 "/usr/bin/godot" ["-d"; "--path"; "/games/demo"]])
  /\ exists hints,
       Sample.call "save_scene" (Some Sample.unsafeArgs) Sample.ready
       = (Fulfilled (createErrorResponse "Invalid new path" hints), Sample.ready).
Proof.
  split; [reflexivity|]. split; [reflexivity|].
  destruct (unsafe_scene_is_silently_dropped Z Sample.existsSync
              Sample.path_join Sample.detectedGodotPath Sample.execOutcome
              Sample.childProcess Sample.String_trim Sample.JSON_stringify
              Sample.JSON_stringify Sample.convertCamelToSnakeCase
              Sample.McpError_message Sample.TypeError_message
              Sample.findGodotProjects Sample.getProjectStructure
              Sample.projectNameOf Sample.ready Sample.unsafeArgs
              "/games/demo" "/usr/bin/godot" "../other/level.tscn" [] [] None
              eq_refl eq_refl eq_refl eq_refl eq_refl eq_refl eq_refl eq_refl)
    as [H1 H2].
  split; [exact H1|].
  exact (H2 "main.tscn" eq_refl eq_refl eq_refl).
Defined.

(** C2 at the executable that writes to its standard error and exits
    with 0: [create_scene] answers with an error response. *)
Lemma noisy_executable_witness :
  (forall command argv outs errs code,
     Sample.noisyChild command argv = ChildRuns outs errs code ->
     String.concat "" errs <> "")
  /\ exists resp s',
       Sample.noisyCall "create_scene" (Some Sample.sceneArgs) Sample.ready
       = (Fulfilled resp, s')
       /\ flagged resp = true.
Proof.
  assert (Hnoisy : forall command argv outs errs code,
             Sample.noisyChild command argv = ChildRuns outs errs code ->
             String.concat "" errs <> "").
  { intros command argv outs errs code H. injection H as _ <- _. discriminate. }
  split; [exact Hnoisy|].
  destruct (stderr_or_nonzero_exit_is_a_failure Z Sample.existsSync
              Sample.path_join Sample.detectedGodotPath Sample.execOutcome
              Sample.noisyChild Sample.String_trim Sample.JSON_stringify
              Sample.JSON_stringify Sample.convertCamelToSnakeCase
              Sample.McpError_message Sample.TypeError_message
              Sample.findGodotProjects Sample.getProjectStructure
              Sample.projectNameOf) as (_ & _ & _ & H & _).
  exact (H Hnoisy "create_scene" (Some Sample.sceneArgs) Sample.ready eq_refl).
Defined.

(** ** [WindowsCompat] (the second class of src/handlers/editor-handler.ts) *)

Module WindowsCompat.

Definition SPACE : ascii := ascii_of_nat 32.

(** [escapeWindowsPath(path)]: a path that includes a space and does
    not start with a double quote is returned between double quotes,
    any other path as it is. *)
Definition escapeWindowsPath (path : string) : string :=
  if Js.includes " " path && negb (String.prefix Js.quote path)
  then Js.quote +:+ path +:+ Js.quote
  else path.

(** [buildCommand(executable, args)]; [isWindows] is
    [process.platform === 'win32'].  [null] tells the caller to use
    [spawn]. *)
Definition buildCommand (isWindows : bool) (executable : string) (args : list string)
  : option string :=
  if isWindows then None
  else Some (Js.join SPACE (executable :: args)).

(** The number of spaces in a list of words. *)
Definition spaces (words : list string) : nat :=
  list_sum (List.map (Js.count SPACE) words).

End WindowsCompat.

(** *** Splitting what was joined *)

Lemma append_associative (a b c : string) : (a +:+ b) +:+ c = a +:+ (b +:+ c).
Proof.
  induction a as [|x a IH]; [reflexivity|].
  rewrite !append_cons. now rewrite IH.
Qed.

Lemma split_app_sep sep (p rest : string) :
  Js.count sep p = 0 ->
  Js.split sep (p +:+ String sep rest) = p :: Js.split sep rest.
Proof.
  induction p as [|c p IH]; intros H.
  - rewrite append_nil_l. simpl. now rewrite Ascii.eqb_refl.
  - simpl in H. rewrite append_cons. cbn [Js.split].
    destruct (Ascii.eqb c sep); [discriminate H|].
    rewrite IH by exact H. reflexivity.
Qed.

Lemma split_join sep (words : list string) :
  words <> [] ->
  Forall (fun w => Js.count sep w = 0) words ->
  Js.split sep (Js.join sep words) = words.
Proof.
  induction words as [|w [|v words] IH]; intros Hne Hall.
  - congruence.
  - simpl. apply split_one. now inversion Hall.
  - rewrite join_cons. inversion Hall as [|? ? Hw Hrest]; subst.
    rewrite split_app_sep by exact Hw.
    rewrite IH; [reflexivity | discriminate | exact Hrest].
Qed.

Lemma count_join sep (w : string) (words : list string) :
  Js.count sep (Js.join sep (w :: words))
  = List.length words + list_sum (List.map (Js.count sep) (w :: words)).
Proof.
  revert w. induction words as [|v words IH]; intros w.
  - simpl. lia.
  - rewrite join_cons, count_app. cbn [Js.count]. rewrite Ascii.eqb_refl.
    rewrite IH. simpl. lia.
Qed.

(** X12.  [escapeWindowsPath] is idempotent: a path without a space is
    returned as it is, a path with a space comes back starting with a
    double quote, and escaping what was escaped changes nothing. *)
Theorem escapeWindowsPath_is_idempotent (path : string) :
  WindowsCompat.escapeWindowsPath (WindowsCompat.escapeWindowsPath path)
  = WindowsCompat.escapeWindowsPath path
  /\ (Js.includes " " path = false -> WindowsCompat.escapeWindowsPath path = path)
  /\ (Js.includes " " path = true ->
      String.prefix Js.quote (WindowsCompat.escapeWindowsPath path) = true
      /\ Js.includes " " (WindowsCompat.escapeWindowsPath path) = true).
Proof.
  unfold WindowsCompat.escapeWindowsPath.
  assert (Hq : forall p, String.prefix Js.quote (Js.quote +:+ p +:+ Js.quote) = true).
  { intros p. apply prefix_app. eauto. }
  split; [|split].
  - destruct (Js.includes " " path) eqn:Hi;
      destruct (String.prefix Js.quote path) eqn:Hp; cbn [andb negb];
      rewrite ?Hi, ?Hp, ?Hq, ?andb_false_r; reflexivity.
  - intros ->. reflexivity.
  - intros Hi. rewrite Hi.
    destruct (String.prefix Js.quote path) eqn:Hp; cbn [andb negb]; [now split|].
    split; [apply Hq|].
    apply includes_spec in Hi as (pre & post & ->).
    apply includes_spec. exists (Js.quote +:+ pre), (post +:+ Js.quote).
    now rewrite !append_associative.
Qed.

(** X13.  [buildCommand] gives no command line on Windows; elsewhere it
    joins the executable and the arguments with single spaces, quoting
    nothing: cutting the command line at its spaces gives the
    executable and the arguments back exactly when none of them holds a
    space, and in general as many pieces more as there are spaces in
    them. *)
Theorem buildCommand_keeps_words_without_spaces
  (executable : string) (args : list string) :
  WindowsCompat.buildCommand true executable args = None
  /\ exists command,
       WindowsCompat.buildCommand false executable args = Some command
       /\ List.length (Js.split WindowsCompat.SPACE command)
          = S (List.length args) + WindowsCompat.spaces (executable :: args)
       /\ (WindowsCompat.spaces (executable :: args) = 0 <->
           Js.split WindowsCompat.SPACE command = executable :: args).
Proof.
  split; [reflexivity|]. eexists. split; [reflexivity|].
  assert (L : List.length (Js.split WindowsCompat.SPACE
                             (Js.join WindowsCompat.SPACE (executable :: args)))
              = S (List.length args) + WindowsCompat.spaces (executable :: args)).
  { rewrite split_length, count_join. unfold WindowsCompat.spaces. lia. }
  split; [exact L|]. split.
  - intros H0. apply split_join; [discriminate|].
    unfold WindowsCompat.spaces in H0. clear L.
    revert H0. generalize (executable :: args) as words.
    induction words as [|w words IH]; intros H; constructor; simpl in H;
      [lia | apply IH; lia].
  - intros E. rewrite E in L. simpl in L. lia.
Qed.

(** ** The version test of the UID handler, read as a number pair *)

(** What the pattern [^(\d+)\.(\d+)] sees of a version string: runs of
    decimal digits and the number they write. *)
Definition isDigit (c : ascii) : bool :=
  match Version.digit c with Some _ => true | None => false end.

Fixpoint allDigits (s : string) : bool :=
  match s with
  | EmptyString => true
  | String c rest => isDigit c && allDigits rest
  end.

Definition startsWithDigit (s : string) : bool :=
  match s with
  | EmptyString => false
  | String c _ => isDigit c
  end.

(** [parseInt(ds, 10)] of a run of digits, continuing from [acc]. *)
Fixpoint valueOf (acc : N) (ds : string) : N :=
  match ds with
  | EmptyString => acc
  | String c rest =>
      match Version.digit c with
      | Some d => valueOf (10 * acc + d)%N rest
      | None => acc
      end
  end.

Lemma digits_app (ds rest : string) : forall acc seen,
  allDigits ds = true ->
  startsWithDigit rest = false ->
  (seen = true \/ ds <> EmptyString) ->
  Version.digits acc seen (ds +:+ rest) = Some (valueOf acc ds, rest).
Proof.
  induction ds as [|c ds IH]; intros acc seen Hall Hrest Hseen.
  - rewrite append_nil_l. destruct Hseen as [-> | Hne]; [|congruence].
    destruct rest as [|r rest]; [reflexivity|].
    simpl in *. unfold isDigit in Hrest.
    now destruct (Version.digit r).
  - rewrite append_cons. simpl in *. unfold isDigit in Hall.
    destruct (Version.digit c) as [d|]; [|discriminate Hall].
    apply IH; [exact Hall | exact Hrest | now left].
Qed.

Lemma digits_inv (s : string) : forall acc seen n rest,
  Version.digits acc seen s = Some (n, rest) ->
  exists ds,
    s = ds +:+ rest /\ allDigits ds = true /\ startsWithDigit rest = false
    /\ n = valueOf acc ds /\ (seen = false -> ds <> EmptyString).
Proof.
  induction s as [|c s IH]; intros acc seen n rest H; simpl in H.
  - destruct seen; [|discriminate H]. injection H as <- <-.
    exists EmptyString. repeat split; congruence.
  - destruct (Version.digit c) as [d|] eqn:Hc.
    + apply IH in H as (ds & -> & Hall & Hrest & -> & _).
      exists (String c ds). rewrite append_cons. simpl. unfold isDigit.
      rewrite Hc. repeat split; try assumption. congruence.
    + destruct seen; [|discriminate H]. injection H as <- <-.
      exists EmptyString. simpl. unfold isDigit. rewrite Hc.
      repeat split; congruence.
Qed.

(** X14.  [isGodot44OrLater] accepts exactly the strings that start
    with a run of digits, a dot and a second run of digits (taken as
    long as it goes), where the first number is above 4, or is 4 with
    the second at least 4.  Leading zeros do not matter; anything
    before the first digit, a sign or a letter, makes the answer
    false. *)
Theorem isGodot44OrLater_reads_major_and_minor (version : string) :
  Version.isGodot44OrLater version = true <->
  exists major minor rest,
    version = major +:+ "." +:+ minor +:+ rest
    /\ major <> EmptyString /\ allDigits major = true
    /\ minor <> EmptyString /\ allDigits minor = true
    /\ startsWithDigit rest = false
    /\ (4 < valueOf 0 major
        \/ (valueOf 0 major = 4 /\ 4 <= valueOf 0 minor))%N.
Proof.
  unfold Version.isGodot44OrLater. split.
  - destruct (Version.digits 0 false version) as [[major after]|] eqn:Hmajor;
      [|discriminate].
    destruct after as [|dot after]; [discriminate|].
    destruct (Ascii.eqb_spec dot ".") as [-> | Hdot].
    2:{ intros H. exfalso. revert H.
        destruct dot as [[] [] [] [] [] [] [] []]; try discriminate.
        now contradiction Hdot. }
    destruct (Version.digits 0 false after) as [[minor rest]|] eqn:Hminor.
    2:{ intros H. discriminate H. }
    intros H.
    apply digits_inv in Hmajor as (ma & -> & Hma & _ & -> & Hne1).
    apply digits_inv in Hminor as (mi & -> & Hmi & Hrest & -> & Hne2).
    exists ma, mi, rest. repeat split; auto.
    apply orb_true_iff in H as [H | H]; [left; now apply N.ltb_lt|].
    apply andb_true_iff in H as [H1 H2]. right.
    split; [now apply N.eqb_eq | now apply N.leb_le].
  - intros (ma & mi & rest & -> & Hne1 & Hma & Hne2 & Hmi & Hrest & Hcmp).
    rewrite (digits_app ma ("." +:+ mi +:+ rest) 0 false Hma eq_refl (or_intror Hne1)).
    change ("." +:+ mi +:+ rest) with (String "." (mi +:+ rest)).
    cbv iota beta.
    rewrite (digits_app mi rest 0 false Hmi Hrest (or_intror Hne2)).
    apply orb_true_iff.
    destruct Hcmp as [H | [H1 H2]]; [left; now apply N.ltb_lt|].
    right. apply andb_true_iff.
    split; [now apply N.eqb_eq | now apply N.leb_le].
Qed.

(** ** src/handlers/info-handler.ts: the two scans of the file system *)

#[local] Set Warnings "-register-all".

Module InfoHandler.

(** What the scans see of the file system under a path: a regular
    file, a directory, or something else (a link, a socket).  Of a
    directory they ask whether [project.godot] exists in it
    ([existsSync(join(dir, 'project.godot'))]) and what it lists
    ([readdirSync(dir, { withFileTypes: true })], which throws on a
    directory that cannot be read: [None]). *)
Inductive Node :=
| File
| Other
| Dir (project : bool) (listing : option (list (string * Node))).

(** An element of the array [findGodotProjects] returns. *)
Record Project := {
  path : string;
  name : string
}.

(** [entry.name.startsWith('.')]. *)
Definition hidden (entryName : string) : bool := String.prefix "." entryName.

(** A [try] block that runs [f] on each element in turn, threading the
    state; [None] when one of the calls throws. *)
Definition forEach {A S : Type} (f : A -> S -> option S) : list A -> S -> option S :=
  fix each (l : list A) (s : S) : option S :=
    match l with
    | [] => Some s
    | a :: rest =>
        match f a s with
        | Some s' => each rest s'
        | None => None
        end
    end.

(** [{ scenes, scripts, assets, other }], with the [error] property of
    the object resolved after a failure. *)
Record Structure := {
  error : option string;
  scenes : nat;
  scripts : nat;
  assets : nat;
  other : nat
}.

Inductive Kind := Scene | Script | Asset | Unknown.

(** [String.prototype.toLowerCase] on the ASCII letters.  The result is
    only compared with lower-case ASCII words that have no k in them,
    and no character outside ASCII has one of their letters as its
    lower case (the Kelvin sign gives k), so for these comparisons
    nothing else is needed. *)
Definition lower (c : ascii) : ascii :=
  let n := N_of_ascii c in
  if (65 <=? n)%N && (n <=? 90)%N then ascii_of_N (n + 32) else c.

Fixpoint toLowerCase (s : string) : string :=
  match s with
  | EmptyString => EmptyString
  | String c rest => String (lower c) (toLowerCase rest)
  end.

(** [entry.name.split('.').pop()?.toLowerCase()]; [split] never gives
    an empty array. *)
Definition extension (entryName : string) : string :=
  toLowerCase (List.last (Js.split "." entryName) EmptyString).

Definition isAsset (ext : string) : bool :=
  existsb (String.eqb ext)
    ["png"; "jpg"; "jpeg"; "webp"; "svg"; "ttf"; "wav"; "mp3"; "ogg"].

Definition classify (entryName : string) : Kind :=
  let ext := extension entryName in
  if String.eqb ext "tscn" then Scene
  else if String.eqb ext "gd" || String.eqb ext "gdscript" || String.eqb ext "cs"
       then Script
  else if isAsset ext then Asset
  else Unknown.

(** [structure.scenes++] and the like. *)
Definition tally (k : Kind) (s : Structure) : Structure :=
  match k with
  | Scene => {| error := error s; scenes := S (scenes s); scripts := scripts s;
                assets := assets s; other := other s |}
  | Script => {| error := error s; scenes := scenes s; scripts := S (scripts s);
                 assets := assets s; other := other s |}
  | Asset => {| error := error s; scenes := scenes s; scripts := scripts s;
                assets := S (assets s); other := other s |}
  | Unknown => {| error := error s; scenes := scenes s; scripts := scripts s;
                  assets := assets s; other := S (other s) |}
  end.

Definition noFiles (e : option string) : Structure :=
  {| error := e; scenes := 0; scripts := 0; assets := 0; other := 0 |}.

Section Paths.

(** [path.join] and [path.basename]. *)
Variable join : string -> string -> string.
Variable basename : string -> string.

(** [findGodotProjects(directory, recursive)], where [node] is what is
    at [directory].  The whole body is in a [try] whose [catch] does
    nothing, so a directory that cannot be listed ends the search with
    what was pushed before; under a path that is no directory nothing
    exists and the listing throws. *)
Fixpoint findGodotProjects (directory : string) (node : Node) (recursive : bool)
  {struct node} : list Project :=
  match node with
  | Dir project listing =>
      (if project
       then [ {| path := directory; name := basename directory |} ]
       else [])
      ++
      match listing with
      | None => []
      | Some entries =>
          if negb recursive then
            flat_map
              (fun entry =>
                 match entry with
                 | (entryName, Dir true _) =>
                     [ {| path := join directory entryName; name := entryName |} ]
                 | _ => []
                 end)
              entries
          else
            flat_map
              (fun entry =>
                 match entry with
                 | (entryName, child) =>
                     match child with
                     | Dir subproject _ =>
                         let subdir := join directory entryName in
                         if hidden entryName then []
                         else if subproject
                              then [ {| path := subdir; name := entryName |} ]
                              else findGodotProjects subdir child true
                     | _ => []
                     end
                 end)
              entries
      end
  | _ => []
  end.

End Paths.

(** [scanDirectory(currentPath)] of [getProjectStructureAsync], where
    [node] is what is at [currentPath]; [None] when it throws. *)
Fixpoint scanDirectory (node : Node) (structure : Structure) {struct node}
  : option Structure :=
  match node with
  | Dir _ (Some entries) =>
      forEach
        (fun entry structure =>
           match entry with
           | (entryName, child) =>
               if hidden entryName then Some structure
               else match child with
                    | Dir _ _ => scanDirectory child structure
                    | File => Some (tally (classify entryName) structure)
                    | Other => Some structure
                    end
           end)
        entries structure
  | _ => None
  end.

(** [getProjectStructureAsync(projectPath)]: the promise is always
    resolved, after a failure with an object of its own. *)
Definition getProjectStructure (node : Node) : Structure :=
  match scanDirectory node (noFiles None) with
  | Some structure => structure
  | None => noFiles (Some "Failed to get project structure")
  end.

End InfoHandler.

(** *** Induction on what is under a directory *)

Section NodeInduction.

Import InfoHandler.

Variable P : Node -> Prop.
Hypothesis P_File : P File.
Hypothesis P_Other : P Other.
Hypothesis P_unreadable : forall project, P (Dir project None).
Hypothesis P_Dir : forall project entries,
  Forall (fun entry => P (snd entry)) entries -> P (Dir project (Some entries)).

Lemma Node_induction : forall node, P node.
Proof.
  fix IH 1. intros [| |project [entries|]];
    [exact P_File | exact P_Other | | apply P_unreadable].
  apply P_Dir. revert entries. fix IHentries 1.
  intros [|[entryName child] rest]; constructor; [apply IH | apply IHentries].
Qed.

End NodeInduction.

(** *** What the recursive search reaches *)

Section Search.

Import InfoHandler.

Variable join : string -> string -> string.
Variable basename : string -> string.

(** The project directories the recursive search reaches from the
    entries of a directory, by the names on the way: every directory on
    the way has a name that is not hidden, and all but the last are
    readable and are no projects. *)
Inductive visits : list (string * Node) -> list string -> Prop :=
| visits_project entries entryName listing :
    In (entryName, Dir true listing) entries ->
    hidden entryName = false ->
    visits entries [entryName]
| visits_descend entries entryName below names :
    In (entryName, Dir false (Some below)) entries ->
    hidden entryName = false ->
    visits below names ->
    visits entries (entryName :: names).

(** The element pushed for the directory [names] lead to from
    [directory]. *)
Definition found (directory : string) (names : list string) : Project :=
  {| path := fold_left join names directory;
     name := List.last names (basename directory) |}.

Lemma visits_nonempty entries names : visits entries names -> names <> [].
Proof. destruct 1; discriminate. Qed.

Lemma found_cons directory entryName names :
  names <> [] ->
  found directory (entryName :: names) = found (join directory entryName) names.
Proof.
  intros Hne. unfold found. cbn [fold_left]. f_equal.
  destruct names as [|n names]; [congruence|].
  clear Hne. cbn [List.last]. revert n.
  induction names as [|m names IH]; intros n; [reflexivity|].
  cbn [List.last] in *. apply IH.
Qed.

Lemma visited_is_listed entries names :
  visits entries names ->
  forall directory project,
    In (found directory names)
       (findGodotProjects join basename directory (Dir project (Some entries)) true).
Proof.
  induction 1 as [entries entryName listing Hin Hvisible
                 |entries entryName below names Hin Hvisible Hbelow IH];
    intros directory project; cbn [findGodotProjects negb];
    apply in_or_app; right; apply in_flat_map;
    eexists; (split; [exact Hin|]); cbv beta iota; rewrite Hvisible.
  - now left.
  - rewrite found_cons by (eapply visits_nonempty; eassumption).
    apply (IH (join directory entryName) false).
Qed.

Lemma listed_is_visited (node : Node) :
  forall directory proj,
    In proj (findGodotProjects join basename directory node true) ->
    (exists listing, node = Dir true listing /\ proj = found directory [])
    \/ (exists project entries names,
          node = Dir project (Some entries)
          /\ visits entries names /\ proj = found directory names).
Proof.
  induction node as [| |project|project entries IH] using Node_induction;
    intros directory proj Hin; cbn [findGodotProjects negb] in Hin;
    try contradiction.
  - rewrite app_nil_r in Hin. destruct project; [|contradiction].
    destruct Hin as [<- | []]. left. eauto.
  - apply in_app_or in Hin as [Hin | Hin].
    { destruct project; [|contradiction]. destruct Hin as [<- | []].
      left. eauto. }
    right. exists project, entries.
    apply in_flat_map in Hin as ([entryName child] & Hentry & Hin).
    rewrite List.Forall_forall in IH. specialize (IH _ Hentry). cbn [snd] in IH.
    destruct child as [| |subproject sublisting]; try contradiction.
    destruct (hidden entryName) eqn:Hvisible; [contradiction|].
    destruct subproject.
    + destruct Hin as [<- | []]. exists [entryName].
      split; [reflexivity|]. split; [|reflexivity].
      eapply visits_project; eassumption.
    + apply IH in Hin as [(l & [=] & _) | (p & below & names & [= <- ->] & Hv & ->)].
      exists (entryName :: names). split; [reflexivity|]. split.
      * eapply visits_descend; eassumption.
      * symmetry. apply found_cons. eapply visits_nonempty; eassumption.
Qed.

End Search.

Lemma visited_name_is_visible entries names :
  visits entries names ->
  forall default, InfoHandler.hidden (List.last names default) = false.
Proof.
  induction 1 as [entries entryName listing Hin Hvisible
                 |entries entryName below names Hin Hvisible Hbelow IH];
    intros default; [exact Hvisible|].
  destruct names as [|n names]; [now apply visits_nonempty in Hbelow|].
  apply (IH default).
Qed.

(** X15.  With [recursive] set, [findGodotProjects] lists exactly the
    directory itself when [project.godot] exists in it, and the project
    directories reached from it through directories that can be read,
    are not hidden and are no projects themselves: each with the path
    joined from the names on the way and with its own name.  So a
    project nested in a project directory below the start is never
    listed, and from a directory that cannot be read nothing below is. *)
Theorem recursive_search_lists_what_it_reaches
  (join : string -> string -> string) (basename : string -> string)
  (directory : string) (project : bool)
  (listing : option (list (string * InfoHandler.Node))) (proj : InfoHandler.Project) :
  In proj (InfoHandler.findGodotProjects join basename directory
             (InfoHandler.Dir project listing) true)
  <-> (project = true /\ proj = found join basename directory [])
      \/ (exists entries names,
            listing = Some entries
            /\ visits entries names
            /\ proj = found join basename directory names).
Proof.
  split.
  - intros Hin.
    apply listed_is_visited in Hin
      as [(l & [= -> <-] & ->) | (p & entries & names & [= <- ->] & Hv & ->)].
    + now left.
    + right. eauto.
  - intros [[-> ->] | (entries & names & -> & Hv & ->)].
    + cbn [InfoHandler.findGodotProjects]. apply in_or_app. left. now left.
    + now apply visited_is_listed.
Qed.

(** X16.  The two modes of [findGodotProjects] treat hidden directories
    differently.  Without [recursive], every subdirectory in which
    [project.godot] exists is listed, hidden or not.  With [recursive],
    nothing but the start directory is listed under a hidden name.  So
    what the plain search lists is listed by the recursive one too,
    except the projects in hidden subdirectories. *)
Theorem hidden_projects_are_listed_only_without_recursion
  (join : string -> string -> string) (basename : string -> string)
  (directory : string) (node : InfoHandler.Node) :
  (forall proj,
     In proj (InfoHandler.findGodotProjects join basename directory node false) ->
     In proj (InfoHandler.findGodotProjects join basename directory node true)
     \/ InfoHandler.hidden (InfoHandler.name proj) = true)
  /\ (forall proj,
        In proj (InfoHandler.findGodotProjects join basename directory node true) ->
        proj = found join basename directory []
        \/ InfoHandler.hidden (InfoHandler.name proj) = false)
  /\ (forall project entries entryName listing,
        node = InfoHandler.Dir project (Some entries) ->
        In (entryName, InfoHandler.Dir true listing) entries ->
        In {| InfoHandler.path := join directory entryName;
              InfoHandler.name := entryName |}
           (InfoHandler.findGodotProjects join basename directory node false)).
Proof.
  split; [|split].
  - intros proj Hin.
    destruct node as [| |project [entries|]];
      cbn [InfoHandler.findGodotProjects negb] in *; try contradiction.
    2:{ now left. }
    apply in_app_or in Hin as [Hin | Hin].
    { left. apply in_or_app. now left. }
    apply in_flat_map in Hin as ([entryName child] & Hentry & Hin).
    destruct child as [| |[] sublisting]; try contradiction.
    destruct Hin as [<- | []]. cbn [InfoHandler.name].
    destruct (InfoHandler.hidden entryName) eqn:Hvisible; [now right|].
    left. apply in_or_app. right. apply in_flat_map.
    eexists. split; [exact Hentry|]. cbv beta iota. rewrite Hvisible. now left.
  - intros proj Hin.
    apply listed_is_visited in Hin
      as [(l & _ & ->) | (p & entries & names & _ & Hv & ->)]; [now left|].
    right. cbn [found InfoHandler.name]. now apply (visited_name_is_visible entries).
  - intros project entries entryName listing -> Hentry.
    cbn [InfoHandler.findGodotProjects negb].
    apply in_or_app. right. apply in_flat_map.
    eexists. split; [exact Hentry|]. now left.
Qed.

(** *** What the count of the project structure sees *)

Section Census.

Import InfoHandler.

Definition sameKind (a b : Kind) : bool :=
  match a, b with
  | Scene, Scene | Script, Script | Asset, Asset | Unknown, Unknown => true
  | _, _ => false
  end.

(** The regular files of kind [k] under a directory that no hidden
    name leads to. *)
Fixpoint files (k : Kind) (node : Node) {struct node} : nat :=
  match node with
  | Dir _ (Some entries) =>
      list_sum
        (List.map
           (fun entry =>
              match entry with
              | (entryName, child) =>
                  if hidden entryName then 0
                  else match child with
                       | Dir _ _ => files k child
                       | File => if sameKind (classify entryName) k then 1 else 0
                       | Other => 0
                       end
              end)
           entries)
  | _ => 0
  end.

(** A directory that can be read, and so can all directories under it
    that no hidden name leads to. *)
Fixpoint readable (node : Node) {struct node} : bool :=
  match node with
  | Dir _ (Some entries) =>
      forallb
        (fun entry =>
           match entry with
           | (entryName, child) =>
               hidden entryName
               || match child with
                  | Dir _ _ => readable child
                  | _ => true
                  end
           end)
        entries
  | _ => false
  end.

(** The counters moved on by the files under [node]. *)
Definition census (node : Node) (s : Structure) : Structure :=
  {| error := error s;
     scenes := scenes s + files Scene node;
     scripts := scripts s + files Script node;
     assets := assets s + files Asset node;
     other := other s + files Unknown node |}.

Lemma Structure_eq (a b : Structure) :
  error a = error b -> scenes a = scenes b -> scripts a = scripts b ->
  assets a = assets b -> other a = other b -> a = b.
Proof. destruct a, b. simpl. intros. now subst. Qed.

Lemma files_cons k project entryName child rest :
  files k (Dir project (Some ((entryName, child) :: rest)))
  = (if hidden entryName then 0
     else match child with
          | Dir _ _ => files k child
          | File => if sameKind (classify entryName) k then 1 else 0
          | Other => 0
          end)
    + files k (Dir project (Some rest)).
Proof. reflexivity. Qed.

Lemma scanDirectory_census (node : Node) :
  forall s,
    scanDirectory node s = if readable node then Some (census node s) else None.
Proof.
  induction node as [| |project|project entries IH] using Node_induction;
    intros s; try reflexivity.
  cbn [scanDirectory readable]. revert s.
  induction entries as [|[entryName child] rest IHrest]; intros s.
  - cbn. f_equal. apply Structure_eq; cbn; try reflexivity; lia.
  - inversion IH as [|? ? IHchild IHothers]; subst. cbn [snd] in IHchild.
    specialize (IHrest IHothers).
    cbn [forEach forallb]. fold (@forEach (string * Node) Structure).
    assert (Hsum : forall s',
      (forall k, match k with
                 | Scene => scenes s' | Script => scripts s'
                 | Asset => assets s' | Unknown => other s'
                 end
                 = match k with
                   | Scene => scenes s | Script => scripts s
                   | Asset => assets s | Unknown => other s
                   end
                   + (if hidden entryName then 0
                      else match child with
                           | Dir _ _ => files k child
                           | File => if sameKind (classify entryName) k then 1 else 0
                           | Other => 0
                           end)) ->
      error s' = error s ->
      census (Dir project (Some rest)) s'
      = census (Dir project (Some ((entryName, child) :: rest))) s).
    { intros s' Hk He.
      pose proof (Hk Scene) as H1. pose proof (Hk Script) as H2.
      pose proof (Hk Asset) as H3. pose proof (Hk Unknown) as H4.
      apply Structure_eq; unfold census; cbn [error scenes scripts assets other];
        rewrite ?files_cons; [exact He | lia ..]. }
    destruct (hidden entryName) eqn:Hvisible; cbn [orb].
    { rewrite IHrest. cbn [andb]. destruct (forallb _ rest); [|reflexivity].
      f_equal. apply Hsum; [intros []; lia | reflexivity]. }
    destruct child as [| |subproject sublisting].
    + rewrite IHrest. cbn [andb]. destruct (forallb _ rest); [|reflexivity].
      f_equal. apply Hsum; [|now destruct (classify entryName)].
      intros []; destruct (classify entryName); cbn; lia.
    + rewrite IHrest. cbn [andb]. destruct (forallb _ rest); [|reflexivity].
      f_equal. apply Hsum; [intros []; lia | reflexivity].
    + rewrite IHchild.
      destruct (readable (Dir subproject sublisting)); [|reflexivity].
      rewrite IHrest. cbn [andb]. destruct (forallb _ rest); [|reflexivity].
      f_equal. apply Hsum; [intros []; reflexivity | reflexivity].
Qed.

End Census.

(** X17.  [getProjectStructureAsync] counts every regular file that no
    hidden name leads to exactly once, under the kind of its extension,
    when every directory it enters can be read; when one of them cannot,
    what was counted before is dropped and the object with [error] and
    four zeros is resolved.  Directories under a hidden name are not
    entered, so they need not be readable. *)
Theorem structure_counts_each_visible_file_once_or_nothing (node : InfoHandler.Node) :
  InfoHandler.getProjectStructure node =
  if readable node
  then {| InfoHandler.error := None;
          InfoHandler.scenes := files InfoHandler.Scene node;
          InfoHandler.scripts := files InfoHandler.Script node;
          InfoHandler.assets := files InfoHandler.Asset node;
          InfoHandler.other := files InfoHandler.Unknown node |}
  else {| InfoHandler.error := Some "Failed to get project structure";
          InfoHandler.scenes := 0;
          InfoHandler.scripts := 0;
          InfoHandler.assets := 0;
          InfoHandler.other := 0 |}.
Proof.
  unfold InfoHandler.getProjectStructure. rewrite scanDirectory_census.
  destruct (readable node); reflexivity.
Qed.

(** *** The extension of a file name *)

Lemma last_nonempty {A : Type} (x d : A) (l : list A) :
  l <> [] -> List.last (x :: l) d = List.last l d.
Proof. destruct l; [congruence | reflexivity]. Qed.

Lemma last_split_app sep (stem rest : string) (d : string) :
  List.last (Js.split sep (stem +:+ String sep rest)) d
  = List.last (Js.split sep rest) d.
Proof.
  induction stem as [|c stem IH].
  - rewrite append_nil_l. cbn [Js.split]. rewrite Ascii.eqb_refl.
    apply last_nonempty, split_nonnil.
  - rewrite append_cons. cbn [Js.split].
    pose proof (split_length sep (stem +:+ String sep rest)) as L.
    rewrite count_app in L. cbn [Js.count] in L. rewrite Ascii.eqb_refl in L.
    destruct (Js.split sep (stem +:+ String sep rest)) as [|p [|q l]];
      [simpl in L; lia | simpl in L; lia |].
    rewrite <- IH. destruct (Ascii.eqb c sep); reflexivity.
Qed.

Lemma lower_dot (c : ascii) : Ascii.eqb (InfoHandler.lower c) "." = Ascii.eqb c ".".
Proof. destruct c as [[] [] [] [] [] [] [] []]; reflexivity. Qed.

Lemma lower_lower (c : ascii) :
  InfoHandler.lower (InfoHandler.lower c) = InfoHandler.lower c.
Proof. destruct c as [[] [] [] [] [] [] [] []]; reflexivity. Qed.

Lemma toLowerCase_twice (s : string) :
  InfoHandler.toLowerCase (InfoHandler.toLowerCase s) = InfoHandler.toLowerCase s.
Proof.
  induction s as [|c s IH]; [reflexivity|].
  cbn [InfoHandler.toLowerCase]. now rewrite lower_lower, IH.
Qed.

Lemma split_toLowerCase (s : string) :
  Js.split "." (InfoHandler.toLowerCase s)
  = List.map InfoHandler.toLowerCase (Js.split "." s).
Proof.
  induction s as [|c s IH]; [reflexivity|].
  cbn [InfoHandler.toLowerCase Js.split]. rewrite lower_dot, IH.
  destruct (Ascii.eqb c "."); [reflexivity|].
  destruct (Js.split "." s); reflexivity.
Qed.

Lemma last_map_toLowerCase (l : list string) :
  List.last (List.map InfoHandler.toLowerCase l) ""
  = InfoHandler.toLowerCase (List.last l "").
Proof.
  induction l as [|x [|y l] IH]; [reflexivity | reflexivity |].
  exact IH.
Qed.

(** X18.  The kind under which [getProjectStructureAsync] counts a file
    is read off what follows the last dot of its name, whatever the
    case of the letters; a name without a dot is taken as its own
    extension, so a file called [gd] counts as a script. *)
Theorem kind_is_read_off_the_last_extension :
  (forall stem rest,
     InfoHandler.classify (stem +:+ "." +:+ rest) = InfoHandler.classify rest)
  /\ (forall entryName,
        InfoHandler.classify (InfoHandler.toLowerCase entryName)
        = InfoHandler.classify entryName)
  /\ (forall entryName,
        Js.count "." entryName = 0 ->
        InfoHandler.extension entryName = InfoHandler.toLowerCase entryName).
Proof.
  split; [|split].
  - intros stem rest. unfold InfoHandler.classify, InfoHandler.extension.
    change ("." +:+ rest) with (String "." rest).
    now rewrite last_split_app.
  - intros entryName. unfold InfoHandler.classify, InfoHandler.extension.
    now rewrite split_toLowerCase, last_map_toLowerCase, toLowerCase_twice.
  - intros entryName H. unfold InfoHandler.extension.
    now rewrite split_one.
Qed.

(** ** More of the concrete world

    Further instances of the parameters: an executable of version 4.3,
    children that cannot be started at all, and the server as [run]
    leaves it. *)

Module Scenario.

Definition spriteArgs : ToolArgs Z :=
  {| projectPath := Some "/games/demo"; scene := None; directory := None;
     recursive := None; scenePath := Some "main.tscn"; rootNodeType := None;
     parentNodePath := None; nodeType := None; nodeName := None;
     properties := None; nodePath := Some "root/Hero";
     texturePath := Some "icon.png"; outputPath := None; meshItemNames := None;
     newPath := None; filePath := None |}.

Definition uidArgs : ToolArgs Z :=
  {| projectPath := Some "/games/demo"; scene := None; directory := None;
     recursive := None; scenePath := None; rootNodeType := None;
     parentNodePath := None; nodeType := None; nodeName := None;
     properties := None; nodePath := None; texturePath := None;
     outputPath := None; meshItemNames := None; newPath := None;
     filePath := Some "icon.png" |}.

(** What [load_sprite] is started with, what it answers and the state
    it leaves. *)
Definition spriteArgv : list string :=
  expectedArgs Z Sample.JSON_stringify Sample.convertCamelToSnakeCase
    (operationExecutor Sample.ready) "load_sprite"
    (JObj [ ("scenePath", JStr "main.tscn"); ("nodePath", JStr "root/Hero");
            ("texturePath", JStr "icon.png") ])
    "/games/demo".

Definition answer : ToolResponse :=
  match fst (Sample.call "load_sprite" (Some spriteArgs) Sample.ready) with
  | Fulfilled resp => resp
  | Raised _ => textResponse ""
  end.

Definition afterSprite : ServerState :=
  snd (Sample.call "load_sprite" (Some spriteArgs) Sample.ready).

(** An executable of an older version. *)
Definition oldExec (commandLine : string) : string + string :=
  inl "4.3.stable.official".

Definition oldCall : string -> option (ToolArgs Z) -> M ToolResponse :=
  callTool Z Sample.existsSync Sample.path_join Sample.detectedGodotPath
    oldExec Sample.childProcess Sample.String_trim Sample.JSON_stringify
    Sample.JSON_stringify Sample.convertCamelToSnakeCase
    Sample.McpError_message Sample.TypeError_message Sample.findGodotProjects
    Sample.getProjectStructure Sample.projectNameOf.

(** An executable the operating system refuses to start. *)
Definition brokenChild (command : string) (argv : list string) : ChildOutcome :=
  ChildError "spawn EACCES".

Definition brokenCall : string -> option (ToolArgs Z) -> M ToolResponse :=
  callTool Z Sample.existsSync Sample.path_join Sample.detectedGodotPath
    Sample.execOutcome brokenChild Sample.String_trim Sample.JSON_stringify
    Sample.JSON_stringify Sample.convertCamelToSnakeCase
    Sample.McpError_message Sample.TypeError_message Sample.findGodotProjects
    Sample.getProjectStructure Sample.projectNameOf.

Definition start : option (ToolArgs Z) -> M RunState :=
  handleRunProject_start Z Sample.existsSync Sample.path_join
    Sample.detectedGodotPath Sample.childProcess Sample.TypeError_message.

(** The states after one and after two starts whose ['spawn'] events
    have not arrived yet, and the process of the second start. *)
Definition started : ServerState := snd (start (Some Sample.projectArgs) Sample.ready).

Definition startedTwice : ServerState := snd (start (Some Sample.projectArgs) started).

Definition second : GodotProcess := {| process := 1; output := 2; errors := 3 |}.

(** The server that [run] leaves connected, with the default
    configuration. *)
Definition served : GodotServer :=
  {| handlers := Sample.ready;
     strictPathValidation := false;
     processManager := {| manager_activeProcess := None; manager_debugMode := false |} |}.

(** A run, a line of its output, and its exit. *)
Definition session : list (Input Z) :=
  [ Call Z "run_project" (Some Sample.projectArgs);
    Data Z Sample.first (Stdout, "ready" +:+ String Js.LF "");
    Call Z "create_scene" (Some Sample.sceneArgs) ].

End Scenario.

(** X2 at [save_scene] with a new path outside the project. *)
Lemma unsafe_path_witness :
  existsb unsafeOptional (validatedPaths Z "save_scene" Sample.unsafeArgs) = true
  /\ exists resp,
       Sample.call "save_scene" (Some Sample.unsafeArgs) Sample.ready
       = (Fulfilled resp, Sample.ready)
       /\ flagged resp = true.
Proof.
  split; [reflexivity|].
  exact (unsafe_path_is_refused_before_any_effect Z Sample.existsSync
           Sample.path_join Sample.detectedGodotPath Sample.execOutcome
           Sample.childProcess Sample.String_trim Sample.JSON_stringify
           Sample.JSON_stringify Sample.convertCamelToSnakeCase
           Sample.McpError_message Sample.TypeError_message
           Sample.findGodotProjects Sample.getProjectStructure
           Sample.projectNameOf "save_scene" Sample.unsafeArgs Sample.ready
           eq_refl).
Defined.

(** X3 at [get_uid] with an executable of version 4.3. *)
Lemma old_godot_witness :
  (forall godot out,
     required Sample.detectedGodotPath = Some godot ->
     Scenario.oldExec (versionCommand godot) = inl out ->
     Version.isGodot44OrLater (Sample.String_trim out) = false)
  /\ exists resp s',
       Scenario.oldCall "get_uid" (Some Scenario.uidArgs) Sample.ready
       = (Fulfilled resp, s')
       /\ flagged resp = true
       /\ spawns (effects s') = spawns (effects Sample.ready).
Proof.
  assert (Hold : forall godot out,
             required Sample.detectedGodotPath = Some godot ->
             Scenario.oldExec (versionCommand godot) = inl out ->
             Version.isGodot44OrLater (Sample.String_trim out) = false).
  { intros godot out _ H. injection H as <-. reflexivity. }
  split; [exact Hold|].
  exact (old_godot_runs_no_uid_operation Z Sample.existsSync
           Sample.path_join Sample.detectedGodotPath Scenario.oldExec
           Sample.childProcess Sample.String_trim Sample.JSON_stringify
           Sample.JSON_stringify Sample.convertCamelToSnakeCase
           Sample.McpError_message Sample.TypeError_message
           Sample.findGodotProjects Sample.getProjectStructure
           Sample.projectNameOf "get_uid" (Some Scenario.uidArgs) Sample.ready
           (or_introl eq_refl) Hold).
Defined.

(** X4 at [load_sprite], whose child cannot be started. *)
Lemma spawn_error_reported_witness :
  discrete "load_sprite" = true
  /\ Sample.call "load_sprite" (Some Scenario.spriteArgs) Sample.ready
     = (Fulfilled Scenario.answer, Scenario.afterSprite)
  /\ effects Scenario.afterSprite
     = effects Sample.ready ++ [] ++ [Spawn 0 "/usr/bin/godot" Scenario.spriteArgv]
  /\ Sample.childProcess "/usr/bin/godot" Scenario.spriteArgv
     = ChildError "spawn ENOENT"
  /\ Scenario.answer
     = createErrorResponse "Failed to load sprite: spawn ENOENT" installHints
  /\ flagged Scenario.answer = true.
Proof.
  split; [reflexivity|]. split; [reflexivity|].
  split; [reflexivity|]. split; [reflexivity|].
  exact (spawn_error_of_a_discrete_tool_is_reported Z Sample.existsSync
           Sample.path_join Sample.detectedGodotPath Sample.execOutcome
           Sample.childProcess Sample.String_trim Sample.JSON_stringify
           Sample.JSON_stringify Sample.convertCamelToSnakeCase
           Sample.McpError_message Sample.TypeError_message
           Sample.findGodotProjects Sample.getProjectStructure
           Sample.projectNameOf "load_sprite" (Some Scenario.spriteArgs)
           Sample.ready Scenario.afterSprite Scenario.answer
           [] 0 "/usr/bin/godot" Scenario.spriteArgv "spawn ENOENT"
           eq_refl eq_refl eq_refl eq_refl).
Defined.

(** X5 at an executable that cannot be started: the run and the launch
    of the editor both end in [Unknown error]. *)
Lemma spawn_error_lost_witness :
  required (projectPath Z Sample.projectArgs) = Some "/games/demo"
  /\ PathValidator.validatePath "/games/demo" = true
  /\ Sample.existsSync (Sample.path_join "/games/demo" "project.godot") = true
  /\ required Sample.detectedGodotPath = Some "/usr/bin/godot"
  /\ fst (Scenario.brokenCall "run_project" (Some Sample.projectArgs) Sample.ready)
     = Fulfilled
         (createErrorResponse "Tool execution failed: Unknown error"
            ["Check the tool parameters and try again"])
  /\ fst (Scenario.brokenCall "launch_editor" (Some Sample.projectArgs) Sample.ready)
     = Fulfilled
         (createErrorResponse "Tool execution failed: Unknown error"
            ["Check the tool parameters and try again"]).
Proof.
  split; [reflexivity|]. split; [reflexivity|].
  split; [reflexivity|]. split; [reflexivity|].
  destruct (spawn_error_of_a_start_tool_is_lost Z Sample.existsSync
              Sample.path_join Sample.detectedGodotPath Sample.execOutcome
              Scenario.brokenChild Sample.String_trim Sample.JSON_stringify
              Sample.JSON_stringify Sample.convertCamelToSnakeCase
              Sample.McpError_message Sample.TypeError_message
              Sample.findGodotProjects Sample.getProjectStructure
              Sample.projectNameOf Sample.projectArgs Sample.ready
              "/games/demo" "/usr/bin/godot" "spawn EACCES"
              eq_refl eq_refl eq_refl eq_refl) as [Hrun Hedit].
  split; [exact (proj2 (Hrun eq_refl)) | exact (proj2 (Hedit eq_refl))].
Defined.

(** X6 at a line that arrives before the ['spawn'] event. *)
Lemma early_output_witness :
  Scenario.start (Some Sample.projectArgs) Sample.ready
  = (Fulfilled (RunWaiting Sample.first (ChildRuns [] [] None)), Scenario.started)
  /\ exists s3,
       held s3 = [Sample.first]
       /\ handleGetDebugOutput Z Sample.JSON_stringify s3
          = (Fulfilled
               (textResponse
                  (Sample.JSON_stringify
                     (JObj [ ("output", JArr [JStr "ready"; JStr ""]);
                             ("errors", JArr []) ]))),
             s3).
Proof.
  split; [reflexivity|].
  destruct (early_output_is_kept Z Sample.existsSync Sample.path_join
              Sample.detectedGodotPath Sample.childProcess
              Sample.JSON_stringify Sample.TypeError_message
              (Some Sample.projectArgs) Sample.ready Scenario.started
              Sample.first (ChildRuns [] [] None)
              [(Stdout, "ready" +:+ String Js.LF "")] eq_refl)
    as (s3 & _ & Hheld & Hout).
  exists s3. split; [exact Hheld | exact Hout].
Defined.

(** X7 at two runs of the same project. *)
Lemma racing_runs_witness :
  activeProcess Sample.ready = None
  /\ Scenario.start (Some Sample.projectArgs) Sample.ready
     = (Fulfilled (RunWaiting Sample.first (ChildRuns [] [] None)), Scenario.started)
  /\ Scenario.start (Some Sample.projectArgs) Scenario.started
     = (Fulfilled (RunWaiting Scenario.second (ChildRuns [] [] None)),
        Scenario.startedTwice)
  /\ effects
       (snd (handleStopProject Z Sample.JSON_stringify
               (snd (onSpawn Scenario.second
                       (snd (onSpawn Sample.first Scenario.startedTwice))))))
     = [ Spawn 0 "/usr/bin/godot" ["-d"; "--path"; "/games/demo"];
         Spawn 1 "/usr/bin/godot" ["-d"; "--path"; "/games/demo"];
         Kill 1 ].
Proof.
  split; [reflexivity|]. split; [reflexivity|]. split; [reflexivity|].
  destruct (racing_runs_leak_the_first_process Z Sample.existsSync
              Sample.path_join Sample.detectedGodotPath Sample.childProcess
              Sample.JSON_stringify Sample.TypeError_message
              Sample.ready Scenario.started Scenario.startedTwice
              (Some Sample.projectArgs) (Some Sample.projectArgs)
              Sample.first Scenario.second
              (ChildRuns [] [] None) (ChildRuns [] [] None)
              eq_refl eq_refl eq_refl) as (_ & _ & _ & Hstop & _).
  rewrite Hstop. reflexivity.
Defined.

(** X8 at the exit of the first process of the sample. *)
Lemma exit_witness :
  activeProcess Sample.running = Some Sample.first
  /\ held (onExit Sample.first Sample.running) = []
  /\ effects (onExit Sample.first Sample.running) = effects Sample.running
  /\ fst (handleStopProject Z Sample.JSON_stringify
            (onExit Sample.first Sample.running))
     = Fulfilled
         (createErrorResponse "No active Godot process to stop."
            [ "Use run_project to start a Godot project first";
              "The process may have already terminated" ]).
Proof.
  split; [reflexivity|].
  destruct (exit_of_the_registered_process_empties_the_slot Z
              Sample.JSON_stringify Sample.running Sample.first eq_refl)
    as (H1 & H2 & _ & _ & H5 & _).
  split; [exact H1|]. split; [exact H2|]. now rewrite H5.
Defined.

(** X9 at the default configuration, after a run, a line of output and
    a scene creation. *)
Lemma served_states_witness :
  run Sample.detectedGodotPath
    (construct None false "/opt/godot-mcp/scripts/godot_operations.gd")
    true (Some true) true
  = Serving Scenario.served
  /\ godotPath
       (operationExecutor
          (reach Z Sample.existsSync Sample.path_join Sample.detectedGodotPath
             Sample.execOutcome Sample.childProcess Sample.String_trim
             Sample.JSON_stringify Sample.JSON_stringify
             Sample.convertCamelToSnakeCase Sample.McpError_message
             Sample.TypeError_message Sample.findGodotProjects
             Sample.getProjectStructure Sample.projectNameOf
             Scenario.session (handlers Scenario.served)))
     = Some "/usr/bin/godot".
Proof.
  split; [reflexivity|].
  destruct (served_states_keep_the_executable Z Sample.existsSync
              Sample.path_join Sample.detectedGodotPath Sample.execOutcome
              Sample.childProcess Sample.String_trim Sample.JSON_stringify
              Sample.JSON_stringify Sample.convertCamelToSnakeCase
              Sample.McpError_message Sample.TypeError_message
              Sample.findGodotProjects Sample.getProjectStructure
              Sample.projectNameOf None false
              "/opt/godot-mcp/scripts/godot_operations.gd" true (Some true) true
              Scenario.served eq_refl)
    as (godot & isValid & Hg & _ & _ & _ & _ & Hreach).
  destruct (Hreach Scenario.session) as [Hpath _].
  rewrite Hpath. rewrite <- Hg. reflexivity.
Defined.

(** X11 at the same session: the cleanup signals nothing although a
    process is registered. *)
Lemma server_cleanup_witness :
  run Sample.detectedGodotPath
    (construct None false "/opt/godot-mcp/scripts/godot_operations.gd")
    true (Some true) true
  = Serving Scenario.served
  /\ activeProcess
       (handlers
          (GodotServer_cleanup
             (serve Z Sample.existsSync Sample.path_join Sample.detectedGodotPath
                Sample.execOutcome Sample.childProcess Sample.String_trim
                Sample.JSON_stringify Sample.JSON_stringify
                Sample.convertCamelToSnakeCase Sample.McpError_message
                Sample.TypeError_message Sample.findGodotProjects
                Sample.getProjectStructure Sample.projectNameOf
                Scenario.session Scenario.served)))
     = Some Sample.first.
Proof.
  split; [reflexivity|].
  destruct (server_cleanup_leaves_the_supervised_process Z Sample.existsSync
              Sample.path_join Sample.detectedGodotPath Sample.execOutcome
              Sample.childProcess Sample.String_trim Sample.JSON_stringify
              Sample.JSON_stringify Sample.convertCamelToSnakeCase
              Sample.McpError_message Sample.TypeError_message
              Sample.findGodotProjects Sample.getProjectStructure
              Sample.projectNameOf None false
              "/opt/godot-mcp/scripts/godot_operations.gd" true (Some true) true
              Scenario.served Scenario.session eq_refl) as (_ & _ & Hslot).
  rewrite Hslot. reflexivity.
Defined.

(** *** A directory to search *)

Module Disk.

Import InfoHandler.

Definition basename (p : string) : string := List.last (Js.split "/" p) "".

(** A work directory with a project two levels down that holds a
    project of its own, a hidden directory that is a project, a plain
    project, and a directory that cannot be read. *)
Definition work : Node :=
  Dir false
    (Some
       [ ("games",
          Dir false
            (Some
               [ ("demo",
                  Dir true
                    (Some
                       [ ("project.godot", File);
                         ("Main.TSCN", File);
                         ("player.gd", File);
                         ("addons", Dir true (Some [("project.godot", File)])) ]));
                 ("notes.txt", File) ]));
         (".cache", Dir true (Some [("project.godot", File)]));
         ("tool", Dir true (Some [("project.godot", File); ("icon.png", File)]));
         ("locked", Dir false None);
         ("README", File) ]).

Definition search : bool -> list Project :=
  findGodotProjects Sample.path_join basename "/work" work.

End Disk.

(** X10 at a manager that holds nothing. *)
Lemma process_manager_witness :
  manager_activeProcess
    {| manager_activeProcess := None; manager_debugMode := false |} = None
  /\ ProcessManager_cleanup
       {| manager_activeProcess := None; manager_debugMode := false |}
     = ([], {| manager_activeProcess := None; manager_debugMode := false |}).
Proof.
  split; [reflexivity|].
  destruct (process_manager_cleanup_signals_once
              {| manager_activeProcess := None; manager_debugMode := false |}
              Sample.first Scenario.second) as (_ & _ & Hempty & _).
  exact (Hempty eq_refl).
Defined.

(** X12 at a path with a space. *)
Lemma escaped_path_witness :
  Js.includes " " "C:/Program Files/Godot/godot.exe" = true
  /\ String.prefix Js.quote
       (WindowsCompat.escapeWindowsPath "C:/Program Files/Godot/godot.exe") = true
  /\ WindowsCompat.escapeWindowsPath
       (WindowsCompat.escapeWindowsPath "C:/Program Files/Godot/godot.exe")
     = WindowsCompat.escapeWindowsPath "C:/Program Files/Godot/godot.exe".
Proof.
  split; [reflexivity|].
  destruct (escapeWindowsPath_is_idempotent "C:/Program Files/Godot/godot.exe")
    as (Hsame & _ & Hspace).
  split; [exact (proj1 (Hspace eq_refl)) | exact Hsame].
Defined.

(** X14 at the output of a 4.4.1 executable. *)
Lemma version_pair_witness :
  Version.isGodot44OrLater "4.4.1.stable.official" = true.
Proof.
  apply (proj2 (isGodot44OrLater_reads_major_and_minor "4.4.1.stable.official")).
  exists "4", "4", ".1.stable.official".
  split; [reflexivity|]. split; [discriminate|]. split; [reflexivity|].
  split; [discriminate|]. split; [reflexivity|]. split; [reflexivity|].
  right. split; [reflexivity | apply N.le_refl].
Defined.

(** X15 at the project two levels down. *)
Lemma recursive_search_witness :
  In {| InfoHandler.path := "/work/games/demo"; InfoHandler.name := "demo" |}
     (Disk.search true).
Proof.
  apply (proj2 (recursive_search_lists_what_it_reaches Sample.path_join
                  Disk.basename "/work" false _
                  {| InfoHandler.path := "/work/games/demo";
                     InfoHandler.name := "demo" |})).
  right. eexists _, ["games"; "demo"].
  split; [reflexivity|]. split; [|reflexivity].
  eapply visits_descend; [now left | reflexivity |].
  eapply visits_project; [now left | reflexivity].
Defined.

(** X16 at the hidden project directory: listed by the plain search. *)
Lemma hidden_project_witness :
  In {| InfoHandler.path := "/work/.cache"; InfoHandler.name := ".cache" |}
     (Disk.search false)
  /\ InfoHandler.hidden ".cache" = true.
Proof.
  split; [|reflexivity].
  destruct (hidden_projects_are_listed_only_without_recursion
              Sample.path_join Disk.basename "/work" Disk.work)
    as (_ & _ & Hplain).
  eapply (Hplain false _ ".cache"); [reflexivity|].
  right. now left.
Defined.

(** X18 at a texture with two dots and capitals in its name. *)
Lemma extension_witness :
  InfoHandler.classify "hero.sprite.PNG" = InfoHandler.classify "PNG"
  /\ InfoHandler.classify "PNG" = InfoHandler.Asset.
Proof.
  split; [|reflexivity].
  exact (proj1 kind_is_read_off_the_last_extension "hero.sprite" "PNG").
Defined.

(** The two searches and the count on the work directory. *)
Example searches_of_the_work_directory :
  Disk.search false
  = [ {| InfoHandler.path := "/work/.cache"; InfoHandler.name := ".cache" |};
      {| InfoHandler.path := "/work/tool"; InfoHandler.name := "tool" |} ]
  /\ Disk.search true
     = [ {| InfoHandler.path := "/work/games/demo"; InfoHandler.name := "demo" |};
         {| InfoHandler.path := "/work/tool"; InfoHandler.name := "tool" |} ]
  /\ InfoHandler.getProjectStructure Disk.work
     = InfoHandler.noFiles (Some "Failed to get project structure")
  /\ InfoHandler.getProjectStructure
       (InfoHandler.Dir true
          (Some
             [ ("project.godot", InfoHandler.File);
               ("Main.TSCN", InfoHandler.File);
               ("player.gd", InfoHandler.File);
               (".import", InfoHandler.Dir false None);
               ("art", InfoHandler.Dir false (Some [("hero.sprite.PNG", InfoHandler.File)])) ]))
     = {| InfoHandler.error := None;
          InfoHandler.scenes := 1;
          InfoHandler.scripts := 1;
          InfoHandler.assets := 1;
          InfoHandler.other := 1 |}.
Proof. repeat split. Qed.

(** X19 at a name the server does not list. *)
Lemma unlisted_tool_witness :
  existsb (String.eqb "open_portal") (List.map tool_name listTools) = false
  /\ Sample.call "open_portal" (Some Sample.projectArgs) Sample.ready
     = (Fulfilled
          (createErrorResponse
             "Tool execution failed: MCP error -32601: Unknown tool: open_portal"
             ["Check the tool parameters and try again"]),
        Sample.ready).
Proof.
  split; [reflexivity|].
  exact (unlisted_tool_is_unknown Z Sample.existsSync Sample.path_join
           Sample.detectedGodotPath Sample.execOutcome Sample.childProcess
           Sample.String_trim Sample.JSON_stringify Sample.JSON_stringify
           Sample.convertCamelToSnakeCase Sample.McpError_message
           Sample.TypeError_message Sample.findGodotProjects
           Sample.getProjectStructure Sample.projectNameOf
           "open_portal" (Some Sample.projectArgs) Sample.ready eq_refl).
Defined.

(** X20 at [create_scene] without a scene path. *)
Lemma required_property_witness :
  In {| tool_name := "create_scene"; tool_required := ["projectPath"; "scenePath"] |}
     listTools
  /\ existsb (missing Z Sample.projectArgs) ["projectPath"; "scenePath"] = true
  /\ exists resp,
       Sample.call "create_scene" (Some Sample.projectArgs) Sample.ready
       = (Fulfilled resp, Sample.ready)
       /\ flagged resp = true.
Proof.
  assert (Hin : In {| tool_name := "create_scene";
                      tool_required := ["projectPath"; "scenePath"] |} listTools).
  { do 7 right. now left. }
  split; [exact Hin|]. split; [reflexivity|].
  exact (listed_tool_checks_its_required_properties Z Sample.existsSync
           Sample.path_join Sample.detectedGodotPath Sample.execOutcome
           Sample.childProcess Sample.String_trim Sample.JSON_stringify
           Sample.JSON_stringify Sample.convertCamelToSnakeCase
           Sample.McpError_message Sample.TypeError_message
           Sample.findGodotProjects Sample.getProjectStructure
           Sample.projectNameOf
           {| tool_name := "create_scene";
              tool_required := ["projectPath"; "scenePath"] |}
           Sample.projectArgs Sample.ready Hin eq_refl).
Defined.

(** X21 at [list_projects] without arguments. *)
Lemma no_arguments_witness :
  In {| tool_name := "list_projects"; tool_required := ["directory"] |} listTools
  /\ Sample.call "list_projects" None Sample.ready
     = (Fulfilled
          (createErrorResponse
             "Tool execution failed: Cannot read properties of undefined (reading 'directory')"
             ["Check the tool parameters and try again"]),
        Sample.ready).
Proof.
  assert (Hin : In {| tool_name := "list_projects"; tool_required := ["directory"] |}
                   listTools).
  { do 5 right. now left. }
  split; [exact Hin|].
  exact (listed_tool_without_arguments Z Sample.existsSync Sample.path_join
           Sample.detectedGodotPath Sample.execOutcome Sample.childProcess
           Sample.String_trim Sample.JSON_stringify Sample.JSON_stringify
           Sample.convertCamelToSnakeCase Sample.McpError_message
           Sample.TypeError_message Sample.findGodotProjects
           Sample.getProjectStructure Sample.projectNameOf
           {| tool_name := "list_projects"; tool_required := ["directory"] |}
           Sample.ready Hin).
Defined.

(** X22 at a scene creation while the first process runs. *)
Lemma supervised_process_untouched_witness :
  String.eqb "create_scene" "run_project" = false
  /\ String.eqb "create_scene" "stop_project" = false
  /\ activeProcess
       (snd (Sample.call "create_scene" (Some Sample.sceneArgs) Sample.running))
     = Some Sample.first
  /\ arrays (snd (Sample.call "create_scene" (Some Sample.sceneArgs) Sample.running))
     = [[]; []].
Proof.
  split; [reflexivity|]. split; [reflexivity|].
  destruct (only_run_and_stop_touch_the_supervised_process Z Sample.existsSync
              Sample.path_join Sample.detectedGodotPath Sample.execOutcome
              Sample.childProcess Sample.String_trim Sample.JSON_stringify
              Sample.JSON_stringify Sample.convertCamelToSnakeCase
              Sample.McpError_message Sample.TypeError_message
              Sample.findGodotProjects Sample.getProjectStructure
              Sample.projectNameOf "create_scene" (Some Sample.sceneArgs)
              Sample.running eq_refl eq_refl) as (Hslot & Harrays & _).
  split; [exact Hslot | exact Harrays].
Defined.
